(** * PDF steganography codec: a shallow embedding of [pdf_stego.py]

    The development follows the class [PDFSteganography]:
    - Python values: [bytes] objects are lists of [byte], [str] objects are
      lists of Unicode code points, [int]s are [Z];
    - the library calls the class makes ([bytes.find], [bytes.rfind], [in],
      slicing, [struct.pack]/[struct.unpack] with format [<I], the UTF-8
      codec, [os.path.basename]/[splitext]/[join] in their POSIX variant) are
      written out as functions; [str.lower] is written out for ASCII strings
      and follows a parameter on the others;
    - the file system is explicit state: a finite map from path strings to
      nodes (a regular file with its content, or a directory), threaded
      through a small state-and-exception monad.  Paths are compared as
      written, the directories above a path are taken to exist, and the
      only input and output errors are those the map can show: a missing
      file, a directory where a file is expected, a file where a directory
      is expected, the empty path.  Where a property depends on which node
      a path names, or on the directories above it, it is stated for
      canonical paths in a map that describes a directory tree;
    - every method is a body in that monad wrapped in [try_except], the
      [try: ... except Exception as e:] of the source.  The methods are
      given first without the messages they print, which is what they do
      when every print goes through, and then with them.

    Definitions come first, then the properties: the library functions,
    the methods one by one, and at the end the claims about the codec. *)

From Stdlib Require Import ZArith NArith Lia List.
From Stdlib Require Import Strings.String Strings.Ascii Strings.Byte.
From stdpp Require Import base decidable option list gmap strings pretty.

Local Open Scope Z_scope.

(** ** Bytes *)

Definition bytes := list byte.

#[global] Instance byte_eq_dec : EqDecision byte := Byte.byte_eq_dec.

(** A bytes literal [b"..."] of the source. *)
Definition bytes_of (s : string) : bytes := list_byte_of_string s.

Definition Z_of_byte (x : byte) : Z := Z.of_N (Byte.to_N x).

Definition byte_of_Z (z : Z) : byte :=
  match Byte.of_N (Z.to_N z) with
  | Some x => x
  | None => x00
  end.

(** ** Sequences: [startswith], [find], [rfind], [in], slicing

    These are shared by [bytes] and [str]; the element type only needs a
    decidable equality. *)

Section Sequences.
Context {A : Type} `{EqDecision A}.

Fixpoint starts_with (sub s : list A) : bool :=
  match sub, s with
  | [], _ => true
  | _ :: _, [] => false
  | x :: sub', y :: s' => bool_decide (x = y) && starts_with sub' s'
  end.

(** [find_from sub s i]: lowest index (counted from [i]) at which [sub]
    occurs in [s]. *)
Fixpoint find_from (sub s : list A) (i : nat) : option nat :=
  if starts_with sub s then Some i
  else match s with
       | [] => None
       | _ :: s' => find_from sub s' (S i)
       end.

(** [s.find(sub)]: lowest index of an occurrence, [-1] when there is none. *)
Definition find (s sub : list A) : Z :=
  match find_from sub s 0 with
  | Some i => Z.of_nat i
  | None => -1
  end.

(** [rfind_from sub s i]: highest index (counted from [i]) of an occurrence. *)
Fixpoint rfind_from (sub s : list A) (i : nat) : option nat :=
  match s with
  | [] => if starts_with sub [] then Some i else None
  | _ :: s' =>
      match rfind_from sub s' (S i) with
      | Some j => Some j
      | None => if starts_with sub s then Some i else None
      end
  end.

(** [s.rfind(sub)]: highest index of an occurrence, [-1] when there is none. *)
Definition rfind (s sub : list A) : Z :=
  match rfind_from sub s 0 with
  | Some i => Z.of_nat i
  | None => -1
  end.

(** [sub in s]. *)
Fixpoint contains (s sub : list A) : bool :=
  starts_with sub s ||
  match s with
  | [] => false
  | _ :: s' => contains s' sub
  end.

(** An index of a slice, clamped as Python does: a negative index counts
    from the end, and everything is cut to [0 .. len s]. *)
Definition clamp_index (n : nat) (i : Z) : nat :=
  if i <? 0 then Z.to_nat (Z.max 0 (i + Z.of_nat n))
  else Z.to_nat (Z.min i (Z.of_nat n)).

(** [s[lo:hi]]. *)
Definition slice (s : list A) (lo hi : Z) : list A :=
  let l := clamp_index (length s) lo in
  let h := clamp_index (length s) hi in
  take (h - l) (drop l s).

(** [s[lo:]]. *)
Definition slice_from (s : list A) (lo : Z) : list A :=
  drop (clamp_index (length s) lo) s.

(** [len(s)] as a Python int. *)
Definition len (s : list A) : Z := Z.of_nat (length s).

(** [sub] occurs in [s] at index [i]. *)
Definition occurs_at (sub s : list A) (i : nat) : Prop :=
  take (length sub) (drop i s) = sub.
End Sequences.

(** ** [str] and the UTF-8 codec

    A Python [str] is a sequence of code points.  [str.encode('utf-8')] and
    [bytes.decode('utf-8')] are the strict codec: surrogates cannot be
    encoded; overlong forms, surrogates and values above U+10FFFF are
    rejected on decoding. *)

Definition str := list N.

(** An ASCII string literal of the source as a [str]. *)
Definition str_of (s : string) : str := Byte.to_N <$> list_byte_of_string s.

Definition byte_of_N (n : N) : byte :=
  match Byte.of_N n with
  | Some x => x
  | None => x00
  end.

Definition is_surrogate (c : N) : bool := ((0xD800 <=? c) && (c <=? 0xDFFF))%N.

Definition encode_codepoint (c : N) : option bytes :=
  (if c <? 0x80 then Some [byte_of_N c]
   else if c <? 0x800 then
     Some [byte_of_N (0xC0 + c / 64); byte_of_N (0x80 + c mod 64)]
   else if c <? 0x10000 then
     if is_surrogate c then None
     else Some [byte_of_N (0xE0 + c / 4096);
                byte_of_N (0x80 + (c / 64) mod 64);
                byte_of_N (0x80 + c mod 64)]
   else if c <? 0x110000 then
     Some [byte_of_N (0xF0 + c / 262144);
           byte_of_N (0x80 + (c / 4096) mod 64);
           byte_of_N (0x80 + (c / 64) mod 64);
           byte_of_N (0x80 + c mod 64)]
   else None)%N.

Fixpoint utf8_encode (s : str) : option bytes :=
  match s with
  | [] => Some []
  | c :: s' =>
      match encode_codepoint c, utf8_encode s' with
      | Some x, Some y => Some (x ++ y)
      | _, _ => None
      end
  end.

(** A continuation byte [10xxxxxx]. *)
Definition is_cont (x : N) : bool := ((0x80 <=? x) && (x <? 0xC0))%N.

Fixpoint utf8_decode (l : bytes) : option str :=
  match l with
  | [] => Some []
  | b0 :: t0 =>
      let x0 := Byte.to_N b0 in
      (if x0 <? 0x80 then cons x0 <$> utf8_decode t0
       else if x0 <? 0xC2 then None
       else if x0 <? 0xE0 then
         match t0 with
         | b1 :: t1 =>
             let x1 := Byte.to_N b1 in
             if is_cont x1
             then cons ((x0 - 0xC0) * 64 + (x1 - 0x80)) <$> utf8_decode t1
             else None
         | _ => None
         end
       else if x0 <? 0xF0 then
         match t0 with
         | b1 :: b2 :: t2 =>
             let x1 := Byte.to_N b1 in
             let x2 := Byte.to_N b2 in
             let c := (x0 - 0xE0) * 4096 + (x1 - 0x80) * 64 + (x2 - 0x80) in
             if is_cont x1 && is_cont x2 && (0x800 <=? c) && negb (is_surrogate c)
             then cons c <$> utf8_decode t2
             else None
         | _ => None
         end
       else if x0 <? 0xF5 then
         match t0 with
         | b1 :: b2 :: b3 :: t3 =>
             let x1 := Byte.to_N b1 in
             let x2 := Byte.to_N b2 in
             let x3 := Byte.to_N b3 in
             let c := (x0 - 0xF0) * 262144 + (x1 - 0x80) * 4096
                      + (x2 - 0x80) * 64 + (x3 - 0x80) in
             if is_cont x1 && is_cont x2 && is_cont x3
                && (0x10000 <=? c) && (c <? 0x110000)
             then cons c <$> utf8_decode t3
             else None
         | _ => None
         end
       else None)%N
  end.


(** [str(n)] for an int, as the f-string [f"{counter}"] renders it. *)
Definition str_of_int (n : Z) : str := str_of (pretty n).

(** The ASCII part of [str.lower()]. *)
Definition ascii_lower (c : N) : N :=
  if ((65 <=? c) && (c <=? 90))%N then (c + 32)%N else c.

Definition is_ascii (s : str) : bool := forallb (λ c, (c <? 128)%N) s.

(** ** Exceptions and outcomes *)

(** The messages of the [ValueError]s the class raises. *)
Inductive value_error :=
  | NotAValidPDF        (* "Not a valid PDF file" *)
  | UnsupportedFormat   (* "Unsupported file format: ..." *)
  | EOFNotFound         (* "Invalid PDF: %%EOF marker not found" *)
  | NoHiddenData        (* "No hidden data found in this PDF" *)
  | DataCorruption.     (* "Data corruption detected: extracted data length mismatch" *)

(** The exception classes that occur. [KeyboardInterrupt] and [SystemExit]
    derive from [BaseException] only: [except Exception] lets them pass. *)
Inductive exn :=
  | FileNotFoundError
  | IsADirectoryError
  | FileExistsError
  | ValueError (msg : value_error)
  | StructError
  | UnicodeEncodeError
  | UnicodeDecodeError
  | KeyboardInterrupt
  | SystemExit.

Definition is_Exception (e : exn) : bool :=
  match e with
  | KeyboardInterrupt | SystemExit => false
  | _ => true
  end.

(** What running a piece of code gives: a value, a raised exception, or
    [OutOfFuel] when the bound given to a [while] loop of the model is used
    up (shown below never to happen). *)
Inductive outcome (A : Type) :=
  | Ok (a : A)
  | Raise (e : exn)
  | OutOfFuel.
Arguments Ok {A} a.
Arguments Raise {A} e.
Arguments OutOfFuel {A}.

(** ** [struct.pack('<I', n)] and [struct.unpack('<I', b)[0]] *)

(** The four bytes of an unsigned 32-bit integer, least significant first. *)
Definition le32 (n : Z) : bytes :=
  [byte_of_Z (n mod 256);
   byte_of_Z (n / 256 mod 256);
   byte_of_Z (n / 65536 mod 256);
   byte_of_Z (n / 16777216 mod 256)].

Definition struct_pack_I (n : Z) : outcome bytes :=
  if (0 <=? n) && (n <? 2 ^ 32) then Ok (le32 n) else Raise StructError.

Definition struct_unpack_I (b : bytes) : outcome Z :=
  match b with
  | [b0; b1; b2; b3] =>
      Ok (Z_of_byte b0 + 256 * Z_of_byte b1
          + 65536 * Z_of_byte b2 + 16777216 * Z_of_byte b3)
  | _ => Raise StructError
  end.

Definition str_encode_utf8 (s : str) : outcome bytes :=
  match utf8_encode s with
  | Some b => Ok b
  | None => Raise UnicodeEncodeError
  end.

Definition bytes_decode_utf8 (b : bytes) : outcome str :=
  match utf8_decode b with
  | Some s => Ok s
  | None => Raise UnicodeDecodeError
  end.

(** ** [os.path], POSIX flavour *)

Definition sep : N := 47.     (* "/" *)
Definition extsep : N := 46.  (* "." *)

(** [os.path.basename(p)]: [i = p.rfind(sep) + 1; return p[i:]]. *)
Definition basename (p : str) : str :=
  let i := rfind p [sep] + 1 in
  slice_from p i.

(** [os.path.join(a, b)] with one component [b]. *)
Definition join (a b : str) : str :=
  if starts_with [sep] b then b
  else if bool_decide (a = []) || bool_decide (last a = Some sep) then a ++ b
  else a ++ [sep] ++ b.

(** The loop of [genericpath._splitext] that skips leading dots; [n] is the
    number of iterations left, [dotIndex - filenameIndex]. *)
Fixpoint splitext_scan (p : str) (n : nat) (filenameIndex dotIndex : Z) : str * str :=
  match n with
  | O => (p, slice p 0 0)
  | S n' =>
      if negb (bool_decide (slice p filenameIndex (filenameIndex + 1) = [extsep]))
      then (slice p 0 dotIndex, slice_from p dotIndex)
      else splitext_scan p n' (filenameIndex + 1) dotIndex
  end.

(** [os.path.splitext(p)]. *)
Definition splitext (p : str) : str * str :=
  let sepIndex := rfind p [sep] in
  let dotIndex := rfind p [extsep] in
  if sepIndex <? dotIndex
  then splitext_scan p (Z.to_nat (dotIndex - (sepIndex + 1))) (sepIndex + 1) dotIndex
  else (p, slice p 0 0).

(** ** The file system and the monad of effects *)

Inductive node :=
  | File (content : bytes)
  | Dir.

(** Paths are compared as written; a path bound to no node does not exist. *)
Abbreviation world := (gmap str node).

Definition M (A : Type) : Type := world → outcome A * world.

Definition ret {A} (a : A) : M A := λ w, (Ok a, w).

Definition raise {A} (e : exn) : M A := λ w, (Raise e, w).

Definition bind {A B} (m : M A) (k : A → M B) : M B := λ w,
  match m w with
  | (Ok a, w') => k a w'
  | (Raise e, w') => (Raise e, w')
  | (OutOfFuel, w') => (OutOfFuel, w')
  end.

(** A pure library call that may raise. *)
Definition lift {A} (o : outcome A) : M A := λ w, (o, w).

Notation "'do' x <- m ; k" := (bind m (λ x, k))
  (at level 10, x name, m at level 100, k at level 200).
Notation "'do_' m ; k" := (bind m (λ _, k))
  (at level 10, m at level 100, k at level 200).

(** [try: body  except Exception as e: handler]. *)
Definition try_except {A} (body : M A) (handler : exn → M A) : M A := λ w,
  match body w with
  | (Raise e, w') => if is_Exception e then handler e w' else (Raise e, w')
  | r => r
  end.

(** [os.path.exists(p)]. *)
Definition os_path_exists (p : str) : M bool := λ w,
  (Ok (match w !! p with Some _ => true | None => false end), w).

(** [open(p, 'rb')]: the content the file object reads from. *)
Definition open_rb (p : str) : M bytes := λ w,
  match w !! p with
  | Some (File c) => (Ok c, w)
  | Some Dir => (Raise IsADirectoryError, w)
  | None => (Raise FileNotFoundError, w)
  end.

(** [with open(p, 'wb') as f: f.write(data)]. *)
Definition open_wb_write (p : str) (data : bytes) : M unit := λ w,
  match p with
  | [] => (Raise FileNotFoundError, w)
  | _ =>
      match w !! p with
      | Some Dir => (Raise IsADirectoryError, w)
      | _ => (Ok tt, <[p := File data]> w)
      end
  end.

(** [os.makedirs(p, exist_ok=True)]. *)
Definition os_makedirs (p : str) : M unit := λ w,
  match p with
  | [] => (Raise FileNotFoundError, w)
  | _ =>
      match w !! p with
      | Some (File _) => (Raise FileExistsError, w)
      | Some Dir => (Ok tt, w)
      | None => (Ok tt, <[p := Dir]> w)
      end
  end.

(** ** class PDFSteganography *)

Definition MARKER : bytes := bytes_of "<<HIDDEN_DATA_START>>".
Definition MARKER_END : bytes := bytes_of "<<HIDDEN_DATA_END>>".
Definition SUPPORTED_FORMATS : list str :=
  [str_of ".txt"; str_of ".jpg"; str_of ".png"; str_of ".pdf"; str_of ".docx"; str_of ".exe"].

Definition eof_marker : bytes := bytes_of "%%EOF".
Definition pdf_signature : bytes := bytes_of "%PDF-".
Definition newline : bytes := [x0a].

(** The value of [hidden_package] in [hide_file], for the encoded name
    [filename_bytes] and the content [hidden_data]. *)
Definition package (filename_bytes hidden_data : bytes) : bytes :=
  le32 (len filename_bytes) ++ filename_bytes ++ le32 (len hidden_data) ++ hidden_data.

(** The part of the carrier [hide_file] keeps:
    [pdf_content[:eof_position + len(eof_marker)]]. *)
Definition kept_part (pdf_content : bytes) : bytes :=
  slice pdf_content 0 (rfind pdf_content eof_marker + len eof_marker).

(** The value of [modified_pdf] in [hide_file]. *)
Definition modified_pdf (pdf_content filename_bytes hidden_data : bytes) : bytes :=
  kept_part pdf_content
  ++ newline ++ MARKER ++ package filename_bytes hidden_data ++ MARKER_END ++ newline.

(** [validate_pdf] (lines 25-35): the file must exist and its first five
    bytes must be [%PDF-]. *)
Definition validate_pdf (pdf_path : str) : M bool :=
  do found <- os_path_exists pdf_path;
  if negb found then raise FileNotFoundError
  else
    do f <- open_rb pdf_path;
    let header := take 5 f in
    if negb (bool_decide (header = pdf_signature)) then raise (ValueError NotAValidPDF)
    else ret true.

Section PDFSteganography.
(** [str.lower()] on a string with non-ASCII code points follows the
    Unicode case tables, which stay a parameter. *)
Variable unicode_lower : str → str.

Definition str_lower (s : str) : str :=
  if is_ascii s then ascii_lower <$> s else unicode_lower s.

(** [validate_file_format] (lines 37-43). *)
Definition validate_file_format (file_path : str) : M bool :=
  let ext := str_lower (splitext file_path).2 in
  if negb (bool_decide (ext ∈ SUPPORTED_FORMATS)) then raise (ValueError UnsupportedFormat)
  else ret true.

(** The [try] block of [hide_file] (lines 58-114). *)
Definition hide_file_body (pdf_path file_to_hide output_path : str) : M bool :=
  do_ validate_pdf pdf_path;
  do_ validate_file_format file_to_hide;
  do found <- os_path_exists file_to_hide;
  if negb found then raise FileNotFoundError
  else
    do pdf_content <- open_rb pdf_path;
    do hidden_data <- open_rb file_to_hide;
    let original_filename := basename file_to_hide in
    do filename_bytes <- lift (str_encode_utf8 original_filename);
    let filename_length := len filename_bytes in
    let data_length := len hidden_data in
    do packed_name_length <- lift (struct_pack_I filename_length);
    do packed_data_length <- lift (struct_pack_I data_length);
    let hidden_package :=
      packed_name_length ++ filename_bytes ++ packed_data_length ++ hidden_data in
    let eof_position := rfind pdf_content eof_marker in
    if eof_position =? -1 then raise (ValueError EOFNotFound)
    else
      let modified_pdf :=
        slice pdf_content 0 (eof_position + len eof_marker)
        ++ newline ++ MARKER ++ hidden_package ++ MARKER_END ++ newline in
      do_ open_wb_write output_path modified_pdf;
      ret true.

(** [hide_file] (lines 45-118): the body, and [return False] on any
    [Exception]. *)
Definition hide_file (pdf_path file_to_hide output_path : str) : M bool :=
  try_except (hide_file_body pdf_path file_to_hide output_path) (λ _, ret false).

(** The inputs on which [hide_file] goes through. *)
Record embeddable (w : world) (pdf_path file_to_hide output_path : str)
    (pdf_content hidden_data filename_bytes : bytes) : Prop := {
  emb_pdf : w !! pdf_path = Some (File pdf_content);
  emb_signature : take 5 pdf_content = pdf_signature;
  emb_format : str_lower (splitext file_to_hide).2 ∈ SUPPORTED_FORMATS;
  emb_file : w !! file_to_hide = Some (File hidden_data);
  emb_name : utf8_encode (basename file_to_hide) = Some filename_bytes;
  emb_name_length : len filename_bytes < 2 ^ 32;
  emb_data_length : len hidden_data < 2 ^ 32;
  emb_eof : rfind pdf_content eof_marker ≠ -1;
  emb_output : output_path ≠ [];
  emb_output_dir : w !! output_path ≠ Some Dir;
}.
End PDFSteganography.

(** The [while os.path.exists(output_path)] loop of [extract_file]
    (lines 178-180); [fuel] bounds the number of tests. *)
Fixpoint unique_path_loop (fuel : nat) (output_dir base_name ext output_path : str)
    (counter : Z) : M str :=
  match fuel with
  | O => λ w, (OutOfFuel, w)
  | S fuel' =>
      do found <- os_path_exists output_path;
      if found
      then
        unique_path_loop fuel' output_dir base_name ext
          (join output_dir (base_name ++ str_of "_" ++ str_of_int counter ++ ext))
          (counter + 1)
      else ret output_path
  end.

(** The path the loop tries for a given value of [counter]. *)
Definition candidate (output_dir base_name ext : str) (counter : Z) : str :=
  join output_dir (base_name ++ str_of "_" ++ str_of_int counter ++ ext).

(** The bound of the loop: one more than there are paths in the file system
    and one for the first test. *)
Definition unique_path (output_dir base_name ext output_path : str) : M str := λ w,
  unique_path_loop (S (S (size w))) output_dir base_name ext output_path 1 w.

(** The [try] block of [extract_file] (lines 132-187). *)
Definition extract_file_body (pdf_path output_dir : str) : M str :=
  do_ validate_pdf pdf_path;
  do pdf_content <- open_rb pdf_path;
  let start_pos := find pdf_content MARKER in
  let end_pos := find pdf_content MARKER_END in
  if (start_pos =? -1) || (end_pos =? -1) then raise (ValueError NoHiddenData)
  else
    let start_pos := start_pos + len MARKER in
    let hidden_package := slice pdf_content start_pos end_pos in
    do filename_length <- lift (struct_unpack_I (slice hidden_package 0 4));
    do filename <- lift (bytes_decode_utf8 (slice hidden_package 4 (4 + filename_length)));
    let data_length_pos := 4 + filename_length in
    do data_length <-
      lift (struct_unpack_I (slice hidden_package data_length_pos (data_length_pos + 4)));
    let data_start_pos := data_length_pos + 4 in
    let hidden_data := slice hidden_package data_start_pos (data_start_pos + data_length) in
    if negb (len hidden_data =? data_length) then raise (ValueError DataCorruption)
    else
      do_ os_makedirs output_dir;
      let output_path := join output_dir filename in
      let '(base_name, ext) := splitext filename in
      do output_path <- unique_path output_dir base_name ext output_path;
      do_ open_wb_write output_path hidden_data;
      ret output_path.

(** [extract_file] (lines 120-191): the body, and [return None] on any
    [Exception]. *)
Definition extract_file (pdf_path output_dir : str) : M (option str) :=
  try_except
    (do output_path <- extract_file_body pdf_path output_dir; ret (Some output_path))
    (λ _, ret None).

(** The [try] block of [check_hidden_data] (lines 204-209). *)
Definition check_hidden_data_body (pdf_path : str) : M bool :=
  do_ validate_pdf pdf_path;
  do pdf_content <- open_rb pdf_path;
  ret (contains pdf_content MARKER && contains pdf_content MARKER_END).

(** [check_hidden_data] (lines 193-213). *)
Definition check_hidden_data (pdf_path : str) : M bool :=
  try_except (check_hidden_data_body pdf_path) (λ _, ret false).

(** The [try] block of [get_hidden_file_info] (lines 226-248). *)
Definition get_hidden_file_info_body (pdf_path : str) : M (option (str * Z)) :=
  do_ validate_pdf pdf_path;
  do pdf_content <- open_rb pdf_path;
  let start_pos := find pdf_content MARKER in
  let end_pos := find pdf_content MARKER_END in
  if (start_pos =? -1) || (end_pos =? -1) then ret None
  else
    let start_pos := start_pos + len MARKER in
    let hidden_package := slice pdf_content start_pos end_pos in
    do filename_length <- lift (struct_unpack_I (slice hidden_package 0 4));
    do filename <- lift (bytes_decode_utf8 (slice hidden_package 4 (4 + filename_length)));
    let data_length_pos := 4 + filename_length in
    do data_length <-
      lift (struct_unpack_I (slice hidden_package data_length_pos (data_length_pos + 4)));
    ret (Some (filename, data_length)).

(** [get_hidden_file_info] (lines 215-252). *)
Definition get_hidden_file_info (pdf_path : str) : M (option (str * Z)) :=
  try_except (get_hidden_file_info_body pdf_path) (λ _, ret None).

(** The file at [pdf_path] is a PDF in which the first start marker is at
    index [a], the first end marker at index [e], and the bytes between them
    are the length field and the bytes [filename_bytes] of the name
    [filename], the length field for [data_length], and then [rest]. *)
Record has_package (w : world) (pdf_path : str) (pdf_content : bytes) (a e : nat)
    (filename_bytes : bytes) (filename : str) (data_length : Z) (rest : bytes) : Prop := {
  pkg_pdf : w !! pdf_path = Some (File pdf_content);
  pkg_signature : take 5 pdf_content = pdf_signature;
  pkg_start : find pdf_content MARKER = Z.of_nat a;
  pkg_end : find pdf_content MARKER_END = Z.of_nat e;
  pkg_bytes :
    slice pdf_content (Z.of_nat a + len MARKER) (Z.of_nat e)
    = le32 (len filename_bytes) ++ filename_bytes ++ le32 data_length ++ rest;
  pkg_name : utf8_decode filename_bytes = Some filename;
  pkg_name_length : len filename_bytes < 2 ^ 32;
  pkg_data_length : 0 ≤ data_length < 2 ^ 32;
}.

(** [m] returns or raises an [Exception], in every file system: it lets no
    other exception out and its loops end within their bound. *)
Definition raises_only_Exceptions {A} (m : M A) : Prop :=
  ∀ w, match (m w).1 with
       | Ok _ => True
       | Raise e => is_Exception e = true
       | OutOfFuel => False
       end.

(** ** cli.py: [extract_command]

    The command takes the arguments [argparse] hands it and returns the
    exit code; what it prints (the banner, and the size rendered by
    [format_size]) is left out here.  [check_command] is given further
    down, with what it prints. *)

(** The truth value of [extracted_path] in [if extracted_path:]: [None] and
    the empty string are false. *)
Definition path_truthy (extracted_path : option str) : bool :=
  match extracted_path with
  | Some (_ :: _) => true
  | _ => false
  end.

(** [extract_command] (cli.py, lines 48-84). *)
Definition extract_command (pdf output : str) : M Z :=
  do found <- check_hidden_data pdf;
  if negb found then ret 1
  else
    do info <- get_hidden_file_info pdf;
    do extracted_path <- extract_file pdf output;
    if path_truthy extracted_path then ret 0 else ret 1.

(** [m] never changes the file system. *)
Definition read_only {A} (m : M A) : Prop := ∀ w, (m w).2 = w.

(** The header reads of [extract_file] (lines 152-159) and of
    [get_hidden_file_info] (lines 241-246) on the bytes between the markers:
    one of the three raises. *)
Definition header_unreadable (hidden_package : bytes) : Prop :=
  struct_unpack_I (slice hidden_package 0 4) = Raise StructError
  ∨ (∃ n, struct_unpack_I (slice hidden_package 0 4) = Ok n
          ∧ bytes_decode_utf8 (slice hidden_package 4 (4 + n)) = Raise UnicodeDecodeError)
  ∨ (∃ n s, struct_unpack_I (slice hidden_package 0 4) = Ok n
            ∧ bytes_decode_utf8 (slice hidden_package 4 (4 + n)) = Ok s
            ∧ struct_unpack_I (slice hidden_package (4 + n) (4 + n + 4)) = Raise StructError).

(** ** Paths that name their node

    The map binds path strings.  A string stands for the node the file
    system resolves it to when it is written in the one way that names the
    node from the working directory: relative, its components separated by
    single [/], none of them empty, [.] or [..].  On a map that binds only
    such paths, each below directories the map binds as well, looking a
    path of that form up is what [os.path.exists] and [open] do with it. *)

(** [p.split('/')]. *)
Fixpoint split_sep (p : str) : list str :=
  match p with
  | [] => [[]]
  | c :: p' =>
      if (c =? sep)%N then [] :: split_sep p'
      else
        match split_sep p' with
        | x :: xs => (c :: x) :: xs
        | [] => [[c]]
        end
  end.

(** A name of a directory entry: not empty, not [.] or [..], without [/]
    and without the null character, and made of characters that UTF-8
    encodes. *)
Definition plain_name (s : str) : bool :=
  negb (bool_decide (s = []))
  && negb (bool_decide (s = str_of "."))
  && negb (bool_decide (s = str_of ".."))
  && forallb (λ c, negb (c =? sep)%N && negb (c =? 0)%N) s
  && bool_decide (is_Some (utf8_encode s)).

Definition canonical (p : str) : bool := forallb plain_name (split_sep p).

(** The paths above [p]: what precedes each [/] of [p]. *)
Definition ancestors (p : str) : list str :=
  (λ i, take i p) <$> filter (λ i, p !! i = Some sep) (seq 0 (length p)).

Definition is_file (w : world) (p : str) : bool :=
  match w !! p with
  | Some (File _) => true
  | _ => false
  end.

Definition is_dir (w : world) (p : str) : bool :=
  match w !! p with
  | Some Dir => true
  | _ => false
  end.

(** The map describes a directory tree: every path it binds is canonical
    and lies below directories it binds. *)
Definition consistent (w : world) : Prop :=
  map_Forall (λ p _, canonical p = true ∧ Forall (λ q, is_dir w q = true) (ancestors p)) w.

(** [d] is a directory or can be made one by [os.makedirs]: it is
    canonical, and neither it nor a path above it is a regular file. *)
Definition can_be_directory (w : world) (d : str) : Prop :=
  canonical d = true ∧ Forall (λ q, is_file w q = false) (ancestors d ++ [d]).

#[global] Instance consistent_dec (w : world) : Decision (consistent w).
Proof. unfold consistent. apply _. Defined.

#[global] Instance can_be_directory_dec (w : world) (d : str) :
  Decision (can_be_directory w d).
Proof. unfold can_be_directory. apply _. Defined.

(** ** The methods with what they print

    [print(text)] encodes [text] and the newline for [sys.stdout] and raises
    [UnicodeEncodeError] when the encoding of [sys.stdout] lacks one of the
    characters; what is written is not kept.  The characters the encoding
    has are the parameter [encodable].  [str(e)], the message of the
    exception a handler has caught, is the parameter [str_exn]: the
    exceptions of the model do not carry their message.  The size
    [format_size] renders for [check_command] is a parameter as well. *)

(** The characters [U+2713] and [U+2717] that start the messages. *)
Definition check_mark : str := [10003%N].
Definition cross_mark : str := [10007%N].

Section Printing.
Variable encodable : N → bool.
Variable str_exn : exn → str.
Variable format_size : Z → str.
Variable unicode_lower : str → str.

Definition print (text : str) : M unit := λ w,
  if forallb encodable (text ++ [10%N]) then (Ok tt, w) else (Raise UnicodeEncodeError, w).

(** The [try] block of [hide_file] (lines 58-114) with its two prints. *)
Definition hide_file_body_printing (pdf_path file_to_hide output_path : str) : M bool :=
  do_ validate_pdf pdf_path;
  do_ validate_file_format unicode_lower file_to_hide;
  do found <- os_path_exists file_to_hide;
  if negb found then raise FileNotFoundError
  else
    do pdf_content <- open_rb pdf_path;
    do hidden_data <- open_rb file_to_hide;
    let original_filename := basename file_to_hide in
    do filename_bytes <- lift (str_encode_utf8 original_filename);
    let filename_length := len filename_bytes in
    let data_length := len hidden_data in
    do packed_name_length <- lift (struct_pack_I filename_length);
    do packed_data_length <- lift (struct_pack_I data_length);
    let hidden_package :=
      packed_name_length ++ filename_bytes ++ packed_data_length ++ hidden_data in
    let eof_position := rfind pdf_content eof_marker in
    if eof_position =? -1 then raise (ValueError EOFNotFound)
    else
      let modified_pdf :=
        slice pdf_content 0 (eof_position + len eof_marker)
        ++ newline ++ MARKER ++ hidden_package ++ MARKER_END ++ newline in
      do_ open_wb_write output_path modified_pdf;
      do_ print (check_mark ++ str_of " Successfully hidden '" ++ original_filename
                 ++ str_of "' (" ++ str_of_int data_length ++ str_of " bytes) in PDF");
      do_ print (check_mark ++ str_of " Output saved to: " ++ output_path);
      ret true.

(** [hide_file] (lines 45-118) with the print of its handler. *)
Definition hide_file_printing (pdf_path file_to_hide output_path : str) : M bool :=
  try_except (hide_file_body_printing pdf_path file_to_hide output_path)
    (λ e, do_ print (cross_mark ++ str_of " Error hiding file: " ++ str_exn e);
          ret false).

(** The [try] block of [extract_file] (lines 132-187) with its two
    prints. *)
Definition extract_file_body_printing (pdf_path output_dir : str) : M str :=
  do_ validate_pdf pdf_path;
  do pdf_content <- open_rb pdf_path;
  let start_pos := find pdf_content MARKER in
  let end_pos := find pdf_content MARKER_END in
  if (start_pos =? -1) || (end_pos =? -1) then raise (ValueError NoHiddenData)
  else
    let start_pos := start_pos + len MARKER in
    let hidden_package := slice pdf_content start_pos end_pos in
    do filename_length <- lift (struct_unpack_I (slice hidden_package 0 4));
    do filename <- lift (bytes_decode_utf8 (slice hidden_package 4 (4 + filename_length)));
    let data_length_pos := 4 + filename_length in
    do data_length <-
      lift (struct_unpack_I (slice hidden_package data_length_pos (data_length_pos + 4)));
    let data_start_pos := data_length_pos + 4 in
    let hidden_data := slice hidden_package data_start_pos (data_start_pos + data_length) in
    if negb (len hidden_data =? data_length) then raise (ValueError DataCorruption)
    else
      do_ os_makedirs output_dir;
      let output_path := join output_dir filename in
      let '(base_name, ext) := splitext filename in
      do output_path <- unique_path output_dir base_name ext output_path;
      do_ open_wb_write output_path hidden_data;
      do_ print (check_mark ++ str_of " Successfully extracted '" ++ filename
                 ++ str_of "' (" ++ str_of_int data_length ++ str_of " bytes)");
      do_ print (check_mark ++ str_of " Saved to: " ++ output_path);
      ret output_path.

(** [extract_file] (lines 120-191) with the print of its handler. *)
Definition extract_file_printing (pdf_path output_dir : str) : M (option str) :=
  try_except
    (do output_path <- extract_file_body_printing pdf_path output_dir;
     ret (Some output_path))
    (λ e, do_ print (cross_mark ++ str_of " Error extracting file: " ++ str_exn e);
          ret None).

(** [check_hidden_data] (lines 193-213) with the print of its handler;
    its [try] block prints nothing. *)
Definition check_hidden_data_printing (pdf_path : str) : M bool :=
  try_except (check_hidden_data_body pdf_path)
    (λ e, do_ print (cross_mark ++ str_of " Error checking PDF: " ++ str_exn e);
          ret false).

(** [get_hidden_file_info] (lines 215-252) with the print of its handler;
    its [try] block prints nothing. *)
Definition get_hidden_file_info_printing (pdf_path : str) : M (option (str * Z)) :=
  try_except (get_hidden_file_info_body pdf_path)
    (λ e, do_ print (cross_mark ++ str_of " Error reading hidden file info: " ++ str_exn e);
          ret None).

(** [check_command] (cli.py, lines 87-116) with everything it prints:
    the banner before the [try], the findings inside it, the error in the
    handler. *)
Definition check_command_printing (pdf : str) : M Z :=
  do_ print (replicate 60 61%N);
  do_ print (str_of "PDF STEGANOGRAPHY - CHECK FILE");
  do_ print (replicate 60 61%N);
  do_ print (str_of "Checking: " ++ pdf);
  do_ print (replicate 60 45%N);
  try_except
    (do found <- check_hidden_data_printing pdf;
     do_ (if found
          then
            do info <- get_hidden_file_info_printing pdf;
            match info with
            | Some (filename, size) =>
                do_ print (check_mark ++ str_of " Hidden data FOUND");
                do_ print (str_of "  Filename: " ++ filename);
                print (str_of "  Size: " ++ format_size size)
            | None =>
                print (check_mark
                       ++ str_of " Hidden data markers found but unable to read info")
            end
          else print (cross_mark ++ str_of " No hidden data found"));
     do_ print (replicate 60 61%N);
     ret 0)
    (λ e, do_ print (cross_mark ++ str_of " Error: " ++ str_exn e);
          do_ print (replicate 60 61%N);
          ret 1).
End Printing.

(** A standard output that encodes ASCII only, and one that encodes every
    character. *)
Definition ascii_stdout : N → bool := λ c, (c <? 128)%N.
Definition unicode_stdout : N → bool := λ _, true.

(** [str(e)] in the runs below, where the carrier [missing.pdf] does not
    exist, or the print of a check mark has failed. *)
Definition scenario_str_exn : exn → str := λ e,
  match e with
  | FileNotFoundError => str_of "File not found: missing.pdf"
  | _ =>
      str_of "'ascii' codec can't encode character '\u2713' in position 0: "
      ++ str_of "ordinal not in range(128)"
  end.


(** ** The scenario of the specification

    A carrier [%PDF-1.4\n...body...\n%%EOF\n] and a payload [secret.txt]
    holding [hello]; only ASCII names occur, so any Unicode case table
    does. *)

Definition lower_identity : str → str := λ s, s.

Definition scenario_carrier : bytes :=
  bytes_of "%PDF-1.4" ++ [x0a] ++ bytes_of "...body..." ++ [x0a] ++ bytes_of "%%EOF" ++ [x0a].

Definition scenario_world : world :=
  {[ str_of "carrier.pdf" := File scenario_carrier;
     str_of "secret.txt" := File (bytes_of "hello") ]}.

(** The scenario after [hide_file carrier.pdf secret.txt stego.pdf]. *)
Definition scenario_embedded : world :=
  (hide_file lower_identity (str_of "carrier.pdf") (str_of "secret.txt")
     (str_of "stego.pdf") scenario_world).2.

(** A carrier whose body already contains the start marker. *)
Definition marked_world : world :=
  {[ str_of "marked.pdf" := File (bytes_of "%PDF-<<HIDDEN_DATA_START>>%%EOF");
     str_of "secret.txt" := File (bytes_of "hello") ]}.

Definition marked_embedded : world :=
  (hide_file lower_identity (str_of "marked.pdf") (str_of "secret.txt")
     (str_of "stego.pdf") marked_world).2.

(** A payload that contains the end marker. *)
Definition end_payload_world : world :=
  {[ str_of "carrier.pdf" := File scenario_carrier;
     str_of "end.txt" := File (bytes_of "<<HIDDEN_DATA_END>>") ]}.

Definition end_payload_embedded : world :=
  (hide_file lower_identity (str_of "carrier.pdf") (str_of "end.txt")
     (str_of "stego.pdf") end_payload_world).2.

(** What the scenario writes, cut two bytes into the payload. *)
Definition truncated_world : world :=
  {[ str_of "cut.pdf" :=
       File (take 67 (modified_pdf scenario_carrier (bytes_of "secret.txt") (bytes_of "hello"))) ]}.

(** A valid PDF with the end marker before the start marker. *)
Definition reversed_content : bytes :=
  bytes_of "%PDF-" ++ MARKER_END ++ bytes_of "x" ++ MARKER ++ bytes_of "%%EOF".

Definition reversed_world : world := {[ str_of "reversed.pdf" := File reversed_content ]}.

(** A package that declares nine bytes of data and holds three. *)
Definition short_content : bytes :=
  bytes_of "%PDF-%%EOF" ++ [x0a] ++ MARKER ++ [x05; x00; x00; x00] ++ bytes_of "a.txt"
  ++ [x09; x00; x00; x00] ++ bytes_of "hel" ++ MARKER_END ++ [x0a].

Definition short_world : world := {[ str_of "short.pdf" := File short_content ]}.

(** A package whose stored name is an absolute path. *)
Definition absolute_content : bytes :=
  bytes_of "%PDF-%%EOF" ++ [x0a] ++ MARKER ++ [x06; x00; x00; x00] ++ bytes_of "/tmp/x"
  ++ [x02; x00; x00; x00] ++ bytes_of "hi" ++ MARKER_END ++ [x0a].

Definition absolute_world : world := {[ str_of "crafted.pdf" := File absolute_content ]}.

(** ** Tactics

    Arithmetic on [N] with division and remainder by constants, and
    comparisons that come as booleans. *)

Ltac N_divmod_at a b :=
  pose proof (N.div_mod a b ltac:(discriminate));
  pose proof (N.mod_lt a b ltac:(discriminate));
  generalize dependent (a mod b)%N;
  generalize dependent (a / b)%N; intros.

Ltac N_divmod :=
  repeat match goal with
  | |- context [ (?a mod ?b)%N ] => N_divmod_at a b
  | |- context [ (?a / ?b)%N ] => N_divmod_at a b
  | H : context [ (?a mod ?b)%N ] |- _ => N_divmod_at a b
  | H : context [ (?a / ?b)%N ] |- _ => N_divmod_at a b
  end.

Ltac N_bools :=
  repeat match goal with
  | H : (_ <? _)%N = true |- _ => apply N.ltb_lt in H
  | H : (_ <? _)%N = false |- _ => apply N.ltb_ge in H
  | H : (_ <=? _)%N = true |- _ => apply N.leb_le in H
  | H : (_ <=? _)%N = false |- _ => apply N.leb_gt in H
  | H : _ && _ = true |- _ => apply andb_true_iff in H; destruct H
  | H : _ && _ = false |- _ => apply andb_false_iff in H; destruct H
  | H : negb _ = true |- _ => apply negb_true_iff in H
  | H : negb _ = false |- _ => apply negb_false_iff in H
  end.

Ltac N_solve := N_bools; try done; exfalso; N_divmod; lia.

(** * Properties *)

(** ** Searching and slicing *)

Section SequenceFacts.
Context {A : Type} `{EqDecision A}.
Implicit Types sub s t : list A.
Local Open Scope nat_scope.

Lemma starts_with_true sub s :
  starts_with sub s = true ↔ take (length sub) s = sub.
Proof.
  revert s. induction sub as [|x sub IH]; intros [|y s]; cbn; try done.
  rewrite andb_true_iff, bool_decide_eq_true, IH. split.
  - intros [-> ->]. done.
  - intros [= -> ->]. done.
Qed.

Lemma starts_with_occurs sub s : starts_with sub s = true ↔ occurs_at sub s 0.
Proof. apply starts_with_true. Qed.

Lemma occurs_at_cons sub x s i : occurs_at sub (x :: s) (S i) ↔ occurs_at sub s i.
Proof. done. Qed.

Lemma occurs_at_nil sub j : occurs_at sub [] j → sub = [].
Proof. unfold occurs_at. rewrite drop_nil, take_nil. done. Qed.

Lemma occurs_at_length sub s i : occurs_at sub s i → sub ≠ [] → i + length sub ≤ length s.
Proof.
  unfold occurs_at. intros Ho Hne.
  apply (f_equal length) in Ho. rewrite length_take, length_drop in Ho.
  destruct sub; [done|]. cbn [length] in *. lia.
Qed.

Lemma occurs_at_split sub s i :
  occurs_at sub s i → i ≤ length s → s = take i s ++ sub ++ drop (i + length sub) s.
Proof.
  unfold occurs_at. intros Ho Hi.
  rewrite <- (take_drop i s) at 1. f_equal.
  rewrite <- (take_drop (length sub) (drop i s)) at 1.
  rewrite Ho, drop_drop. done.
Qed.

Lemma occurs_at_app pre sub post : occurs_at sub (pre ++ sub ++ post) (length pre).
Proof. unfold occurs_at. by rewrite drop_app_length, take_app_length. Qed.

(** An occurrence that ends inside [s] does not see what follows [s]. *)
Lemma occurs_at_app_l sub s t i :
  i + length sub ≤ length s → occurs_at sub (s ++ t) i ↔ occurs_at sub s i.
Proof.
  intros Hi. unfold occurs_at.
  rewrite drop_app_le by lia. rewrite take_app_le; [done|].
  rewrite length_drop. lia.
Qed.

(** An occurrence that starts after [s] only sees what follows [s]. *)
Lemma occurs_at_app_r sub s t i :
  occurs_at sub (s ++ t) (length s + i) ↔ occurs_at sub t i.
Proof. unfold occurs_at. by rewrite drop_app_add. Qed.

Lemma occurs_at_take sub s n i :
  i + length sub ≤ n → occurs_at sub (take n s) i ↔ occurs_at sub s i.
Proof.
  intros Hi. unfold occurs_at.
  rewrite !take_drop_commute, take_take.
  by replace (min (i + length sub) n) with (i + length sub) by lia.
Qed.

Lemma find_from_spec sub s k :
  match find_from sub s k with
  | Some n => ∃ i, n = k + i ∧ occurs_at sub s i ∧ i ≤ length s
                   ∧ ∀ j, j < i → ¬ occurs_at sub s j
  | None => ∀ j, ¬ occurs_at sub s j
  end.
Proof.
  revert k. induction s as [|x s IH]; intros k; cbn [find_from].
  - destruct (starts_with sub []) eqn:E.
    + exists 0. rewrite starts_with_occurs in E. split_and!; [lia|done|lia|lia].
    + intros j Hj. apply occurs_at_nil in Hj. subst. done.
  - destruct (starts_with sub (x :: s)) eqn:E.
    + exists 0. rewrite starts_with_occurs in E.
      split_and!; [lia|done|cbn; lia|lia].
    + assert (¬ occurs_at sub (x :: s) 0) as H0.
      { rewrite <- starts_with_occurs. congruence. }
      specialize (IH (S k)). destruct (find_from sub s (S k)) as [n|].
      * destruct IH as (i & -> & Ho & Hi & Hmin). exists (S i).
        split_and!; [lia|done|cbn; lia|].
        intros [|j] Hj; [done|]. rewrite occurs_at_cons. apply Hmin. lia.
      * intros [|j]; [done|]. rewrite occurs_at_cons. apply IH.
Qed.

Lemma find_none s sub : find s sub = (-1)%Z ↔ ∀ j, ¬ occurs_at sub s j.
Proof.
  unfold find. pose proof (find_from_spec sub s 0) as Hs.
  destruct (find_from sub s 0) as [n|]; split; try done; try lia.
  intros Hno. destruct Hs as (i & _ & Ho & _). by destruct (Hno i).
Qed.

Lemma find_first s sub i :
  find s sub = Z.of_nat i ↔
  occurs_at sub s i ∧ i ≤ length s ∧ ∀ j, j < i → ¬ occurs_at sub s j.
Proof.
  unfold find. pose proof (find_from_spec sub s 0) as Hs.
  destruct (find_from sub s 0) as [n|].
  - destruct Hs as (i' & -> & Ho & Hi & Hmin). cbn. split.
    + intros ?. assert (i' = i) as -> by lia. done.
    + intros (Ho' & Hi' & Hmin'). f_equal.
      destruct (Nat.lt_trichotomy i' i) as [Hlt|[->|Hlt]]; [|done|].
      * by destruct (Hmin' i').
      * by destruct (Hmin i).
  - split; [lia|]. intros (Ho & _). by destruct (Hs i).
Qed.

Lemma find_range s sub : (find s sub = -1 ∨ 0 ≤ find s sub ≤ len s)%Z.
Proof.
  unfold find, len. pose proof (find_from_spec sub s 0) as Hs.
  destruct (find_from sub s 0) as [n|]; [|by left].
  right. destruct Hs as (i & -> & _ & Hi & _). lia.
Qed.

Lemma rfind_from_spec sub s k :
  match rfind_from sub s k with
  | Some n => ∃ i, n = k + i ∧ occurs_at sub s i ∧ i ≤ length s
                   ∧ ∀ j, i < j → j ≤ length s → ¬ occurs_at sub s j
  | None => ∀ j, ¬ occurs_at sub s j
  end.
Proof.
  revert k. induction s as [|x s IH]; intros k; cbn [rfind_from].
  - destruct (starts_with sub []) eqn:E.
    + exists 0. rewrite starts_with_occurs in E.
      split_and!; [lia|done|lia|cbn; lia].
    + intros j Hj. apply occurs_at_nil in Hj. subst. done.
  - specialize (IH (S k)). destruct (rfind_from sub s (S k)) as [n|].
    + destruct IH as (i & -> & Ho & Hi & Hmax). exists (S i).
      split_and!; [lia|done|cbn; lia|].
      intros [|j] Hj Hj'; [lia|]. rewrite occurs_at_cons. apply Hmax; cbn in *; lia.
    + destruct (starts_with sub (x :: s)) eqn:E.
      * exists 0. rewrite starts_with_occurs in E.
        split_and!; [lia|done|cbn; lia|].
        intros [|j] Hj Hj'; [lia|]. rewrite occurs_at_cons. apply IH.
      * assert (¬ occurs_at sub (x :: s) 0) as H0.
        { rewrite <- starts_with_occurs. congruence. }
        intros [|j]; [done|]. rewrite occurs_at_cons. apply IH.
Qed.

Lemma rfind_none s sub : rfind s sub = (-1)%Z ↔ ∀ j, ¬ occurs_at sub s j.
Proof.
  unfold rfind. pose proof (rfind_from_spec sub s 0) as Hs.
  destruct (rfind_from sub s 0) as [n|]; split; try done; try lia.
  intros Hno. destruct Hs as (i & _ & Ho & _). by destruct (Hno i).
Qed.

Lemma rfind_last s sub :
  rfind s sub ≠ (-1)%Z →
  ∃ i, rfind s sub = Z.of_nat i ∧ occurs_at sub s i ∧ i ≤ length s
       ∧ ∀ j, i < j → j ≤ length s → ¬ occurs_at sub s j.
Proof.
  unfold rfind. pose proof (rfind_from_spec sub s 0) as Hs.
  destruct (rfind_from sub s 0) as [n|]; [|done].
  intros _. destruct Hs as (i & -> & Hs). by exists i.
Qed.

Lemma contains_occurs s sub : contains s sub = true ↔ ∃ i, occurs_at sub s i.
Proof.
  induction s as [|x s IH]; cbn [contains].
  - rewrite orb_false_r, starts_with_occurs. split; [by exists 0|].
    intros [i Hi]. apply occurs_at_nil in Hi. by subst.
  - rewrite orb_true_iff, starts_with_occurs, IH. split.
    + intros [?|[i Hi]]; [by exists 0 | by exists (S i)].
    + intros [[|i] Hi]; [by left | right; by exists i].
Qed.

Lemma contains_find s sub : contains s sub = negb (find s sub =? -1)%Z.
Proof.
  destruct (contains s sub) eqn:E.
  - apply contains_occurs in E as [i Hi]. symmetry. apply negb_true_iff, Z.eqb_neq.
    rewrite find_none. intros Hno. by destruct (Hno i).
  - symmetry. apply negb_false_iff, Z.eqb_eq, find_none. intros j Hj.
    assert (contains s sub = true) by (apply contains_occurs; by exists j). congruence.
Qed.

(** [sub in s] says that [s] has the shape [pre + sub + post]. *)
Lemma contains_infix s sub :
  contains s sub = true ↔ ∃ pre post, s = pre ++ sub ++ post.
Proof.
  rewrite contains_occurs. split.
  - intros [i Hi]. destruct (decide (i ≤ length s)) as [Hle|Hgt].
    + eexists _, _. by apply (occurs_at_split _ _ i).
    + unfold occurs_at in Hi. rewrite drop_ge, take_nil in Hi by lia. subst sub.
      by exists [], s.
  - intros (pre & post & ->). exists (length pre). apply occurs_at_app.
Qed.
End SequenceFacts.

(** ** The library functions on examples *)

Example find_first_occurrence : find (bytes_of "abcabc") (bytes_of "bc") = 1.
Proof. reflexivity. Qed.

Example find_absent : find (bytes_of "abcabc") (bytes_of "x") = -1.
Proof. reflexivity. Qed.

Example rfind_last_occurrence : rfind (bytes_of "abcabc") (bytes_of "bc") = 4.
Proof. reflexivity. Qed.

Example slice_inside : slice (bytes_of "abcdef") 2 4 = bytes_of "cd".
Proof. reflexivity. Qed.

Example slice_reversed_bounds : slice (bytes_of "abcdef") 4 2 = [].
Proof. reflexivity. Qed.

Example slice_past_the_end : slice (bytes_of "abcdef") 4 100 = bytes_of "ef".
Proof. reflexivity. Qed.

Example slice_negative : slice (bytes_of "abcdef") (-2) 6 = bytes_of "ef".
Proof. reflexivity. Qed.

Example utf8_encode_ascii : utf8_encode (str_of "secret.txt") = Some (bytes_of "secret.txt").
Proof. reflexivity. Qed.

Example utf8_encode_multibyte :
  utf8_encode [0xE9; 0x20AC; 0x1F600]%N = Some [xc3; xa9; xe2; x82; xac; xf0; x9f; x98; x80].
Proof. reflexivity. Qed.

Example utf8_decode_multibyte :
  utf8_decode [xc3; xa9; xe2; x82; xac; xf0; x9f; x98; x80] = Some [0xE9; 0x20AC; 0x1F600]%N.
Proof. reflexivity. Qed.

Example utf8_strict :
  utf8_decode [xc0; x80] = None ∧ utf8_decode [xed; xa0; x80] = None
  ∧ utf8_encode [0xD800%N] = None.
Proof. repeat split; reflexivity. Qed.

Example struct_pack_ten : struct_pack_I 10 = Ok [x0a; x00; x00; x00].
Proof. reflexivity. Qed.

Example struct_pack_too_large : struct_pack_I (2 ^ 32) = Raise StructError.
Proof. reflexivity. Qed.

Example struct_unpack_258 : struct_unpack_I [x02; x01; x00; x00] = Ok 258.
Proof. reflexivity. Qed.

Example basename_of_path : basename (str_of "/x/y/secret.txt") = str_of "secret.txt".
Proof. reflexivity. Qed.

Example splitext_of_name : splitext (str_of "x.tar.gz") = (str_of "x.tar", str_of ".gz").
Proof. reflexivity. Qed.

Example splitext_leading_dot :
  splitext (str_of "a/b.c/.bashrc") = (str_of "a/b.c/.bashrc", []).
Proof. reflexivity. Qed.

Example join_relative_name : join (str_of "D") (str_of "secret.txt") = str_of "D/secret.txt".
Proof. reflexivity. Qed.

Example join_after_separator : join (str_of "D/") (str_of "a.txt") = str_of "D/a.txt".
Proof. reflexivity. Qed.

Example join_absolute_name : join (str_of "D") (str_of "/a.txt") = str_of "/a.txt".
Proof. reflexivity. Qed.

Example candidate_one :
  candidate (str_of "D") (str_of "secret") (str_of ".txt") 1 = str_of "D/secret_1.txt".
Proof. reflexivity. Qed.

Example extension_upper_case :
  validate_file_format lower_identity (str_of "NOTES.TXT") scenario_world
  = (Ok true, scenario_world).
Proof. vm_compute; reflexivity. Qed.

Example extension_unsupported :
  validate_file_format lower_identity (str_of "notes.zip") scenario_world
  = (Raise (ValueError UnsupportedFormat), scenario_world).
Proof. vm_compute; reflexivity. Qed.

Section ConcatenationFacts.
Context {A : Type} `{EqDecision A}.
Implicit Types sub s t a b r pre : list A.
Local Open Scope nat_scope.

Lemma find_found s sub : find s sub ≠ (-1)%Z → ∃ i, find s sub = Z.of_nat i.
Proof.
  intros Hne. destruct (find_range s sub) as [|[? _]]; [done|].
  exists (Z.to_nat (find s sub)). lia.
Qed.

(** Without an occurrence starting inside [a], the search continues in
    what follows [a]. *)
Lemma find_app_skip a r sub :
  (∀ j, j < length a → ¬ occurs_at sub (a ++ r) j) →
  find (a ++ r) sub = (if find r sub =? -1 then -1 else len a + find r sub)%Z.
Proof.
  intros Hskip. destruct (find r sub =? -1)%Z eqn:E.
  - apply Z.eqb_eq in E. rewrite find_none in E |- *. intros j Hj.
    destruct (decide (j < length a)) as [Hlt|Hge]; [by apply (Hskip j)|].
    replace j with (length a + (j - length a)) in Hj by lia.
    rewrite occurs_at_app_r in Hj. by apply (E (j - length a)).
  - apply Z.eqb_neq, find_found in E as [i Hi]. rewrite Hi.
    apply find_first in Hi as (Ho & Hi & Hmin).
    unfold len. rewrite <- Nat2Z.inj_add. apply find_first. split_and!.
    + by rewrite occurs_at_app_r.
    + rewrite length_app. lia.
    + intros j Hj Hoj. destruct (decide (j < length a)) as [Hlt|Hge]; [by apply (Hskip j)|].
      replace j with (length a + (j - length a)) in Hoj by lia.
      rewrite occurs_at_app_r in Hoj. apply (Hmin (j - length a)); [lia|done].
Qed.

(** The first occurrence in [s] stays the first one when [s] is extended. *)
Lemma find_app_found s t sub i :
  find s sub = Z.of_nat i → find (s ++ t) sub = Z.of_nat i.
Proof.
  rewrite !find_first. intros (Ho & Hi & Hmin).
  destruct (decide (sub = [])) as [->|Hne].
  - split_and!; [done|rewrite length_app; lia|].
    intros j Hj _. by apply (Hmin j).
  - pose proof (occurs_at_length _ _ _ Ho Hne) as Hlen. split_and!.
    + by apply occurs_at_app_l.
    + rewrite length_app. lia.
    + intros j Hj Hoj. apply (Hmin j Hj). apply occurs_at_app_l in Hoj; [done|lia].
Qed.

(** Cutting [s] before the end of the first occurrence leaves none. *)
Lemma find_take_none s sub i n :
  find s sub = Z.of_nat i → n < i + length sub → find (take n s) sub = (-1)%Z.
Proof.
  rewrite find_first, find_none. intros (Ho & Hi & Hmin) Hn j Hj.
  destruct (decide (sub = [])) as [->|Hne].
  - cbn in Hn. apply (Hmin 0); [lia|done].
  - pose proof (occurs_at_length _ _ _ Hj Hne) as Hlen.
    rewrite length_take in Hlen.
    apply occurs_at_take in Hj; [|lia]. apply (Hmin j); [lia|done].
Qed.

Lemma occurs_at_lookup sub s i k :
  occurs_at sub s i → k < length sub → sub !! k = s !! (i + k).
Proof.
  unfold occurs_at. intros Ho Hk. rewrite <- Ho at 1.
  rewrite lookup_take_lt by done. by rewrite lookup_drop.
Qed.

(** An element [c] that [sub] does not have separates the searches on its
    two sides. *)
Lemma no_occurrence_over_separator pre c r sub :
  c ∉ sub → sub ≠ [] → find pre sub = (-1)%Z →
  ∀ j, j < length (pre ++ [c]) → ¬ occurs_at sub ((pre ++ [c]) ++ r) j.
Proof.
  intros Hc Hne Hpre j Hj Ho. rewrite find_none in Hpre.
  rewrite length_app in Hj. cbn in Hj.
  destruct (decide (j + length sub ≤ length pre)) as [Hin|Hout].
  - rewrite <- (assoc_L (++)) in Ho. apply occurs_at_app_l in Ho; [|done].
    by apply (Hpre j).
  - apply Hc. apply list_elem_of_lookup. exists (length pre - j).
    rewrite (occurs_at_lookup _ _ _ _ Ho) by lia.
    replace (j + (length pre - j)) with (length pre) by lia.
    rewrite <- (assoc_L (++)). cbn [app]. by rewrite list_lookup_middle.
Qed.

Lemma slice_nonneg s (lo hi : Z) :
  (0 ≤ lo)%Z → (0 ≤ hi)%Z →
  slice s lo hi = take (Z.to_nat hi - Z.to_nat lo) (drop (Z.to_nat lo) s).
Proof.
  intros Hlo Hhi. unfold slice, clamp_index.
  destruct (Z.ltb_spec lo 0); [lia|]. destruct (Z.ltb_spec hi 0); [lia|].
  destruct (decide (Z.to_nat lo ≤ length s)) as [Hl|Hl].
  - replace (Z.to_nat (lo `min` Z.of_nat (length s))) with (Z.to_nat lo) by lia.
    destruct (decide (Z.to_nat hi ≤ length s)) as [Hh|Hh].
    + by replace (Z.to_nat (hi `min` Z.of_nat (length s))) with (Z.to_nat hi) by lia.
    + rewrite !take_ge; [done| |]; rewrite length_drop; lia.
  - rewrite !drop_ge by lia. by rewrite !take_nil.
Qed.

Lemma slice_from_nonneg s (lo : Z) :
  (0 ≤ lo)%Z → slice_from s lo = drop (Z.to_nat lo) s.
Proof.
  intros Hlo. unfold slice_from, clamp_index.
  destruct (Z.ltb_spec lo 0); [lia|].
  destruct (decide (Z.to_nat lo ≤ length s)) as [Hl|Hl].
  - by replace (Z.to_nat (lo `min` Z.of_nat (length s))) with (Z.to_nat lo) by lia.
  - rewrite !drop_ge; [done|lia|lia].
Qed.

Lemma slice_prefix s (hi : Z) : (0 ≤ hi)%Z → slice s 0 hi = take (Z.to_nat hi) s.
Proof.
  intros Hhi. rewrite slice_nonneg by lia.
  rewrite Z2Nat.inj_0, Nat.sub_0_r. done.
Qed.

Lemma slice_app_middle a b t :
  slice (a ++ b ++ t) (len a) (len a + len b) = b.
Proof.
  unfold len. rewrite slice_nonneg by lia.
  rewrite Nat2Z.id. replace (Z.to_nat _ - _) with (length b) by lia.
  by rewrite drop_app_length, take_app_length.
Qed.

Lemma len_app s t : len (s ++ t) = (len s + len t)%Z.
Proof. unfold len. rewrite length_app. lia. Qed.

Lemma len_nonneg s : (0 ≤ len s)%Z.
Proof. unfold len. lia. Qed.
End ConcatenationFacts.

(** ** The length fields *)

Lemma Z_of_byte_of_Z (z : Z) : 0 ≤ z < 256 → Z_of_byte (byte_of_Z z) = z.
Proof.
  intros Hz. unfold Z_of_byte, byte_of_Z.
  destruct (Byte.of_N (Z.to_N z)) as [x|] eqn:E.
  - apply Byte.to_of_N in E. lia.
  - apply Byte.of_N_None_iff in E. lia.
Qed.

Lemma length_le32 (n : Z) : length (le32 n) = 4%nat.
Proof. done. Qed.

Lemma len_le32 (n : Z) : len (le32 n) = 4.
Proof. done. Qed.

Lemma struct_unpack_le32 (n : Z) : 0 ≤ n < 2 ^ 32 → struct_unpack_I (le32 n) = Ok n.
Proof.
  intros Hn. unfold le32, struct_unpack_I.
  rewrite !Z_of_byte_of_Z by (Z.div_mod_to_equations; lia).
  f_equal. Z.div_mod_to_equations. lia.
Qed.

Lemma struct_pack_ok (n : Z) : 0 ≤ n < 2 ^ 32 → struct_pack_I n = Ok (le32 n).
Proof.
  intros Hn. unfold struct_pack_I.
  destruct (Z.leb_spec 0 n); [|lia]. destruct (Z.ltb_spec n (2 ^ 32)); [done|lia].
Qed.

Lemma struct_pack_inv (n : Z) (b : bytes) :
  struct_pack_I n = Ok b → 0 ≤ n < 2 ^ 32 ∧ b = le32 n.
Proof.
  unfold struct_pack_I.
  destruct (Z.leb_spec 0 n); destruct (Z.ltb_spec n (2 ^ 32)); cbn; intros [=]; subst.
  split; [lia|done].
Qed.

Lemma struct_unpack_short (b : bytes) : (length b < 4)%nat → struct_unpack_I b = Raise StructError.
Proof. intros Hb. do 4 (destruct b as [|? b]; [done|]). cbn in Hb. lia. Qed.

(** ** The UTF-8 codec: decoding undoes encoding *)

Lemma byte_to_of_N (n : N) : (n < 256)%N → Byte.to_N (byte_of_N n) = n.
Proof.
  intros Hn. unfold byte_of_N.
  destruct (Byte.of_N n) as [x|] eqn:E.
  - by apply Byte.to_of_N.
  - apply Byte.of_N_None_iff in E. lia.
Qed.

Lemma utf8_decode_unfold (b0 : byte) (t0 : bytes) :
  utf8_decode (b0 :: t0) =
      let x0 := Byte.to_N b0 in
      (if x0 <? 0x80 then cons x0 <$> utf8_decode t0
       else if x0 <? 0xC2 then None
       else if x0 <? 0xE0 then
         match t0 with
         | b1 :: t1 =>
             let x1 := Byte.to_N b1 in
             if is_cont x1
             then cons ((x0 - 0xC0) * 64 + (x1 - 0x80)) <$> utf8_decode t1
             else None
         | _ => None
         end
       else if x0 <? 0xF0 then
         match t0 with
         | b1 :: b2 :: t2 =>
             let x1 := Byte.to_N b1 in
             let x2 := Byte.to_N b2 in
             let c := (x0 - 0xE0) * 4096 + (x1 - 0x80) * 64 + (x2 - 0x80) in
             if is_cont x1 && is_cont x2 && (0x800 <=? c) && negb (is_surrogate c)
             then cons c <$> utf8_decode t2
             else None
         | _ => None
         end
       else if x0 <? 0xF5 then
         match t0 with
         | b1 :: b2 :: b3 :: t3 =>
             let x1 := Byte.to_N b1 in
             let x2 := Byte.to_N b2 in
             let x3 := Byte.to_N b3 in
             let c := (x0 - 0xF0) * 262144 + (x1 - 0x80) * 4096
                      + (x2 - 0x80) * 64 + (x3 - 0x80) in
             if is_cont x1 && is_cont x2 && is_cont x3
                && (0x10000 <=? c) && (c <? 0x110000)
             then cons c <$> utf8_decode t3
             else None
         | _ => None
         end
       else None)%N.
Proof. reflexivity. Qed.

Lemma utf8_decode_encode_codepoint (c : N) (x rest : bytes) :
  encode_codepoint c = Some x →
  utf8_decode (x ++ rest) = cons c <$> utf8_decode rest.
Proof.
  unfold encode_codepoint, is_surrogate. intros H.
  repeat case_match; simplify_eq; N_bools;
    cbn [app]; rewrite utf8_decode_unfold; cbv zeta; unfold is_cont, is_surrogate.
  all: rewrite ?byte_to_of_N by (N_divmod; lia).
  all: match goal with |- _ = cons _ <$> utf8_decode ?r =>
         match goal with |- context [cons ?e <$> utf8_decode r] =>
           replace e with c by (N_divmod; lia) end end.
  all: repeat case_match; N_solve.
Qed.

Lemma utf8_decode_encode (s : str) (x : bytes) :
  utf8_encode s = Some x → utf8_decode x = Some s.
Proof.
  revert x. induction s as [|c s IH]; intros x; cbn [utf8_encode].
  - by intros [= <-].
  - destruct (encode_codepoint c) as [y|] eqn:Ec; [|done].
    destruct (utf8_encode s) as [z|] eqn:Es; [|done].
    intros [= <-]. by rewrite (utf8_decode_encode_codepoint c y z Ec), (IH z eq_refl).
Qed.

(** ** The markers *)

Lemma len_MARKER : len MARKER = 21.
Proof. done. Qed.

Lemma len_MARKER_END : len MARKER_END = 19.
Proof. done. Qed.

Lemma MARKER_nonempty : MARKER ≠ [].
Proof. intros H. by cbv in H. Qed.

Lemma MARKER_END_nonempty : MARKER_END ≠ [].
Proof. intros H. by cbv in H. Qed.

Lemma newline_not_in_MARKER : x0a ∉ MARKER.
Proof. intros H. repeat (apply elem_of_cons in H as [H|H]; [done|]). by apply elem_of_nil in H. Qed.

Lemma newline_not_in_MARKER_END : x0a ∉ MARKER_END.
Proof. intros H. repeat (apply elem_of_cons in H as [H|H]; [done|]). by apply elem_of_nil in H. Qed.

(** No occurrence of the end marker starts inside the start marker,
    whatever follows it. *)
Lemma MARKER_END_not_inside_MARKER (r : bytes) (j : nat) :
  (j < length MARKER)%nat → ¬ occurs_at MARKER_END (MARKER ++ r) j.
Proof.
  intros Hj Ho. unfold occurs_at in Ho.
  do 21 (destruct j as [|j]; [by cbv in Ho|]).
  cbn in Hj. lia.
Qed.

Section ModifiedPdf.
Variables kept pkg : bytes.

(** The bytes [hide_file] writes after the carrier part it keeps. *)
Local Abbreviation appended := (newline ++ MARKER ++ pkg ++ MARKER_END ++ newline).

Lemma find_MARKER_appended :
  find kept MARKER = -1 → find (kept ++ appended) MARKER = len kept + 1.
Proof.
  intros Hk. unfold newline.
  rewrite (assoc_L (++) kept [x0a]).
  rewrite find_app_skip.
  2: { apply no_occurrence_over_separator; [apply newline_not_in_MARKER|apply MARKER_nonempty|done]. }
  assert (find (MARKER ++ pkg ++ MARKER_END ++ [x0a]) MARKER = Z.of_nat 0) as ->.
  { apply find_first. split_and!; [|lia|lia].
    unfold occurs_at. by rewrite drop_0, take_app_length. }
  rewrite len_app. change (len [x0a]) with 1.
  change (Z.of_nat 0 =? -1) with false. cbv iota. lia.
Qed.

Lemma find_MARKER_END_appended (e : nat) :
  find kept MARKER_END = -1 →
  find (pkg ++ MARKER_END) MARKER_END = Z.of_nat e →
  find (kept ++ appended) MARKER_END = len kept + 1 + len MARKER + Z.of_nat e.
Proof.
  intros Hk He. unfold newline.
  rewrite (assoc_L (++) kept [x0a]).
  rewrite find_app_skip.
  2: { apply no_occurrence_over_separator; [apply newline_not_in_MARKER_END|apply MARKER_END_nonempty|done]. }
  rewrite find_app_skip by apply MARKER_END_not_inside_MARKER.
  rewrite (assoc_L (++) pkg MARKER_END).
  rewrite (find_app_found _ _ _ e He).
  rewrite len_app. change (len [x0a]) with 1.
  destruct (Z.eqb_spec (Z.of_nat e) (-1)); [lia|].
  destruct (Z.eqb_spec (len MARKER + Z.of_nat e) (-1)); [pose proof (len_nonneg MARKER); lia|].
  lia.
Qed.
End ModifiedPdf.

(** ** Running the monad *)

Lemma bind_Ok {A B} (m : M A) (k : A → M B) (w w' : world) (a : A) :
  m w = (Ok a, w') → bind m k w = k a w'.
Proof. unfold bind. by intros ->. Qed.

Lemma bind_Raise {A B} (m : M A) (k : A → M B) (w w' : world) (e : exn) :
  m w = (Raise e, w') → bind m k w = (Raise e, w').
Proof. unfold bind. by intros ->. Qed.

Lemma bind_inv_Ok {A B} (m : M A) (k : A → M B) (w w'' : world) (b : B) :
  bind m k w = (Ok b, w'') → ∃ a w', m w = (Ok a, w') ∧ k a w' = (Ok b, w'').
Proof.
  unfold bind. destruct (m w) as [[a|e|] w']; [|done..]. intros Hk. by exists a, w'.
Qed.

Lemma lift_inv_Ok {A} (o : outcome A) (w w' : world) (a : A) :
  lift o w = (Ok a, w') → o = Ok a ∧ w' = w.
Proof. unfold lift. by intros [= -> ->]. Qed.

(** ** [validate_pdf] *)

Lemma validate_pdf_ok (w : world) (p : str) (c : bytes) :
  w !! p = Some (File c) → take 5 c = pdf_signature → validate_pdf p w = (Ok true, w).
Proof.
  intros Hp Hsig. unfold validate_pdf, bind, os_path_exists, open_rb.
  rewrite Hp. cbn [negb]. rewrite Hp, Hsig.
  by rewrite bool_decide_eq_true_2.
Qed.

Lemma validate_pdf_inv (w w' : world) (p : str) (b : bool) :
  validate_pdf p w = (Ok b, w') →
  ∃ c, w !! p = Some (File c) ∧ take 5 c = pdf_signature ∧ w' = w ∧ b = true.
Proof.
  unfold validate_pdf, bind, os_path_exists, open_rb, raise, ret.
  destruct (w !! p) as [[c|]|] eqn:Hp; cbn [negb]; cbv beta iota;
    rewrite ?Hp; cbv beta iota; [|done..].
  case_bool_decide as Hsig; cbn [negb]; cbv beta iota; [|done].
  intros [= <- <-]. by exists c.
Qed.

(** [validate_pdf] raises only [Exception]s and leaves the world alone. *)
Lemma validate_pdf_fail (w : world) (p : str) :
  (∃ c, w !! p = Some (File c) ∧ take 5 c = pdf_signature)
  ∨ (∃ e, validate_pdf p w = (Raise e, w) ∧ is_Exception e = true).
Proof.
  unfold validate_pdf, bind, os_path_exists, open_rb, raise, ret.
  destruct (w !! p) as [[c|]|] eqn:Hp; cbn [negb]; cbv beta iota;
    rewrite ?Hp; cbv beta iota.
  - case_bool_decide as Hsig; cbn [negb]; cbv beta iota;
      [left; by exists c|right; by eexists].
  - right; by eexists.
  - right; by eexists.
Qed.

Section HideFile.
Variable unicode_lower : str → str.

Lemma validate_file_format_ok (w : world) (p : str) :
  str_lower unicode_lower (splitext p).2 ∈ SUPPORTED_FORMATS →
  validate_file_format unicode_lower p w = (Ok true, w).
Proof.
  intros Hin. unfold validate_file_format. by rewrite bool_decide_eq_true_2.
Qed.

Lemma validate_file_format_fail (w : world) (p : str) :
  str_lower unicode_lower (splitext p).2 ∉ SUPPORTED_FORMATS →
  validate_file_format unicode_lower p w = (Raise (ValueError UnsupportedFormat), w).
Proof.
  intros Hin. unfold validate_file_format. by rewrite bool_decide_eq_false_2.
Qed.

Lemma open_wb_write_ok (w : world) (p : str) (data : bytes) :
  p ≠ [] → w !! p ≠ Some Dir → open_wb_write p data w = (Ok tt, <[p := File data]> w).
Proof.
  intros Hp Hd. unfold open_wb_write. destruct p; [done|].
  destruct (w !! _) as [[]|]; done.
Qed.

Lemma hide_file_body_ok w pdf_path file_to_hide output_path pdf_content hidden_data
    filename_bytes :
  embeddable unicode_lower w pdf_path file_to_hide output_path pdf_content hidden_data filename_bytes →
  hide_file_body unicode_lower pdf_path file_to_hide output_path w
  = (Ok true, <[output_path := File (modified_pdf pdf_content filename_bytes hidden_data)]> w).
Proof.
  intros []. unfold hide_file_body.
  rewrite (bind_Ok _ _ _ _ _ (validate_pdf_ok _ _ _ emb_pdf0 emb_signature0)).
  rewrite (bind_Ok _ _ _ _ _ (validate_file_format_ok _ _ emb_format0)).
  unfold bind at 1. unfold os_path_exists. rewrite emb_file0. cbn [negb].
  unfold bind at 1. unfold open_rb at 1. rewrite emb_pdf0.
  unfold bind at 1. unfold open_rb at 1. rewrite emb_file0.
  unfold bind at 1. unfold lift at 1, str_encode_utf8. rewrite emb_name0.
  unfold bind at 1. unfold lift at 1.
  rewrite struct_pack_ok by (pose proof (len_nonneg filename_bytes); lia).
  unfold bind at 1. unfold lift at 1.
  rewrite struct_pack_ok by (pose proof (len_nonneg hidden_data); lia).
  destruct (Z.eqb_spec (rfind pdf_content eof_marker) (-1)) as [|_]; [done|].
  unfold bind at 1. rewrite open_wb_write_ok by done. done.
Qed.

Lemma hide_file_ok w pdf_path file_to_hide output_path pdf_content hidden_data
    filename_bytes :
  embeddable unicode_lower w pdf_path file_to_hide output_path pdf_content hidden_data filename_bytes →
  hide_file unicode_lower pdf_path file_to_hide output_path w
  = (Ok true, <[output_path := File (modified_pdf pdf_content filename_bytes hidden_data)]> w).
Proof.
  intros Hemb. unfold hide_file, try_except. by rewrite (hide_file_body_ok _ _ _ _ _ _ _ Hemb).
Qed.

(** Whatever the inputs, [hide_file_body] either returns [True] after
    writing the output file, on inputs as above, or raises an [Exception]
    without having written anything. *)
Lemma hide_file_body_cases w pdf_path file_to_hide output_path :
  (∃ pdf_content hidden_data filename_bytes,
      embeddable unicode_lower w pdf_path file_to_hide output_path pdf_content hidden_data filename_bytes)
  ∨ (∃ e, hide_file_body unicode_lower pdf_path file_to_hide output_path w = (Raise e, w)
          ∧ is_Exception e = true).
Proof.
  unfold hide_file_body.
  destruct (validate_pdf_fail w pdf_path) as [(C & Hpdf & Hsig)|(e & He & Hexc)];
    [|right; exists e; by rewrite (bind_Raise _ _ _ _ _ He)].
  rewrite (bind_Ok _ _ _ _ _ (validate_pdf_ok _ _ _ Hpdf Hsig)).
  destruct (decide (str_lower unicode_lower (splitext file_to_hide).2 ∈ SUPPORTED_FORMATS))
    as [Hfmt|Hfmt];
    [|right; eexists; by rewrite (bind_Raise _ _ _ _ _ (validate_file_format_fail _ _ Hfmt))].
  rewrite (bind_Ok _ _ _ _ _ (validate_file_format_ok _ _ Hfmt)).
  unfold bind at 1. unfold os_path_exists.
  destruct (w !! file_to_hide) as [[P|]|] eqn:Hfile; cbn [negb];
    [| |right; by eexists].
  2: { right. unfold bind at 1. unfold open_rb at 1. rewrite Hpdf.
       unfold bind at 1. unfold open_rb at 1. rewrite Hfile. by eexists. }
  unfold bind at 1. unfold open_rb at 1. rewrite Hpdf.
  unfold bind at 1. unfold open_rb at 1. rewrite Hfile.
  unfold bind at 1. unfold lift at 1, str_encode_utf8.
  destruct (utf8_encode (basename file_to_hide)) as [nb|] eqn:Hname; [|right; by eexists].
  unfold bind at 1. unfold lift at 1.
  destruct (struct_pack_I (len nb)) as [b1|e1|] eqn:Hp1.
  2: { right. unfold struct_pack_I in Hp1. case_match; simplify_eq. by eexists. }
  2: { unfold struct_pack_I in Hp1. case_match; simplify_eq. }
  apply struct_pack_inv in Hp1 as [Hn1 ->].
  unfold bind at 1. unfold lift at 1.
  destruct (struct_pack_I (len P)) as [b2|e2|] eqn:Hp2.
  2: { right. unfold struct_pack_I in Hp2. case_match; simplify_eq. by eexists. }
  2: { unfold struct_pack_I in Hp2. case_match; simplify_eq. }
  apply struct_pack_inv in Hp2 as [Hn2 ->].
  destruct (Z.eqb_spec (rfind C eof_marker) (-1)) as [Heof|Heof]; [right; by eexists|].
  unfold bind at 1. unfold open_wb_write.
  destruct output_path as [|c0 out] eqn:Hout; [right; by eexists|]. rewrite <- Hout.
  destruct (w !! output_path) as [[|]|] eqn:Hw; [|right; by eexists|].
  all: left; exists C, P, nb; split; try done; try lia; congruence.
Qed.

Lemma hide_file_cases w pdf_path file_to_hide output_path :
  (∃ pdf_content hidden_data filename_bytes,
      embeddable unicode_lower w pdf_path file_to_hide output_path pdf_content hidden_data filename_bytes
      ∧ hide_file unicode_lower pdf_path file_to_hide output_path w
        = (Ok true,
           <[output_path := File (modified_pdf pdf_content filename_bytes hidden_data)]> w))
  ∨ hide_file unicode_lower pdf_path file_to_hide output_path w = (Ok false, w).
Proof.
  destruct (hide_file_body_cases w pdf_path file_to_hide output_path)
    as [(C & P & nb & Hemb)|(e & He & Hexc)].
  - left. exists C, P, nb. split; [done|]. by apply hide_file_ok.
  - right. unfold hide_file, try_except. by rewrite He, Hexc.
Qed.

Lemma hide_file_inv w w' pdf_path file_to_hide output_path :
  hide_file unicode_lower pdf_path file_to_hide output_path w = (Ok true, w') →
  ∃ pdf_content hidden_data filename_bytes,
    embeddable unicode_lower w pdf_path file_to_hide output_path pdf_content hidden_data filename_bytes
    ∧ w' = <[output_path := File (modified_pdf pdf_content filename_bytes hidden_data)]> w.
Proof.
  intros Hh. destruct (hide_file_cases w pdf_path file_to_hide output_path)
    as [(C & P & nb & Hemb & Hok)|Hfail]; [|congruence].
  exists C, P, nb. split; [done|congruence].
Qed.
End HideFile.

(** ** Paths *)

Lemma byte_to_N_inj (x y : byte) : Byte.to_N x = Byte.to_N y → x = y.
Proof.
  intros H. apply (f_equal Byte.of_N) in H.
  rewrite !Byte.of_to_N in H. congruence.
Qed.

Lemma str_of_inj (s1 s2 : string) : str_of s1 = str_of s2 → s1 = s2.
Proof.
  unfold str_of. intros H.
  assert (Inj (=) (=) Byte.to_N) as Hinj by (intros ??; apply byte_to_N_inj).
  apply (inj (fmap Byte.to_N)) in H.
  rewrite <- (string_of_list_byte_of_string s1), <- (string_of_list_byte_of_string s2).
  by rewrite H.
Qed.

Lemma str_of_int_inj (m n : Z) : str_of_int m = str_of_int n → m = n.
Proof. unfold str_of_int. intros H%str_of_inj. by apply (inj pretty). Qed.

Lemma occurs_at_singleton {A} (c : A) (s : list A) (j : nat) :
  occurs_at [c] s j ↔ s !! j = Some c.
Proof.
  unfold occurs_at. cbn [length]. rewrite <- (Nat.add_0_r j) at 2.
  rewrite <- lookup_drop. destruct (drop j s) as [|x t]; cbn; [done|].
  rewrite take_0. split; congruence.
Qed.

Lemma starts_with_sep_head (s : str) :
  starts_with [sep] s = true ↔ head s = Some sep.
Proof.
  destruct s as [|c s]; cbn; [done|].
  rewrite andb_true_r, bool_decide_eq_true. split; congruence.
Qed.

Lemma join_cancel (a b1 b2 : str) :
  starts_with [sep] b1 = starts_with [sep] b2 → join a b1 = join a b2 → b1 = b2.
Proof.
  unfold join. intros <-. destruct (starts_with [sep] b1); [done|].
  destruct (_ || _); intros H.
  - by apply app_inv_head in H.
  - by do 2 apply app_inv_head in H.
Qed.

Lemma join_relative (a b : str) :
  starts_with [sep] b = false → ∃ prefix, join a b = prefix ++ b ∧ (length a ≤ length prefix)%nat.
Proof.
  unfold join. intros ->. destruct (_ || _).
  - by exists a.
  - exists (a ++ [sep]). rewrite <- (assoc_L (++)). split; [done|]. rewrite length_app. lia.
Qed.

Lemma join_ne_dir (a b : str) :
  b ≠ [] → starts_with [sep] b = false → join a b ≠ a.
Proof.
  intros Hb Hrel Heq. destruct (join_relative a b Hrel) as (prefix & Hj & Hlen).
  rewrite Hj in Heq. apply (f_equal length) in Heq. rewrite length_app in Heq.
  destruct b; [done|]. cbn in Heq. lia.
Qed.

Lemma rfind_lower_bound {A} `{EqDecision A} (s sub : list A) : -1 ≤ rfind s sub.
Proof. unfold rfind. destruct (rfind_from sub s 0); lia. Qed.

Lemma splitext_scan_spec (p : str) (n : nat) (f d : Z) :
  0 ≤ f → n = Z.to_nat (d - f) →
  (splitext_scan p n f d).1 ++ (splitext_scan p n f d).2 = p
  ∧ ((splitext_scan p n f d).1 = [] → p = []).
Proof.
  revert f. induction n as [|n IH]; intros f Hf Hn; cbn [splitext_scan].
  - cbn [fst snd]. rewrite slice_prefix by lia. by rewrite take_0, app_nil_r.
  - destruct (negb _).
    + cbn [fst snd]. rewrite slice_prefix, slice_from_nonneg by lia.
      split; [apply take_drop|]. intros [Hd| ->]%take_nil_inv; [lia|done].
    + apply IH; lia.
Qed.

(** [splitext] cuts the path in two, and the first part is empty only for
    the empty path. *)
Lemma splitext_spec (p : str) :
  (splitext p).1 ++ (splitext p).2 = p ∧ ((splitext p).1 = [] → p = []).
Proof.
  unfold splitext. destruct (Z.ltb_spec (rfind p [sep]) (rfind p [extsep])) as [Hlt|Hge].
  - pose proof (rfind_lower_bound p [sep]). apply splitext_scan_spec; lia.
  - cbn [fst snd]. rewrite slice_prefix by lia. by rewrite take_0, app_nil_r.
Qed.

Lemma splitext_ext_nonempty (p : str) :
  (splitext p).2 ≠ [] → rfind p [sep] < rfind p [extsep].
Proof.
  unfold splitext. destruct (Z.ltb_spec (rfind p [sep]) (rfind p [extsep])) as [Hlt|Hge]; [done|].
  cbn [fst snd]. rewrite slice_prefix by lia. by rewrite take_0.
Qed.

(** [basename] returns what follows the last separator. *)
Lemma basename_no_sep (p : str) : sep ∉ basename p.
Proof.
  unfold basename. pose proof (rfind_lower_bound p [sep]) as Hlb.
  rewrite slice_from_nonneg by lia.
  intros [j Hj]%list_elem_of_lookup. rewrite lookup_drop in Hj.
  pose proof (lookup_lt_Some _ _ _ Hj) as Hlen.
  apply occurs_at_singleton in Hj.
  destruct (decide (rfind p [sep] = -1)) as [Hnone|Hsome].
  - rewrite rfind_none in Hnone. by apply (Hnone _ Hj).
  - apply rfind_last in Hsome as (i & Hi & _ & _ & Hmax). rewrite Hi in Hj, Hlen.
    apply (Hmax (Z.to_nat (Z.of_nat i + 1) + j)%nat); [lia|lia|done].
Qed.

Lemma basename_relative (p : str) : starts_with [sep] (basename p) = false.
Proof.
  apply not_true_is_false. rewrite starts_with_sep_head. intros Hh.
  apply (basename_no_sep p). destruct (basename p); [done|].
  cbn in Hh. injection Hh as ->. apply elem_of_cons. by left.
Qed.

Lemma basename_nonempty (p : str) : (splitext p).2 ≠ [] → basename p ≠ [].
Proof.
  intros Hlt%splitext_ext_nonempty. unfold basename.
  pose proof (rfind_lower_bound p [sep]) as Hlb.
  rewrite slice_from_nonneg by lia.
  assert (rfind p [extsep] ≠ -1) as (i & Hi & Ho & _)%rfind_last by lia.
  apply occurs_at_singleton, lookup_lt_Some in Ho.
  intros Hnil%drop_nil_inv. lia.
Qed.

Section Candidates.
Variables output_dir base_name ext : str.

Lemma candidate_head (x y : str) :
  starts_with [sep] (base_name ++ str_of "_" ++ x)
  = starts_with [sep] (base_name ++ str_of "_" ++ y).
Proof. by destruct base_name. Qed.

Lemma candidate_inj (m n : Z) :
  candidate output_dir base_name ext m = candidate output_dir base_name ext n → m = n.
Proof.
  unfold candidate. intros H%join_cancel; [|apply candidate_head].
  do 2 apply app_inv_head in H. apply app_inv_tail in H. by apply str_of_int_inj.
Qed.
End Candidates.

(** ** Canonical paths *)

Lemma canonical_nonempty (p : str) : canonical p = true → p ≠ [].
Proof. by intros Hc ->. Qed.

Lemma plain_name_nonempty (s : str) : plain_name s = true → s ≠ [].
Proof. by intros Hp ->. Qed.

Lemma plain_name_relative (s : str) : plain_name s = true → starts_with [sep] s = false.
Proof.
  unfold plain_name. rewrite !andb_true_iff. intros [[_ Hall] _].
  destruct s as [|c s]; [done|]. cbn [forallb] in Hall.
  apply andb_true_iff in Hall as [[Hsep _]%andb_true_iff _].
  cbn. apply negb_true_iff, N.eqb_neq in Hsep. by rewrite bool_decide_eq_false_2.
Qed.

Lemma can_be_directory_spec (w : world) (d : str) :
  can_be_directory w d → d ≠ [] ∧ ∀ c, w !! d ≠ Some (File c).
Proof.
  intros [Hc Hfiles]. split; [by apply canonical_nonempty|].
  intros c Hd. apply Forall_app in Hfiles as [_ Hlast].
  apply Forall_inv in Hlast.
  assert (is_file w d = true) as Hfile by (unfold is_file; by rewrite Hd).
  congruence.
Qed.

(** ** The loop that looks for an unused path *)

Section UniquePath.
Variables (w : world) (output_dir base_name ext : str).

Local Abbreviation cand := (candidate output_dir base_name ext).

Lemma unique_path_loop_step (fuel : nat) (output_path : str) (counter : Z) :
  unique_path_loop (S fuel) output_dir base_name ext output_path counter w
  = match w !! output_path with
    | Some _ => unique_path_loop fuel output_dir base_name ext (cand counter) (counter + 1) w
    | None => (Ok output_path, w)
    end.
Proof.
  cbn [unique_path_loop]. unfold bind, os_path_exists.
  by destruct (w !! output_path).
Qed.

(** With more fuel than there are occupied candidates the loop stops at
    the first candidate that is free: it cannot go past more candidates
    than the file system holds paths. *)
Lemma unique_path_loop_candidates (fuel : nat) (k : Z) (occupied : gset str) :
  (∀ j, k ≤ j → is_Some (w !! cand j) → cand j ∈ occupied) →
  (size occupied < fuel)%nat →
  ∃ k', k ≤ k'
    ∧ unique_path_loop fuel output_dir base_name ext (cand k) (k + 1) w = (Ok (cand k'), w)
    ∧ w !! cand k' = None
    ∧ ∀ j, k ≤ j < k' → is_Some (w !! cand j).
Proof.
  revert k occupied. induction fuel as [|fuel IH]; intros k occupied Hocc Hsize; [lia|].
  rewrite unique_path_loop_step. destruct (w !! cand k) as [nd|] eqn:Hk.
  - assert (cand k ∈ occupied) as Hin by (apply Hocc; [lia|by rewrite Hk]).
    destruct (IH (k + 1) (occupied ∖ {[cand k]})) as (k' & Hle & Hrun & Hfree & Hbusy).
    + intros j Hj Hsome. apply elem_of_difference. split; [apply Hocc; [lia|done]|].
      rewrite elem_of_singleton. intros Heq%candidate_inj. lia.
    + rewrite size_difference by (by apply singleton_subseteq_l).
      rewrite size_singleton.
      assert (size occupied ≠ 0%nat); [|lia].
      intros Hz%size_empty_inv. apply Hz in Hin. by apply elem_of_empty in Hin.
    + exists k'. split_and!; [lia|done|done|].
      intros j Hj. destruct (decide (j = k)) as [->|]; [by rewrite Hk|]. apply Hbusy. lia.
  - exists k. split_and!; [lia|done|done|]. intros j Hj. lia.
Qed.

(** The loop of [extract_file] always ends, on the first path among
    [output_path], [candidate 1], [candidate 2], ... that does not exist. *)
Lemma unique_path_spec (output_path : str) :
  ∃ p : str, unique_path output_dir base_name ext output_path w = (Ok p, w)
    ∧ w !! p = None
    ∧ ((w !! output_path = None ∧ p = output_path)
       ∨ (is_Some (w !! output_path)
          ∧ ∃ k, 1 ≤ k ∧ p = cand k ∧ ∀ j, 1 ≤ j < k → is_Some (w !! cand j))).
Proof.
  unfold unique_path. rewrite unique_path_loop_step.
  destruct (w !! output_path) as [nd|] eqn:Hp.
  - destruct (unique_path_loop_candidates (S (size w)) 1 (dom w))
      as (k & Hle & Hrun & Hfree & Hbusy).
    + intros j _ Hsome. by apply elem_of_dom.
    + rewrite size_dom. lia.
    + exists (cand k). split_and!; [done|done|]. right. split; [done|]. by exists k.
  - exists output_path. split_and!; [done|done|]. by left.
Qed.
End UniquePath.

(** ** [os.makedirs] *)

Lemma os_makedirs_nonempty (w : world) (d : str) :
  d ≠ [] →
  os_makedirs d w = match w !! d with
                    | Some (File _) => (Raise FileExistsError, w)
                    | Some Dir => (Ok tt, w)
                    | None => (Ok tt, <[d := Dir]> w)
                    end.
Proof. by destruct d. Qed.

Lemma os_makedirs_ok (w : world) (d : str) :
  d ≠ [] → (∀ c, w !! d ≠ Some (File c)) →
  ∃ w', os_makedirs d w = (Ok tt, w')
    ∧ w' !! d = Some Dir
    ∧ ∀ p : str, p ≠ d → w' !! p = w !! p.
Proof.
  intros Hd Hfile. rewrite os_makedirs_nonempty by done.
  destruct (w !! d) as [[c|]|] eqn:Hw.
  - by destruct (Hfile c).
  - by exists w.
  - exists (<[d := Dir]> w). split_and!; [done|by rewrite lookup_insert_eq|].
    intros p Hp. by rewrite lookup_insert_ne.
Qed.

(** ** Reading a package *)

Section Package.
Variables (filename_bytes rest : bytes) (data_length : Z).

Local Abbreviation hidden_package :=
  (le32 (len filename_bytes) ++ filename_bytes ++ le32 data_length ++ rest).

Lemma package_name_length_field : slice hidden_package 0 4 = le32 (len filename_bytes).
Proof. rewrite slice_prefix by lia. by apply take_app_length'. Qed.

Lemma package_name_field :
  slice hidden_package 4 (4 + len filename_bytes) = filename_bytes.
Proof. apply (slice_app_middle (le32 _)). Qed.

Lemma package_data_length_field :
  slice hidden_package (4 + len filename_bytes) (4 + len filename_bytes + 4)
  = le32 data_length.
Proof.
  rewrite (assoc_L (++) (le32 _)).
  rewrite <- (len_le32 (len filename_bytes)) at 1 2.
  rewrite <- len_app. apply (slice_app_middle _ (le32 data_length)).
Qed.

Lemma package_data_field :
  0 ≤ data_length →
  slice hidden_package (4 + len filename_bytes + 4)
    (4 + len filename_bytes + 4 + data_length)
  = take (Z.to_nat data_length) rest.
Proof.
  intros Hd. pose proof (len_nonneg filename_bytes).
  rewrite slice_nonneg by lia.
  rewrite !(assoc_L (++)). rewrite drop_app_length'.
  - f_equal. lia.
  - rewrite !length_app, !length_le32. unfold len. lia.
Qed.
End Package.

(** ** Carriers with a package *)

Section Carrier.
Variables (w : world) (pdf_path : str) (pdf_content : bytes) (a e : nat).
Variables (filename_bytes : bytes) (filename : str) (data_length : Z) (rest : bytes).
Hypothesis Hpkg :
  has_package w pdf_path pdf_content a e filename_bytes filename data_length rest.

Lemma markers_found :
  (find pdf_content MARKER =? -1) || (find pdf_content MARKER_END =? -1) = false.
Proof.
  destruct Hpkg. rewrite pkg_start0, pkg_end0.
  apply orb_false_intro; apply Z.eqb_neq; lia.
Qed.

Lemma get_hidden_file_info_body_ok :
  get_hidden_file_info_body pdf_path w = (Ok (Some (filename, data_length)), w).
Proof.
  pose proof markers_found as Hm. destruct Hpkg. unfold get_hidden_file_info_body.
  rewrite (bind_Ok _ _ _ _ _ (validate_pdf_ok _ _ _ pkg_pdf0 pkg_signature0)).
  unfold bind at 1. unfold open_rb at 1. rewrite pkg_pdf0.
  rewrite Hm, pkg_start0, pkg_end0, pkg_bytes0.
  unfold bind at 1. unfold lift at 1.
  rewrite package_name_length_field.
  rewrite struct_unpack_le32 by (pose proof (len_nonneg filename_bytes); lia).
  unfold bind at 1. unfold lift at 1.
  rewrite package_name_field. unfold bytes_decode_utf8. rewrite pkg_name0.
  unfold bind at 1. unfold lift at 1.
  rewrite package_data_length_field, struct_unpack_le32 by done.
  done.
Qed.

Lemma extract_file_body_corrupt (output_dir : str) :
  len rest < data_length →
  extract_file_body pdf_path output_dir w = (Raise (ValueError DataCorruption), w).
Proof.
  intros Hshort. pose proof markers_found as Hm. destruct Hpkg. unfold extract_file_body.
  rewrite (bind_Ok _ _ _ _ _ (validate_pdf_ok _ _ _ pkg_pdf0 pkg_signature0)).
  unfold bind at 1. unfold open_rb at 1. rewrite pkg_pdf0.
  rewrite Hm, pkg_start0, pkg_end0, pkg_bytes0.
  unfold bind at 1. unfold lift at 1.
  rewrite package_name_length_field.
  rewrite struct_unpack_le32 by (pose proof (len_nonneg filename_bytes); lia).
  unfold bind at 1. unfold lift at 1.
  rewrite package_name_field. unfold bytes_decode_utf8. rewrite pkg_name0.
  unfold bind at 1. unfold lift at 1.
  rewrite package_data_length_field, struct_unpack_le32 by done.
  rewrite package_data_field by lia.
  destruct (Z.eqb_spec (len (take (Z.to_nat data_length) rest)) data_length) as [Heq|_];
    [|done].
  unfold len in Heq, Hshort. rewrite length_take in Heq. lia.
Qed.

Lemma extract_file_body_ok (output_dir : str) (wd : world) (p : str) :
  data_length ≤ len rest →
  os_makedirs output_dir w = (Ok tt, wd) →
  unique_path output_dir (splitext filename).1 (splitext filename).2
    (join output_dir filename) wd = (Ok p, wd) →
  p ≠ [] → wd !! p = None →
  extract_file_body pdf_path output_dir w
  = (Ok p, <[p := File (take (Z.to_nat data_length) rest)]> wd).
Proof.
  intros Hlong Hmk Hloop Hp Hfree.
  pose proof markers_found as Hm. destruct Hpkg. unfold extract_file_body.
  rewrite (bind_Ok _ _ _ _ _ (validate_pdf_ok _ _ _ pkg_pdf0 pkg_signature0)).
  unfold bind at 1. unfold open_rb at 1. rewrite pkg_pdf0.
  rewrite Hm, pkg_start0, pkg_end0, pkg_bytes0.
  unfold bind at 1. unfold lift at 1.
  rewrite package_name_length_field.
  rewrite struct_unpack_le32 by (pose proof (len_nonneg filename_bytes); lia).
  unfold bind at 1. unfold lift at 1.
  rewrite package_name_field. unfold bytes_decode_utf8. rewrite pkg_name0.
  unfold bind at 1. unfold lift at 1.
  rewrite package_data_length_field, struct_unpack_le32 by done.
  rewrite package_data_field by lia.
  destruct (Z.eqb_spec (len (take (Z.to_nat data_length) rest)) data_length) as [_|Hne].
  2: { unfold len in Hne, Hlong. rewrite length_take in Hne. lia. }
  cbn [negb]. rewrite (bind_Ok _ _ _ _ _ Hmk).
  destruct (splitext filename) as [base_name ext]. cbn [fst snd] in Hloop.
  rewrite (bind_Ok _ _ _ _ _ Hloop).
  unfold bind at 1. unfold open_wb_write. destruct p; [done|]. by rewrite Hfree.
Qed.
End Carrier.

(** ** What [hide_file] writes carries a package *)

Lemma kept_part_spec (pdf_content : bytes) :
  rfind pdf_content eof_marker ≠ -1 →
  ∃ i : nat,
    rfind pdf_content eof_marker = Z.of_nat i
    ∧ occurs_at eof_marker pdf_content i
    ∧ (∀ j, (i < j)%nat → (j ≤ length pdf_content)%nat → ¬ occurs_at eof_marker pdf_content j)
    ∧ kept_part pdf_content = take (i + 5) pdf_content
    ∧ length (kept_part pdf_content) = (i + 5)%nat.
Proof.
  intros (i & Hi & Ho & Hle & Hmax)%rfind_last. exists i.
  assert (kept_part pdf_content = take (i + 5) pdf_content) as Hk.
  { unfold kept_part. rewrite Hi. change (len eof_marker) with 5.
    rewrite slice_prefix by lia. f_equal. lia. }
  split_and!; [done..|].
  rewrite Hk, length_take. apply occurs_at_length in Ho; [|done].
  change (length eof_marker) with 5%nat in Ho. lia.
Qed.

Lemma kept_part_signature (pdf_content : bytes) :
  rfind pdf_content eof_marker ≠ -1 →
  take 5 (kept_part pdf_content) = take 5 pdf_content.
Proof.
  intros (i & _ & _ & _ & -> & _)%kept_part_spec.
  rewrite take_take. f_equal. lia.
Qed.

Lemma modified_pdf_signature (pdf_content filename_bytes hidden_data : bytes) :
  rfind pdf_content eof_marker ≠ -1 →
  take 5 (modified_pdf pdf_content filename_bytes hidden_data) = take 5 pdf_content.
Proof.
  intros Heof. unfold modified_pdf.
  destruct (kept_part_spec _ Heof) as (i & _ & _ & _ & _ & Hlen).
  rewrite take_app_le by lia. by apply kept_part_signature.
Qed.

Lemma has_package_transfer (w w' : world) pdf_path pdf_content a e filename_bytes filename
    data_length rest :
  has_package w pdf_path pdf_content a e filename_bytes filename data_length rest →
  w' !! pdf_path = w !! pdf_path →
  has_package w' pdf_path pdf_content a e filename_bytes filename data_length rest.
Proof. intros [] Heq. split; try done. by rewrite Heq. Qed.

(** The end marker is found in [package ++ MARKER_END], at the latest where
    it was appended. *)
Lemma find_MARKER_END_package (pkg : bytes) :
  ∃ e : nat, find (pkg ++ MARKER_END) MARKER_END = Z.of_nat e ∧ (e ≤ length pkg)%nat.
Proof.
  destruct (find_found (pkg ++ MARKER_END) MARKER_END) as [e He].
  - rewrite find_none. intros Hno. apply (Hno (length pkg)).
    rewrite <- (app_nil_r MARKER_END) at 2. apply occurs_at_app.
  - exists e. split; [done|]. apply find_first in He as (_ & _ & Hmin).
    destruct (decide (e ≤ length pkg)%nat) as [|Hgt]; [done|].
    destruct (Hmin (length pkg)); [lia|].
    rewrite <- (app_nil_r MARKER_END) at 2. apply occurs_at_app.
Qed.

Section Embedded.
Variables (w1 : world) (output_path : str).
Variables (pdf_content hidden_data filename_bytes : bytes) (filename : str).
Variable e : nat.

Hypothesis Hout :
  w1 !! output_path = Some (File (modified_pdf pdf_content filename_bytes hidden_data)).
Hypothesis Hsig : take 5 pdf_content = pdf_signature.
Hypothesis Heof : rfind pdf_content eof_marker ≠ -1.
Hypothesis Hname : utf8_encode filename = Some filename_bytes.
Hypothesis Hname_length : len filename_bytes < 2 ^ 32.
Hypothesis Hdata_length : len hidden_data < 2 ^ 32.
Hypothesis Hstart : find (kept_part pdf_content) MARKER = -1.
Hypothesis Hend : find (kept_part pdf_content) MARKER_END = -1.
Hypothesis Hfirst :
  find (package filename_bytes hidden_data ++ MARKER_END) MARKER_END = Z.of_nat e.
Hypothesis Hheader : (8 + length filename_bytes ≤ e)%nat.

Lemma modified_pdf_has_package :
  has_package w1 output_path (modified_pdf pdf_content filename_bytes hidden_data)
    (length (kept_part pdf_content) + 1)
    (length (kept_part pdf_content) + 1 + 21 + e)
    filename_bytes filename (len hidden_data)
    (take (e - (8 + length filename_bytes)) (hidden_data ++ MARKER_END ++ newline)).
Proof.
  split.
  - done.
  - by rewrite modified_pdf_signature.
  - unfold modified_pdf. rewrite find_MARKER_appended by done. unfold len. lia.
  - unfold modified_pdf. rewrite (find_MARKER_END_appended _ _ e) by done.
    rewrite len_MARKER. unfold len. lia.
  - destruct (find_MARKER_END_package (package filename_bytes hidden_data))
      as (e' & He' & Hle). rewrite Hfirst in He'. apply Nat2Z.inj in He'. subst e'.
    rewrite len_MARKER, slice_nonneg by lia.
    unfold modified_pdf, newline. rewrite (assoc_L (++) (kept_part _) [x0a]).
    rewrite (assoc_L (++) (kept_part _ ++ [x0a]) MARKER).
    rewrite drop_app_length'.
    2: { rewrite !length_app. change (length MARKER) with 21%nat. cbn [length]. lia. }
    replace (Z.to_nat _ - Z.to_nat _)%nat with e by lia.
    unfold package. rewrite <- !(assoc_L (++)).
    rewrite take_app_ge by (rewrite length_le32; lia). f_equal.
    rewrite length_le32.
    rewrite take_app_ge by lia. f_equal.
    rewrite take_app_ge by (rewrite length_le32; lia). f_equal.
    rewrite length_le32. f_equal. lia.
  - by apply utf8_decode_encode.
  - done.
  - pose proof (len_nonneg hidden_data). lia.
Qed.
End Embedded.

(** ** [extract_file] on a carrier with a complete package *)

Lemma join_nonempty (a b : str) : a ≠ [] → join a b ≠ [].
Proof.
  intros Ha. unfold join. destruct (starts_with [sep] b) eqn:E.
  - destruct b; [done|discriminate].
  - destruct (_ || _); destruct a; done.
Qed.

Lemma extract_file_ok (w : world) (pdf_path output_dir : str) (pdf_content : bytes)
    (a e : nat) (filename_bytes : bytes) (filename : str) (data_length : Z) (rest : bytes) :
  has_package w pdf_path pdf_content a e filename_bytes filename data_length rest →
  data_length ≤ len rest →
  output_dir ≠ [] → (∀ c, w !! output_dir ≠ Some (File c)) →
  ∃ (wd : world) (p : str),
    os_makedirs output_dir w = (Ok tt, wd)
    ∧ wd !! output_dir = Some Dir
    ∧ (∀ q : str, q ≠ output_dir → wd !! q = w !! q)
    ∧ wd !! p = None
    ∧ ((wd !! join output_dir filename = None ∧ p = join output_dir filename)
       ∨ (is_Some (wd !! join output_dir filename)
          ∧ ∃ k, 1 ≤ k
              ∧ p = candidate output_dir (splitext filename).1 (splitext filename).2 k
              ∧ ∀ j, 1 ≤ j < k →
                  is_Some (wd !! candidate output_dir (splitext filename).1
                                    (splitext filename).2 j)))
    ∧ extract_file pdf_path output_dir w
      = (Ok (Some p), <[p := File (take (Z.to_nat data_length) rest)]> wd).
Proof.
  intros Hpkg Hlong Hdir Hnofile.
  destruct (os_makedirs_ok w output_dir Hdir Hnofile) as (wd & Hmk & Hd & Hother).
  destruct (unique_path_spec wd output_dir (splitext filename).1 (splitext filename).2
              (join output_dir filename)) as (p & Hloop & Hfree & Hwhich).
  exists wd, p. split_and!; try done.
  assert (p ≠ []) as Hp.
  { destruct Hwhich as [[_ ->]|(_ & k & _ & -> & _)]; by apply join_nonempty. }
  unfold extract_file, try_except, bind.
  by rewrite (extract_file_body_ok _ _ _ _ _ _ _ _ _ Hpkg output_dir wd p Hlong Hmk Hloop Hp Hfree).
Qed.

(** ** Only [Exception]s are raised *)

Section Safety.
Context {A B : Type}.

Lemma safe_ret (a : A) : raises_only_Exceptions (ret a).
Proof. by intros w. Qed.

Lemma safe_raise (e : exn) : is_Exception e = true → raises_only_Exceptions (@raise A e).
Proof. by intros He w. Qed.

Lemma safe_bind (m : M A) (k : A → M B) :
  raises_only_Exceptions m → (∀ a, raises_only_Exceptions (k a)) →
  raises_only_Exceptions (bind m k).
Proof.
  intros Hm Hk w. specialize (Hm w). unfold bind.
  destruct (m w) as [[a|e|] w']; cbn in *; [apply Hk|done..].
Qed.

Lemma safe_if (b : bool) (m1 m2 : M A) :
  raises_only_Exceptions m1 → raises_only_Exceptions m2 →
  raises_only_Exceptions (if b then m1 else m2).
Proof. by destruct b. Qed.

(** A body that raises only [Exception]s, under [try ... except Exception],
    always gives a result: its own, or the one of the handler. *)
Lemma try_except_total (body : M A) (failure : A) (w : world) :
  raises_only_Exceptions body →
  (∃ a w', body w = (Ok a, w') ∧ try_except body (λ _, ret failure) w = (Ok a, w'))
  ∨ (∃ e w', body w = (Raise e, w')
             ∧ try_except body (λ _, ret failure) w = (Ok failure, w')).
Proof.
  intros Hsafe. specialize (Hsafe w). unfold try_except.
  destruct (body w) as [[a|e|] w']; cbn in Hsafe; [|rewrite Hsafe|done].
  - left. by exists a, w'.
  - right. by exists e, w'.
Qed.
End Safety.

Lemma safe_struct_unpack (b : bytes) : raises_only_Exceptions (lift (struct_unpack_I b)).
Proof. intros w. unfold lift. cbn. by do 5 (destruct b as [|? b]; [done|]). Qed.

Lemma safe_struct_pack (n : Z) : raises_only_Exceptions (lift (struct_pack_I n)).
Proof. intros w. unfold lift, struct_pack_I. cbn. by destruct (_ && _). Qed.

Lemma safe_decode (b : bytes) : raises_only_Exceptions (lift (bytes_decode_utf8 b)).
Proof. intros w. unfold lift, bytes_decode_utf8. cbn. by destruct (utf8_decode b). Qed.

Lemma safe_encode (s : str) : raises_only_Exceptions (lift (str_encode_utf8 s)).
Proof. intros w. unfold lift, str_encode_utf8. cbn. by destruct (utf8_encode s). Qed.

Lemma safe_os_path_exists (p : str) : raises_only_Exceptions (os_path_exists p).
Proof. by intros w. Qed.

Lemma safe_open_rb (p : str) : raises_only_Exceptions (open_rb p).
Proof. intros w. unfold open_rb. by destruct (w !! p) as [[]|]. Qed.

Lemma safe_open_wb_write (p : str) (data : bytes) : raises_only_Exceptions (open_wb_write p data).
Proof. intros w. unfold open_wb_write. destruct p; [done|]. by destruct (w !! _) as [[]|]. Qed.

Lemma safe_os_makedirs (p : str) : raises_only_Exceptions (os_makedirs p).
Proof. intros w. unfold os_makedirs. destruct p; [done|]. by destruct (w !! _) as [[]|]. Qed.

Lemma safe_unique_path (output_dir base_name ext output_path : str) :
  raises_only_Exceptions (unique_path output_dir base_name ext output_path).
Proof.
  intros w. destruct (unique_path_spec w output_dir base_name ext output_path) as (p & -> & _).
  done.
Qed.

Create HintDb safe discriminated.
#[local] Hint Resolve safe_ret safe_raise safe_bind safe_if safe_struct_unpack
  safe_struct_pack safe_decode safe_encode safe_os_path_exists safe_open_rb
  safe_open_wb_write safe_os_makedirs safe_unique_path : safe.

Lemma safe_validate_pdf (p : str) : raises_only_Exceptions (validate_pdf p).
Proof. unfold validate_pdf. auto 10 with safe. Qed.
#[local] Hint Resolve safe_validate_pdf : safe.

Lemma safe_validate_file_format ul (p : str) :
  raises_only_Exceptions (validate_file_format ul p).
Proof. unfold validate_file_format. auto with safe. Qed.
#[local] Hint Resolve safe_validate_file_format : safe.

Lemma safe_hide_file_body ul (pdf_path file_to_hide output_path : str) :
  raises_only_Exceptions (hide_file_body ul pdf_path file_to_hide output_path).
Proof. unfold hide_file_body. auto 20 with safe. Qed.

Lemma safe_extract_file_body (pdf_path output_dir : str) :
  raises_only_Exceptions (extract_file_body pdf_path output_dir).
Proof.
  unfold extract_file_body.
  repeat first [ apply safe_bind; [auto with safe|intros ?]
               | apply safe_if; [auto with safe|]
               | destruct (splitext _) as [? ?] ].
  auto with safe.
Qed.

Lemma safe_check_hidden_data_body (pdf_path : str) :
  raises_only_Exceptions (check_hidden_data_body pdf_path).
Proof. unfold check_hidden_data_body. auto 10 with safe. Qed.

Lemma safe_get_hidden_file_info_body (pdf_path : str) :
  raises_only_Exceptions (get_hidden_file_info_body pdf_path).
Proof. unfold get_hidden_file_info_body. auto 20 with safe. Qed.

(** ** Printing *)

Lemma bind_ext {A B} (m : M A) (k1 k2 : A → M B) (w : world) :
  (∀ a w', k1 a w' = k2 a w') → bind m k1 w = bind m k2 w.
Proof. intros Hk. unfold bind. destruct (m w) as [[a|e|] w']; [apply Hk|done..]. Qed.

Lemma try_except_ext {A} (body1 body2 : M A) (handler1 handler2 : exn → M A) (w : world) :
  body1 w = body2 w → (∀ e w', handler1 e w' = handler2 e w') →
  try_except body1 handler1 w = try_except body2 handler2 w.
Proof.
  intros Hb Hh. unfold try_except. rewrite Hb.
  destruct (body2 w) as [[a|e|] w']; [done| |done]. by rewrite Hh.
Qed.

(** On a standard output that encodes every character the methods do what
    they do without their prints. *)
Section EveryCharacter.
Variables (encodable : N → bool) (str_exn : exn → str) (unicode_lower : str → str).
Hypothesis Hall : ∀ c, encodable c = true.

Lemma print_ok (text : str) (w : world) : print encodable text w = (Ok tt, w).
Proof.
  unfold print. replace (forallb encodable (text ++ [10%N])) with true; [done|].
  symmetry. apply forallb_forall. intros c _. apply Hall.
Qed.

Lemma print_then {A} (text : str) (k : M A) (w : world) :
  bind (print encodable text) (λ _, k) w = k w.
Proof. unfold bind. by rewrite print_ok. Qed.

Lemma hide_file_body_printing_eq (pdf_path file_to_hide output_path : str) (w : world) :
  hide_file_body_printing encodable unicode_lower pdf_path file_to_hide output_path w
  = hide_file_body unicode_lower pdf_path file_to_hide output_path w.
Proof.
  unfold hide_file_body_printing, hide_file_body.
  apply bind_ext; intros _ w1. apply bind_ext; intros _ w2.
  apply bind_ext; intros found w3. destruct (negb found); [done|].
  apply bind_ext; intros pdf_content w4. apply bind_ext; intros hidden_data w5.
  apply bind_ext; intros filename_bytes w6. apply bind_ext; intros b1 w7.
  apply bind_ext; intros b2 w8. cbv zeta.
  destruct (rfind pdf_content eof_marker =? -1); [done|].
  apply bind_ext; intros _ w9. by rewrite !print_then.
Qed.

Lemma hide_file_printing_eq (pdf_path file_to_hide output_path : str) (w : world) :
  hide_file_printing encodable str_exn unicode_lower pdf_path file_to_hide output_path w
  = hide_file unicode_lower pdf_path file_to_hide output_path w.
Proof.
  apply try_except_ext; [apply hide_file_body_printing_eq|].
  intros e w'. apply print_then.
Qed.

Lemma extract_file_body_printing_eq (pdf_path output_dir : str) (w : world) :
  extract_file_body_printing encodable pdf_path output_dir w
  = extract_file_body pdf_path output_dir w.
Proof.
  unfold extract_file_body_printing, extract_file_body.
  apply bind_ext; intros _ w1. apply bind_ext; intros pdf_content w2. cbv zeta.
  destruct (_ || _); [done|].
  apply bind_ext; intros filename_length w3. apply bind_ext; intros filename w4.
  apply bind_ext; intros data_length w5.
  destruct (negb _); [done|].
  apply bind_ext; intros _ w6. destruct (splitext filename) as [base_name ext].
  apply bind_ext; intros output_path w7. apply bind_ext; intros _ w8.
  by rewrite !print_then.
Qed.

Lemma extract_file_printing_eq (pdf_path output_dir : str) (w : world) :
  extract_file_printing encodable str_exn pdf_path output_dir w
  = extract_file pdf_path output_dir w.
Proof.
  apply try_except_ext.
  - unfold bind. by rewrite extract_file_body_printing_eq.
  - intros e w'. apply print_then.
Qed.

Lemma check_hidden_data_printing_eq (pdf_path : str) (w : world) :
  check_hidden_data_printing encodable str_exn pdf_path w = check_hidden_data pdf_path w.
Proof. apply try_except_ext; [done|]. intros e w'. apply print_then. Qed.

Lemma get_hidden_file_info_printing_eq (pdf_path : str) (w : world) :
  get_hidden_file_info_printing encodable str_exn pdf_path w
  = get_hidden_file_info pdf_path w.
Proof. apply try_except_ext; [done|]. intros e w'. apply print_then. Qed.
End EveryCharacter.

(** * The claims *)

(** ** Embedding *)

(** C2. On inputs on which [hide_file] goes through it returns [True] and
    the file it writes is: the carrier up to and including the last
    occurrence of [%%EOF], one newline, the start marker, the package
    (name length on four bytes least significant first, the UTF-8 name,
    data length on four bytes, the payload), the end marker, one newline.
    For the name [secret.txt] and the content [hello] what follows the
    carrier part is byte for byte the text of the scenario. *)
Theorem C2_embed_output_layout (ul : str → str) (w : world)
    (pdf_path file_to_hide output_path : str)
    (pdf_content hidden_data filename_bytes : bytes) :
  embeddable ul w pdf_path file_to_hide output_path pdf_content hidden_data filename_bytes →
  ∃ i : nat,
    occurs_at eof_marker pdf_content i
    ∧ (∀ j, (i < j)%nat → ¬ occurs_at eof_marker pdf_content j)
    ∧ hide_file ul pdf_path file_to_hide output_path w
      = (Ok true,
         <[output_path :=
             File (take (i + 5) pdf_content ++ [x0a] ++ MARKER
                   ++ le32 (len filename_bytes) ++ filename_bytes
                   ++ le32 (len hidden_data) ++ hidden_data
                   ++ MARKER_END ++ [x0a])]> w)
    ∧ struct_unpack_I (le32 (len filename_bytes)) = Ok (len filename_bytes)
    ∧ struct_unpack_I (le32 (len hidden_data)) = Ok (len hidden_data)
    ∧ (filename_bytes = bytes_of "secret.txt" → hidden_data = bytes_of "hello" →
       hide_file ul pdf_path file_to_hide output_path w
       = (Ok true,
          <[output_path :=
              File (take (i + 5) pdf_content
                    ++ [x0a] ++ bytes_of "<<HIDDEN_DATA_START>>"
                    ++ [x0a; x00; x00; x00] ++ bytes_of "secret.txt"
                    ++ [x05; x00; x00; x00] ++ bytes_of "hello"
                    ++ bytes_of "<<HIDDEN_DATA_END>>" ++ [x0a])]> w)).
Proof.
  intros Hemb. pose proof (hide_file_ok _ _ _ _ _ _ _ _ Hemb) as Hrun.
  destruct Hemb.
  destruct (kept_part_spec _ emb_eof0) as (i & _ & Ho & Hmax & Hkept & _).
  unfold modified_pdf, package, newline in Hrun. rewrite Hkept in Hrun.
  rewrite <- !(assoc_L (++)) in Hrun.
  exists i. split_and!.
  - done.
  - intros j Hj Hoj. apply (Hmax j Hj); [|done].
    apply occurs_at_length in Hoj; [lia|done].
  - done.
  - apply struct_unpack_le32. pose proof (len_nonneg filename_bytes). lia.
  - apply struct_unpack_le32. pose proof (len_nonneg hidden_data). lia.
  - intros -> ->. exact Hrun.
Qed.

Lemma C2_embed_output_layout_witness :
  ∃ i : nat,
    hide_file lower_identity (str_of "carrier.pdf") (str_of "secret.txt")
      (str_of "stego.pdf") scenario_world
    = (Ok true,
       <[str_of "stego.pdf" :=
           File (take (i + 5) scenario_carrier
                 ++ [x0a] ++ bytes_of "<<HIDDEN_DATA_START>>"
                 ++ [x0a; x00; x00; x00] ++ bytes_of "secret.txt"
                 ++ [x05; x00; x00; x00] ++ bytes_of "hello"
                 ++ bytes_of "<<HIDDEN_DATA_END>>" ++ [x0a])]> scenario_world).
Proof.
  destruct (C2_embed_output_layout lower_identity scenario_world
              (str_of "carrier.pdf") (str_of "secret.txt") (str_of "stego.pdf")
              scenario_carrier (bytes_of "hello") (bytes_of "secret.txt"))
    as (i & _ & _ & _ & _ & _ & Hscenario).
  - split.
    + vm_compute; reflexivity.
    + vm_compute; reflexivity.
    + apply (bool_decide_unpack _). vm_compute. exact I.
    + vm_compute; reflexivity.
    + vm_compute; reflexivity.
    + vm_compute; reflexivity.
    + vm_compute; reflexivity.
    + vm_compute; discriminate.
    + vm_compute; discriminate.
    + vm_compute; discriminate.
  - exists i. apply Hscenario; reflexivity.
Defined.

(** C4. [hide_file] returns [False] and leaves the file system as it was
    when the carrier does not start with [%PDF-], when the carrier has no
    [%%EOF], when the payload path does not exist, or when the lower-cased
    extension of the payload is not in the list of supported formats. *)
Theorem C4_embed_rejection (ul : str → str) (w : world)
    (pdf_path file_to_hide output_path : str) :
  (∃ c, w !! pdf_path = Some (File c) ∧ take 5 c ≠ pdf_signature)
  ∨ (∃ c, w !! pdf_path = Some (File c) ∧ contains c eof_marker = false)
  ∨ w !! file_to_hide = None
  ∨ str_lower ul (splitext file_to_hide).2 ∉ SUPPORTED_FORMATS →
  hide_file ul pdf_path file_to_hide output_path w = (Ok false, w).
Proof.
  intros Hbad.
  destruct (hide_file_cases ul w pdf_path file_to_hide output_path)
    as [(C & P & nb & [] & _)|Hfail]; [exfalso|done].
  destruct Hbad as [(c & Hc & Hsig)|[(c & Hc & Heof)|[Hmissing|Hformat]]].
  - congruence.
  - assert (c = C) as -> by congruence.
    rewrite contains_find in Heof. apply negb_false_iff, Z.eqb_eq in Heof.
    apply emb_eof0. rewrite rfind_none. by rewrite find_none in Heof.
  - congruence.
  - done.
Qed.

Lemma C4_embed_rejection_witness :
  hide_file lower_identity (str_of "secret.txt") (str_of "secret.txt") (str_of "stego.pdf")
    scenario_world = (Ok false, scenario_world)
  ∧ hide_file lower_identity (str_of "carrier.pdf") (str_of "missing.txt") (str_of "stego.pdf")
      scenario_world = (Ok false, scenario_world)
  ∧ hide_file lower_identity (str_of "carrier.pdf") (str_of "secret.zip") (str_of "stego.pdf")
      scenario_world = (Ok false, scenario_world)
  ∧ hide_file lower_identity (str_of "noeof.pdf") (str_of "secret.txt") (str_of "stego.pdf")
      (<[str_of "noeof.pdf" := File (bytes_of "%PDF-1.4 no end")]> scenario_world)
    = (Ok false, <[str_of "noeof.pdf" := File (bytes_of "%PDF-1.4 no end")]> scenario_world).
Proof.
  split_and!; apply C4_embed_rejection.
  - left. exists (bytes_of "hello"). split; [vm_compute; reflexivity|vm_compute; discriminate].
  - right; right; left. vm_compute; reflexivity.
  - right; right; right. apply (bool_decide_unpack _). vm_compute. exact I.
  - right; left. exists (bytes_of "%PDF-1.4 no end"). split; vm_compute; reflexivity.
Defined.

(** ** Detection *)

Lemma check_hidden_data_valid (w : world) (p : str) (c : bytes) :
  w !! p = Some (File c) → take 5 c = pdf_signature →
  check_hidden_data p w = (Ok (contains c MARKER && contains c MARKER_END), w).
Proof.
  intros Hp Hsig. unfold check_hidden_data, try_except, check_hidden_data_body.
  rewrite (bind_Ok _ _ _ _ _ (validate_pdf_ok _ _ _ Hp Hsig)).
  unfold bind, open_rb. by rewrite Hp.
Qed.

(** C5. On a file that passes [validate_pdf], [check_hidden_data] returns
    [True] exactly when the start marker occurs somewhere in the content and
    the end marker occurs somewhere in the content, whatever their order;
    it returns [True] on what a successful [hide_file] wrote, and [False] on
    a carrier in which one of the markers does not occur. *)
Theorem C5_detect :
  (∀ (w : world) (p : str) (c : bytes),
      w !! p = Some (File c) → take 5 c = pdf_signature →
      check_hidden_data p w = (Ok true, w)
      ↔ (∃ pre post, c = pre ++ MARKER ++ post)
        ∧ (∃ pre post, c = pre ++ MARKER_END ++ post))
  ∧ (∀ (ul : str → str) (w w1 : world) (pdf_path file_to_hide output_path : str),
      hide_file ul pdf_path file_to_hide output_path w = (Ok true, w1) →
      check_hidden_data output_path w1 = (Ok true, w1))
  ∧ (∀ (w : world) (p : str) (c : bytes),
      w !! p = Some (File c) → take 5 c = pdf_signature →
      contains c MARKER = false ∨ contains c MARKER_END = false →
      check_hidden_data p w = (Ok false, w)).
Proof.
  split_and!.
  - intros w p c Hp Hsig. rewrite (check_hidden_data_valid _ _ _ Hp Hsig).
    rewrite <- !contains_infix. split.
    + intros [= H]. by apply andb_true_iff in H.
    + intros [-> ->]. done.
  - intros ul w w1 pdf_path file_to_hide output_path Hrun.
    apply hide_file_inv in Hrun as (C & P & nb & [] & ->).
    rewrite (check_hidden_data_valid _ _ (modified_pdf C nb P)).
    + assert (contains (modified_pdf C nb P) MARKER = true) as ->.
      { apply contains_infix. unfold modified_pdf.
        exists (kept_part C ++ newline), (package nb P ++ MARKER_END ++ newline).
        by rewrite <- !(assoc_L (++)). }
      assert (contains (modified_pdf C nb P) MARKER_END = true) as ->; [|done].
      apply contains_infix. unfold modified_pdf.
      exists (kept_part C ++ newline ++ MARKER ++ package nb P), newline.
      by rewrite <- !(assoc_L (++)).
    + by rewrite lookup_insert_eq.
    + by rewrite modified_pdf_signature.
  - intros w p c Hp Hsig Hno. rewrite (check_hidden_data_valid _ _ _ Hp Hsig).
    by destruct Hno as [-> | ->]; [|rewrite andb_false_r].
Qed.

Lemma C5_detect_witness :
  check_hidden_data (str_of "stego.pdf") scenario_embedded = (Ok true, scenario_embedded)
  ∧ check_hidden_data (str_of "carrier.pdf") scenario_world = (Ok false, scenario_world)
  ∧ ((∃ pre post, scenario_carrier = pre ++ MARKER ++ post)
     ∧ (∃ pre post, scenario_carrier = pre ++ MARKER_END ++ post)
     → check_hidden_data (str_of "carrier.pdf") scenario_world = (Ok true, scenario_world)).
Proof.
  destruct C5_detect as (Hiff & Hembed & Hnone). split_and!.
  - apply (Hembed lower_identity scenario_world scenario_embedded
             (str_of "carrier.pdf") (str_of "secret.txt") (str_of "stego.pdf")).
    vm_compute; reflexivity.
  - apply (Hnone scenario_world (str_of "carrier.pdf") scenario_carrier).
    + vm_compute; reflexivity.
    + vm_compute; reflexivity.
    + left. vm_compute; reflexivity.
  - apply (Hiff scenario_world (str_of "carrier.pdf") scenario_carrier).
    + vm_compute; reflexivity.
    + vm_compute; reflexivity.
Defined.

(** C9. When the first end marker of a valid PDF comes before its first
    start marker, [check_hidden_data] returns [True] while [extract_file]
    returns [None] and writes nothing: the bytes between the markers are
    the empty slice, on which reading the name length fails. *)
Theorem C9_reversed_markers (w : world) (pdf_path output_dir : str) (c : bytes) (a e : nat) :
  w !! pdf_path = Some (File c) → take 5 c = pdf_signature →
  find c MARKER = Z.of_nat a → find c MARKER_END = Z.of_nat e → (e < a)%nat →
  check_hidden_data pdf_path w = (Ok true, w)
  ∧ extract_file_body pdf_path output_dir w = (Raise StructError, w)
  ∧ extract_file pdf_path output_dir w = (Ok None, w).
Proof.
  intros Hp Hsig Ha He Hlt.
  assert (extract_file_body pdf_path output_dir w = (Raise StructError, w)) as Hbody.
  { unfold extract_file_body.
    rewrite (bind_Ok _ _ _ _ _ (validate_pdf_ok _ _ _ Hp Hsig)).
    unfold bind at 1. unfold open_rb at 1. rewrite Hp, Ha, He.
    destruct (Z.eqb_spec (Z.of_nat a) (-1)); [lia|].
    destruct (Z.eqb_spec (Z.of_nat e) (-1)); [lia|]. cbn [orb].
    rewrite len_MARKER. rewrite (slice_nonneg c) by lia.
    replace (Z.to_nat (Z.of_nat e) - Z.to_nat (Z.of_nat a + 21))%nat with 0%nat by lia.
    rewrite take_0. done. }
  split_and!; [|done|].
  - rewrite (check_hidden_data_valid _ _ _ Hp Hsig), !contains_find, Ha, He.
    destruct (Z.eqb_spec (Z.of_nat a) (-1)); [lia|].
    destruct (Z.eqb_spec (Z.of_nat e) (-1)); [lia|]. done.
  - unfold extract_file, try_except, bind. by rewrite Hbody.
Qed.

Lemma C9_reversed_markers_witness :
  check_hidden_data (str_of "reversed.pdf") reversed_world = (Ok true, reversed_world)
  ∧ extract_file_body (str_of "reversed.pdf") (str_of "D") reversed_world
    = (Raise StructError, reversed_world)
  ∧ extract_file (str_of "reversed.pdf") (str_of "D") reversed_world
    = (Ok None, reversed_world).
Proof.
  apply (C9_reversed_markers reversed_world (str_of "reversed.pdf") (str_of "D")
           reversed_content 25 5).
  - vm_compute; reflexivity.
  - vm_compute; reflexivity.
  - vm_compute; reflexivity.
  - vm_compute; reflexivity.
  - lia.
Defined.

(** ** Description *)

(** C10. [get_hidden_file_info] checks nothing about the payload: when the
    package between the markers declares a data length larger than the
    number of bytes that follow the length field, it still returns the name
    and the declared length, while [extract_file] on the same file raises
    the data-corruption error and returns [None], writing nothing. *)
Theorem C10_describe_without_integrity_check (w : world) (pdf_path output_dir : str)
    (pdf_content : bytes) (a e : nat) (filename_bytes : bytes) (filename : str)
    (data_length : Z) (rest : bytes) :
  has_package w pdf_path pdf_content a e filename_bytes filename data_length rest →
  len rest < data_length →
  get_hidden_file_info pdf_path w = (Ok (Some (filename, data_length)), w)
  ∧ extract_file_body pdf_path output_dir w = (Raise (ValueError DataCorruption), w)
  ∧ extract_file pdf_path output_dir w = (Ok None, w).
Proof.
  intros Hpkg Hshort. split_and!.
  - unfold get_hidden_file_info, try_except.
    by rewrite (get_hidden_file_info_body_ok _ _ _ _ _ _ _ _ _ Hpkg).
  - by apply (extract_file_body_corrupt _ _ _ _ _ _ _ _ _ Hpkg).
  - unfold extract_file, try_except, bind.
    by rewrite (extract_file_body_corrupt _ _ _ _ _ _ _ _ _ Hpkg output_dir Hshort).
Qed.

Lemma C10_describe_without_integrity_check_witness :
  get_hidden_file_info (str_of "short.pdf") short_world
  = (Ok (Some (str_of "a.txt", 9)), short_world)
  ∧ extract_file_body (str_of "short.pdf") (str_of "D") short_world
    = (Raise (ValueError DataCorruption), short_world)
  ∧ extract_file (str_of "short.pdf") (str_of "D") short_world = (Ok None, short_world).
Proof.
  apply (C10_describe_without_integrity_check short_world (str_of "short.pdf") (str_of "D")
           short_content 11 48 (bytes_of "a.txt") (str_of "a.txt") 9 (bytes_of "hel")).
  - split; vm_compute; try reflexivity. split; [discriminate|reflexivity].
  - vm_compute; reflexivity.
Defined.

(** ** Failures *)

Lemma methods_return (ul : str → str) (w : world)
    (pdf_path file_to_hide output_path output_dir : str) :
  ((∃ b w', hide_file_body ul pdf_path file_to_hide output_path w = (Ok b, w')
            ∧ hide_file ul pdf_path file_to_hide output_path w = (Ok b, w'))
   ∨ (∃ e w', hide_file_body ul pdf_path file_to_hide output_path w = (Raise e, w')
              ∧ hide_file ul pdf_path file_to_hide output_path w = (Ok false, w')))
  ∧ ((∃ p w', extract_file_body pdf_path output_dir w = (Ok p, w')
              ∧ extract_file pdf_path output_dir w = (Ok (Some p), w'))
     ∨ (∃ e w', extract_file_body pdf_path output_dir w = (Raise e, w')
                ∧ extract_file pdf_path output_dir w = (Ok None, w')))
  ∧ ((∃ b w', check_hidden_data_body pdf_path w = (Ok b, w')
              ∧ check_hidden_data pdf_path w = (Ok b, w'))
     ∨ (∃ e w', check_hidden_data_body pdf_path w = (Raise e, w')
                ∧ check_hidden_data pdf_path w = (Ok false, w')))
  ∧ ((∃ o w', get_hidden_file_info_body pdf_path w = (Ok o, w')
              ∧ get_hidden_file_info pdf_path w = (Ok o, w'))
     ∨ (∃ e w', get_hidden_file_info_body pdf_path w = (Raise e, w')
                ∧ get_hidden_file_info pdf_path w = (Ok None, w'))).
Proof.
  split_and!.
  - apply try_except_total, safe_hide_file_body.
  - pose proof (safe_extract_file_body pdf_path output_dir w) as Hsafe.
    unfold extract_file, try_except, bind.
    destruct (extract_file_body pdf_path output_dir w) as [[p|e|] w']; cbn in Hsafe.
    + left. by exists p, w'.
    + right. exists e, w'. by rewrite Hsafe.
    + done.
  - apply try_except_total, safe_check_hidden_data_body.
  - apply try_except_total, safe_get_hidden_file_info_body.
Qed.




Lemma supported_ext_nonempty (ul : str → str) (ext : str) :
  str_lower ul ext ∈ SUPPORTED_FORMATS → ext ≠ [].
Proof.
  intros H ->. cbn in H.
  repeat (apply elem_of_cons in H as [H|H]; [discriminate|]).
  by apply elem_of_nil in H.
Qed.

(** What a successful [hide_file] leaves behind, with the names of the
    contents it read. *)
Lemma hide_file_inv_named (ul : str → str) (w w1 : world) (pdf_path file_to_hide output_path : str)
    (pdf_content hidden_data filename_bytes : bytes) :
  hide_file ul pdf_path file_to_hide output_path w = (Ok true, w1) →
  w !! pdf_path = Some (File pdf_content) →
  w !! file_to_hide = Some (File hidden_data) →
  utf8_encode (basename file_to_hide) = Some filename_bytes →
  embeddable ul w pdf_path file_to_hide output_path pdf_content hidden_data filename_bytes
  ∧ w1 = <[output_path := File (modified_pdf pdf_content filename_bytes hidden_data)]> w.
Proof.
  intros (C & P & nb & Hemb & ->)%hide_file_inv Hpdf Hfile Hname.
  pose proof Hemb as [].
  assert (C = pdf_content) as -> by congruence.
  assert (P = hidden_data) as -> by congruence.
  assert (nb = filename_bytes) as -> by congruence.
  done.
Qed.

Lemma length_package (filename_bytes hidden_data : bytes) :
  length (package filename_bytes hidden_data)
  = (4 + length filename_bytes + 4 + length hidden_data)%nat.
Proof. unfold package. rewrite !length_app, !length_le32. lia. Qed.

(** C6. [get_hidden_file_info] on what a successful [hide_file] wrote
    returns the name and the length of the payload, provided the part of the
    carrier that was kept contains neither marker and the end marker does
    not occur in the package before the end of its two length fields and
    name; the payload bytes themselves may be anything, the end marker
    included.  It returns [None] without raising when one of the markers
    does not occur in a valid PDF. *)
Theorem C6_describe :
  (∀ (ul : str → str) (w w1 : world) (pdf_path file_to_hide output_path : str)
     (pdf_content hidden_data filename_bytes : bytes),
      hide_file ul pdf_path file_to_hide output_path w = (Ok true, w1) →
      w !! pdf_path = Some (File pdf_content) →
      w !! file_to_hide = Some (File hidden_data) →
      utf8_encode (basename file_to_hide) = Some filename_bytes →
      find (kept_part pdf_content) MARKER = -1 →
      find (kept_part pdf_content) MARKER_END = -1 →
      8 + len filename_bytes
        ≤ find (package filename_bytes hidden_data ++ MARKER_END) MARKER_END →
      get_hidden_file_info output_path w1
      = (Ok (Some (basename file_to_hide, len hidden_data)), w1))
  ∧ (∀ (w : world) (p : str) (c : bytes),
      w !! p = Some (File c) → take 5 c = pdf_signature →
      contains c MARKER = false ∨ contains c MARKER_END = false →
      get_hidden_file_info_body p w = (Ok None, w)
      ∧ get_hidden_file_info p w = (Ok None, w)).
Proof.
  split.
  - intros ul w w1 pdf_path file_to_hide output_path C P nb Hrun Hpdf Hfile Hname
      Hstart Hend Hheader.
    destruct (hide_file_inv_named _ _ _ _ _ _ _ _ _ Hrun Hpdf Hfile Hname) as [[] ->].
    destruct (find_MARKER_END_package (package nb P)) as (e & He & Hle).
    rewrite He in Hheader. unfold len in Hheader.
    assert (has_package (<[output_path := File (modified_pdf C nb P)]> w) output_path
              (modified_pdf C nb P) (length (kept_part C) + 1)
              (length (kept_part C) + 1 + 21 + e) nb (basename file_to_hide) (len P)
              (take (e - (8 + length nb)) (P ++ MARKER_END ++ newline))) as Hpkg.
    { apply modified_pdf_has_package; try done; [by rewrite lookup_insert_eq|lia]. }
    unfold get_hidden_file_info, try_except.
    by rewrite (get_hidden_file_info_body_ok _ _ _ _ _ _ _ _ _ Hpkg).
  - intros w p c Hp Hsig Hno.
    assert (get_hidden_file_info_body p w = (Ok None, w)) as Hbody.
    { unfold get_hidden_file_info_body.
      rewrite (bind_Ok _ _ _ _ _ (validate_pdf_ok _ _ _ Hp Hsig)).
      unfold bind, open_rb. rewrite Hp.
      rewrite !contains_find in Hno.
      destruct Hno as [->%negb_false_iff| ->%negb_false_iff]; [done|].
      by rewrite orb_true_r. }
    split; [done|]. unfold get_hidden_file_info, try_except. by rewrite Hbody.
Qed.

Lemma C6_describe_witness :
  get_hidden_file_info (str_of "stego.pdf") scenario_embedded
  = (Ok (Some (str_of "secret.txt", 5)), scenario_embedded)
  ∧ get_hidden_file_info (str_of "carrier.pdf") scenario_world = (Ok None, scenario_world).
Proof.
  destruct C6_describe as [Hembedded Habsent]. split.
  - apply (Hembedded lower_identity scenario_world scenario_embedded (str_of "carrier.pdf")
             (str_of "secret.txt") (str_of "stego.pdf") scenario_carrier (bytes_of "hello")
             (bytes_of "secret.txt")).
    + vm_compute; reflexivity.
    + vm_compute; reflexivity.
    + vm_compute; reflexivity.
    + vm_compute; reflexivity.
    + vm_compute; reflexivity.
    + vm_compute; reflexivity.
    + vm_compute; discriminate.
  - apply (Habsent scenario_world (str_of "carrier.pdf") scenario_carrier).
    + vm_compute; reflexivity.
    + vm_compute; reflexivity.
    + left. vm_compute; reflexivity.
Defined.

(** C6, as stated, fails on a carrier that already contains the start
    marker before its last [%%EOF]: [hide_file] succeeds with the name
    [secret.txt] and five bytes of payload, and [get_hidden_file_info] on
    its output returns [None]. *)
Lemma C6_describe_counterexample :
  hide_file lower_identity (str_of "marked.pdf") (str_of "secret.txt") (str_of "stego.pdf")
    marked_world = (Ok true, marked_embedded)
  ∧ get_hidden_file_info (str_of "stego.pdf") marked_embedded = (Ok None, marked_embedded)
  ∧ get_hidden_file_info (str_of "stego.pdf") marked_embedded
    ≠ (Ok (Some (str_of "secret.txt", 5)), marked_embedded).
Proof.
  assert (get_hidden_file_info (str_of "stego.pdf") marked_embedded
          = (Ok None, marked_embedded)) as H by (vm_compute; reflexivity).
  split_and!; [vm_compute; reflexivity|exact H|].
  rewrite H. discriminate.
Qed.

(** ** Extraction *)




(** C3. When what a successful [hide_file] wrote is cut at a point strictly
    inside the payload bytes, [extract_file] on the cut file fails: it
    returns [None] and writes nothing.  The error raised is the one for
    missing markers, since the end marker is cut off; this holds provided
    the end marker does not occur in the kept part of the carrier or in the
    package before the one [hide_file] appends. *)
Theorem C3_truncation (ul : str → str) (w w1 w2 : world)
    (pdf_path file_to_hide output_path cut_path output_dir : str)
    (pdf_content hidden_data filename_bytes : bytes) (k : nat) :
  hide_file ul pdf_path file_to_hide output_path w = (Ok true, w1) →
  w !! pdf_path = Some (File pdf_content) →
  w !! file_to_hide = Some (File hidden_data) →
  utf8_encode (basename file_to_hide) = Some filename_bytes →
  find (kept_part pdf_content) MARKER_END = -1 →
  find (package filename_bytes hidden_data ++ MARKER_END) MARKER_END
  = len (package filename_bytes hidden_data) →
  (0 < k < length hidden_data)%nat →
  w2 !! cut_path
  = Some (File (take (length (kept_part pdf_content) + 1 + length MARKER
                      + 4 + length filename_bytes + 4 + k)
                  (modified_pdf pdf_content filename_bytes hidden_data))) →
  w1 !! output_path = Some (File (modified_pdf pdf_content filename_bytes hidden_data))
  ∧ extract_file_body cut_path output_dir w2 = (Raise (ValueError NoHiddenData), w2)
  ∧ extract_file cut_path output_dir w2 = (Ok None, w2).
Proof.
  intros Hrun Hpdf Hfile Hname Hend Hfirst Hk Hcut.
  destruct (hide_file_inv_named _ _ _ _ _ _ _ _ _ Hrun Hpdf Hfile Hname) as [[] Hw1].
  set (C := pdf_content) in *. set (P := hidden_data) in *. set (nb := filename_bytes) in *.
  pose proof (length_package nb P) as Hlen.
  destruct (kept_part_spec _ emb_eof0) as (i & _ & _ & _ & _ & Hkept).
  change (length MARKER) with 21%nat in Hcut.
  set (t := (length (kept_part C) + 1 + 21 + 4 + length nb + 4 + k)%nat) in *.
  assert (find (modified_pdf C nb P) MARKER_END
          = Z.of_nat (length (kept_part C) + 1 + 21 + length (package nb P))) as Hfind.
  { unfold modified_pdf.
    rewrite (find_MARKER_END_appended _ _ (length (package nb P))) by done.
    rewrite len_MARKER. unfold len. lia. }
  assert (extract_file_body cut_path output_dir w2 = (Raise (ValueError NoHiddenData), w2))
    as Hbody.
  { unfold extract_file_body.
    rewrite (bind_Ok _ _ w2 w2 true).
    2: { apply (validate_pdf_ok _ _ _ Hcut). rewrite take_take.
         replace (5 `min` t)%nat with 5%nat by lia.
         by rewrite modified_pdf_signature. }
    unfold bind at 1. unfold open_rb at 1. rewrite Hcut.
    rewrite (find_take_none _ _ _ t Hfind).
    - by rewrite orb_true_r.
    - change (length MARKER_END) with 19%nat. lia. }
  split_and!.
  - rewrite Hw1. by rewrite lookup_insert_eq.
  - done.
  - unfold extract_file, try_except, bind. by rewrite Hbody.
Qed.

Lemma C3_truncation_witness :
  extract_file_body (str_of "cut.pdf") (str_of "D") truncated_world
  = (Raise (ValueError NoHiddenData), truncated_world)
  ∧ extract_file (str_of "cut.pdf") (str_of "D") truncated_world = (Ok None, truncated_world).
Proof.
  destruct (C3_truncation lower_identity scenario_world scenario_embedded truncated_world
              (str_of "carrier.pdf") (str_of "secret.txt") (str_of "stego.pdf")
              (str_of "cut.pdf") (str_of "D")
              scenario_carrier (bytes_of "hello") (bytes_of "secret.txt") 2)
    as (_ & Hbody & Hrun).
  - vm_compute; reflexivity.
  - vm_compute; reflexivity.
  - vm_compute; reflexivity.
  - vm_compute; reflexivity.
  - vm_compute; reflexivity.
  - vm_compute; reflexivity.
  - vm_compute. lia.
  - vm_compute; reflexivity.
  - split; [exact Hbody|exact Hrun].
Defined.

(** C3, as stated, fails on the scenario: cut two bytes into [hello], the
    file makes [extract_file] raise the error for missing markers, not the
    data-corruption error. *)
Lemma C3_truncation_counterexample :
  hide_file lower_identity (str_of "carrier.pdf") (str_of "secret.txt") (str_of "stego.pdf")
    scenario_world
  = (Ok true,
     <[str_of "stego.pdf" :=
         File (modified_pdf scenario_carrier (bytes_of "secret.txt") (bytes_of "hello"))]>
       scenario_world)
  ∧ truncated_world !! str_of "cut.pdf"
    = Some (File (take (length (kept_part scenario_carrier) + 1 + length MARKER
                        + 4 + length (bytes_of "secret.txt") + 4 + 2)
                    (modified_pdf scenario_carrier (bytes_of "secret.txt") (bytes_of "hello"))))
  ∧ extract_file_body (str_of "cut.pdf") (str_of "D") truncated_world
    = (Raise (ValueError NoHiddenData), truncated_world)
  ∧ extract_file_body (str_of "cut.pdf") (str_of "D") truncated_world
    ≠ (Raise (ValueError DataCorruption), truncated_world).
Proof.
  assert (extract_file_body (str_of "cut.pdf") (str_of "D") truncated_world
          = (Raise (ValueError NoHiddenData), truncated_world)) as H
    by (vm_compute; reflexivity).
  split_and!; [vm_compute; reflexivity|vm_compute; reflexivity|exact H|].
  rewrite H. discriminate.
Qed.

(** ** Name collisions *)

Section Collisions.
Variables (output_dir filename : str).
Hypothesis Hname : filename ≠ [].
Hypothesis Hrelative : starts_with [sep] filename = false.

Local Abbreviation base_name := (splitext filename).1.
Local Abbreviation ext := (splitext filename).2.

Lemma suffixed_relative (k : Z) :
  starts_with [sep] (base_name ++ str_of "_" ++ str_of_int k ++ ext) = false.
Proof.
  destruct (splitext_spec filename) as [Happ Hnil].
  set (b := (splitext filename).1) in *. set (x := (splitext filename).2) in *.
  destruct b as [|c b]; [by destruct Hname; apply Hnil|].
  rewrite <- Happ in Hrelative. exact Hrelative.
Qed.

Lemma candidate_ne_dir (k : Z) : candidate output_dir base_name ext k ≠ output_dir.
Proof.
  apply join_ne_dir; [|apply suffixed_relative]. by destruct base_name.
Qed.

Lemma candidate_ne_join (k : Z) :
  candidate output_dir base_name ext k ≠ join output_dir filename.
Proof.
  unfold candidate. intros Heq%join_cancel; [|by rewrite suffixed_relative].
  destruct (splitext_spec filename) as [Happ _].
  set (b := (splitext filename).1) in *. set (x := (splitext filename).2) in *.
  rewrite <- Happ in Heq. apply app_inv_head in Heq.
  apply (f_equal length) in Heq. rewrite !length_app in Heq. cbn in Heq. lia.
Qed.
End Collisions.



(** * Further properties *)

(** ** The package format *)

Lemma byte_of_Z_of_byte (x : byte) : byte_of_Z (Z_of_byte x) = x.
Proof.
  unfold byte_of_Z, Z_of_byte. rewrite N2Z.id. by rewrite Byte.of_to_N.
Qed.

Lemma Z_of_byte_range (x : byte) : 0 ≤ Z_of_byte x < 256.
Proof. unfold Z_of_byte. pose proof (Byte.to_N_bounded x). lia. Qed.

(** What [struct.unpack] accepts is four bytes, and they are the bytes
    [struct.pack] gives for the value read. *)
Lemma struct_unpack_inv (b : bytes) (n : Z) :
  struct_unpack_I b = Ok n → b = le32 n ∧ 0 ≤ n < 2 ^ 32.
Proof.
  do 5 (destruct b as [|? b]; [try done|]); [|done].
  cbn. intros [= <-].
  pose proof (Z_of_byte_range b0). pose proof (Z_of_byte_range b1).
  pose proof (Z_of_byte_range b2). pose proof (Z_of_byte_range b3).
  split; [|lia]. unfold le32.
  repeat match goal with
  | |- _ :: _ = _ :: _ => f_equal
  | |- ?x = byte_of_Z ?z =>
      rewrite <- (byte_of_Z_of_byte x) at 1; f_equal; Z.div_mod_to_equations; lia
  end.
Qed.

(** The bytes between the markers parse as a header exactly when they
    start with a length field, a name of that length that decodes, and a
    second length field. *)
Lemma parse_header_inv (hidden_package : bytes) (filename_length data_length : Z)
    (filename : str) :
  struct_unpack_I (slice hidden_package 0 4) = Ok filename_length →
  bytes_decode_utf8 (slice hidden_package 4 (4 + filename_length)) = Ok filename →
  struct_unpack_I (slice hidden_package (4 + filename_length) (4 + filename_length + 4))
  = Ok data_length →
  ∃ filename_bytes rest : bytes,
    hidden_package
    = le32 (len filename_bytes) ++ filename_bytes ++ le32 data_length ++ rest
    ∧ len filename_bytes = filename_length
    ∧ utf8_decode filename_bytes = Some filename
    ∧ 0 ≤ filename_length < 2 ^ 32
    ∧ 0 ≤ data_length < 2 ^ 32.
Proof.
  intros [H1 Hn]%struct_unpack_inv Hname [H2 Hd]%struct_unpack_inv.
  set (nl := Z.to_nat filename_length).
  assert (length (slice hidden_package (4 + filename_length) (4 + filename_length + 4)) = 4%nat)
    as Hlen2 by (by rewrite H2).
  rewrite slice_nonneg in Hlen2, H2 by lia.
  rewrite length_take, length_drop in Hlen2.
  replace (Z.to_nat (4 + filename_length + 4) - Z.to_nat (4 + filename_length))%nat
    with 4%nat in * by lia.
  replace (Z.to_nat (4 + filename_length)) with (4 + nl)%nat in * by lia.
  rewrite slice_prefix in H1 by lia. change (Z.to_nat 4) with 4%nat in H1.
  rewrite slice_nonneg in Hname by lia.
  replace (Z.to_nat (4 + filename_length) - Z.to_nat 4)%nat with nl in Hname by lia.
  change (Z.to_nat 4) with 4%nat in Hname.
  exists (take nl (drop 4 hidden_package)), (drop (4 + nl + 4) hidden_package).
  assert (len (take nl (drop 4 hidden_package)) = filename_length) as Hnb.
  { unfold len. rewrite length_take, length_drop. lia. }
  split_and!; try done; try lia.
  - rewrite Hnb, <- H1, <- H2.
    rewrite <- (take_drop 4 hidden_package) at 1. f_equal.
    rewrite <- (take_drop nl (drop 4 hidden_package)) at 1. f_equal.
    rewrite drop_drop.
    rewrite <- (take_drop 4 (drop (4 + nl) hidden_package)) at 1. f_equal.
    rewrite drop_drop. done.
  - unfold bytes_decode_utf8 in Hname. by destruct (utf8_decode _); simplify_eq.
Qed.

Lemma struct_unpack_cases (b : bytes) :
  (∃ n, struct_unpack_I b = Ok n) ∨ struct_unpack_I b = Raise StructError.
Proof.
  destruct b as [|b0 [|b1 [|b2 [|b3 [|b4 b]]]]]; try (by right). left. by eexists.
Qed.

Lemma bytes_decode_cases (b : bytes) :
  (∃ s, bytes_decode_utf8 b = Ok s) ∨ bytes_decode_utf8 b = Raise UnicodeDecodeError.
Proof. unfold bytes_decode_utf8. destruct (utf8_decode b); [left; by eexists|by right]. Qed.

(** How the three header reads of [extract_file] and [get_hidden_file_info]
    end on given bytes: all three go through, and the bytes have the layout
    of a package header, or one of them raises. *)
Lemma parse_header_cases (hidden_package : bytes) :
  (∃ (filename_bytes : bytes) (filename : str) (data_length : Z) (rest : bytes),
      hidden_package
      = le32 (len filename_bytes) ++ filename_bytes ++ le32 data_length ++ rest
      ∧ utf8_decode filename_bytes = Some filename
      ∧ len filename_bytes < 2 ^ 32
      ∧ 0 ≤ data_length < 2 ^ 32)
  ∨ struct_unpack_I (slice hidden_package 0 4) = Raise StructError
  ∨ (∃ n, struct_unpack_I (slice hidden_package 0 4) = Ok n
          ∧ bytes_decode_utf8 (slice hidden_package 4 (4 + n)) = Raise UnicodeDecodeError)
  ∨ (∃ n s, struct_unpack_I (slice hidden_package 0 4) = Ok n
            ∧ bytes_decode_utf8 (slice hidden_package 4 (4 + n)) = Ok s
            ∧ struct_unpack_I (slice hidden_package (4 + n) (4 + n + 4)) = Raise StructError).
Proof.
  destruct (struct_unpack_cases (slice hidden_package 0 4)) as [[n Hn]|Hn]; [|by right; left].
  destruct (bytes_decode_cases (slice hidden_package 4 (4 + n))) as [[s Hs]|Hs];
    [|right; right; left; by exists n].
  destruct (struct_unpack_cases (slice hidden_package (4 + n) (4 + n + 4))) as [[d Hd]|Hd];
    [|right; right; right; by exists n, s].
  left. destruct (parse_header_inv _ _ _ _ Hn Hs Hd) as (nb & rest & ? & ? & ? & ? & ?).
  exists nb, s, d, rest. split_and!; try done; lia.
Qed.

(** ** The methods that only read *)

Section ReadOnly.
Context {A B : Type}.

Lemma read_only_ret (a : A) : read_only (ret a).
Proof. by intros w. Qed.

Lemma read_only_raise (e : exn) : read_only (@raise A e).
Proof. by intros w. Qed.

Lemma read_only_lift (o : outcome A) : read_only (lift o).
Proof. by intros w. Qed.

Lemma read_only_bind (m : M A) (k : A → M B) :
  read_only m → (∀ a, read_only (k a)) → read_only (bind m k).
Proof.
  intros Hm Hk w. specialize (Hm w). unfold bind.
  destruct (m w) as [[a|e|] w']; cbn in *; subst; [apply Hk|done..].
Qed.

Lemma read_only_if (b : bool) (m1 m2 : M A) :
  read_only m1 → read_only m2 → read_only (if b then m1 else m2).
Proof. by destruct b. Qed.

Lemma read_only_try_except (body : M A) (handler : exn → M A) :
  read_only body → (∀ e, read_only (handler e)) → read_only (try_except body handler).
Proof.
  intros Hb Hh w. specialize (Hb w). unfold try_except.
  destruct (body w) as [[a|e|] w']; cbn in *; subst; [done| |done].
  destruct (is_Exception e); [apply Hh|done].
Qed.
End ReadOnly.

Lemma read_only_os_path_exists (p : str) : read_only (os_path_exists p).
Proof. by intros w. Qed.

Lemma read_only_open_rb (p : str) : read_only (open_rb p).
Proof. intros w. unfold open_rb. by destruct (w !! p) as [[]|]. Qed.

Create HintDb read_only discriminated.
#[local] Hint Resolve read_only_ret read_only_raise read_only_lift read_only_bind
  read_only_if read_only_try_except read_only_os_path_exists read_only_open_rb : read_only.

Lemma read_only_validate_pdf (p : str) : read_only (validate_pdf p).
Proof. unfold validate_pdf. auto 10 with read_only. Qed.
#[local] Hint Resolve read_only_validate_pdf : read_only.

Lemma read_only_check_hidden_data (p : str) : read_only (check_hidden_data p).
Proof. unfold check_hidden_data, check_hidden_data_body. auto 10 with read_only. Qed.

Lemma read_only_get_hidden_file_info (p : str) : read_only (get_hidden_file_info p).
Proof.
  unfold get_hidden_file_info, get_hidden_file_info_body. auto 20 with read_only.
Qed.

(** ** Every carrier: invalid, without a marker, with an unreadable header,
    or with a package *)

Lemma carrier_cases (w : world) (pdf_path : str) :
  (∃ e, validate_pdf pdf_path w = (Raise e, w) ∧ is_Exception e = true)
  ∨ (∃ pdf_content, w !! pdf_path = Some (File pdf_content)
        ∧ take 5 pdf_content = pdf_signature
        ∧ ((find pdf_content MARKER =? -1) || (find pdf_content MARKER_END =? -1) = true
           ∨ ((find pdf_content MARKER =? -1) || (find pdf_content MARKER_END =? -1) = false
              ∧ header_unreadable
                  (slice pdf_content (find pdf_content MARKER + len MARKER)
                     (find pdf_content MARKER_END)))))
  ∨ (∃ pdf_content a e filename_bytes filename data_length rest,
        has_package w pdf_path pdf_content a e filename_bytes filename data_length rest).
Proof.
  destruct (validate_pdf_fail w pdf_path) as [(C & Hpdf & Hsig)|He]; [|by left].
  right.
  destruct ((find C MARKER =? -1) || (find C MARKER_END =? -1)) eqn:Hm.
  { left. exists C. split_and!; try done. by left. }
  apply orb_false_elim in Hm as [Hs He].
  apply Z.eqb_neq in Hs, He.
  destruct (find_found _ _ Hs) as (a & Ha), (find_found _ _ He) as (e & He').
  destruct (parse_header_cases (slice C (find C MARKER + len MARKER) (find C MARKER_END)))
    as [(nb & name & dl & rest & Hbytes & Hname & Hnl & Hdl)|Hbad].
  - right. exists C, a, e, nb, name, dl, rest. rewrite Ha, He' in Hbytes. by split.
  - left. exists C. split_and!; try done. right. split; [|done].
    apply orb_false_intro; by apply Z.eqb_neq.
Qed.

(** ** [extract_file] and [get_hidden_file_info] on every carrier *)

Lemma extract_file_raise (w w' : world) (pdf_path output_dir : str) (e : exn) :
  extract_file_body pdf_path output_dir w = (Raise e, w') → is_Exception e = true →
  extract_file pdf_path output_dir w = (Ok None, w').
Proof.
  intros He Hexc. unfold extract_file, try_except.
  by rewrite (bind_Raise _ _ _ _ _ He), Hexc.
Qed.

Lemma get_hidden_file_info_raise (w w' : world) (pdf_path : str) (e : exn) :
  get_hidden_file_info_body pdf_path w = (Raise e, w') → is_Exception e = true →
  get_hidden_file_info pdf_path w = (Ok None, w').
Proof. intros He Hexc. unfold get_hidden_file_info, try_except. by rewrite He, Hexc. Qed.

Lemma extract_file_body_unreadable (w : world) (pdf_path output_dir : str) (pdf_content : bytes) :
  w !! pdf_path = Some (File pdf_content) → take 5 pdf_content = pdf_signature →
  (find pdf_content MARKER =? -1) || (find pdf_content MARKER_END =? -1) = false →
  header_unreadable
    (slice pdf_content (find pdf_content MARKER + len MARKER) (find pdf_content MARKER_END)) →
  ∃ e, extract_file_body pdf_path output_dir w = (Raise e, w) ∧ is_Exception e = true.
Proof.
  intros Hpdf Hsig Hm Hbad. unfold extract_file_body.
  rewrite (bind_Ok _ _ _ _ _ (validate_pdf_ok _ _ _ Hpdf Hsig)).
  unfold bind at 1. unfold open_rb at 1. rewrite Hpdf, Hm.
  destruct Hbad as [H1|[(n & H1 & H2)|(n & s & H1 & H2 & H3)]].
  - unfold bind at 1. unfold lift at 1. rewrite H1. by eexists.
  - unfold bind at 1. unfold lift at 1. rewrite H1.
    unfold bind at 1. unfold lift at 1. rewrite H2. by eexists.
  - unfold bind at 1. unfold lift at 1. rewrite H1.
    unfold bind at 1. unfold lift at 1. rewrite H2.
    unfold bind at 1. unfold lift at 1. rewrite H3. by eexists.
Qed.

Lemma get_hidden_file_info_body_unreadable (w : world) (pdf_path : str) (pdf_content : bytes) :
  w !! pdf_path = Some (File pdf_content) → take 5 pdf_content = pdf_signature →
  (find pdf_content MARKER =? -1) || (find pdf_content MARKER_END =? -1) = false →
  header_unreadable
    (slice pdf_content (find pdf_content MARKER + len MARKER) (find pdf_content MARKER_END)) →
  ∃ e, get_hidden_file_info_body pdf_path w = (Raise e, w) ∧ is_Exception e = true.
Proof.
  intros Hpdf Hsig Hm Hbad. unfold get_hidden_file_info_body.
  rewrite (bind_Ok _ _ _ _ _ (validate_pdf_ok _ _ _ Hpdf Hsig)).
  unfold bind at 1. unfold open_rb at 1. rewrite Hpdf, Hm.
  destruct Hbad as [H1|[(n & H1 & H2)|(n & s & H1 & H2 & H3)]].
  - unfold bind at 1. unfold lift at 1. rewrite H1. by eexists.
  - unfold bind at 1. unfold lift at 1. rewrite H1.
    unfold bind at 1. unfold lift at 1. rewrite H2. by eexists.
  - unfold bind at 1. unfold lift at 1. rewrite H1.
    unfold bind at 1. unfold lift at 1. rewrite H2.
    unfold bind at 1. unfold lift at 1. rewrite H3. by eexists.
Qed.

Lemma extract_file_body_no_marker (w : world) (pdf_path output_dir : str) (pdf_content : bytes) :
  w !! pdf_path = Some (File pdf_content) → take 5 pdf_content = pdf_signature →
  (find pdf_content MARKER =? -1) || (find pdf_content MARKER_END =? -1) = true →
  extract_file_body pdf_path output_dir w = (Raise (ValueError NoHiddenData), w).
Proof.
  intros Hpdf Hsig Hm. unfold extract_file_body.
  rewrite (bind_Ok _ _ _ _ _ (validate_pdf_ok _ _ _ Hpdf Hsig)).
  unfold bind at 1. unfold open_rb at 1. by rewrite Hpdf, Hm.
Qed.

Lemma get_hidden_file_info_no_marker (w : world) (pdf_path : str) (pdf_content : bytes) :
  w !! pdf_path = Some (File pdf_content) → take 5 pdf_content = pdf_signature →
  (find pdf_content MARKER =? -1) || (find pdf_content MARKER_END =? -1) = true →
  get_hidden_file_info pdf_path w = (Ok None, w).
Proof.
  intros Hpdf Hsig Hm. unfold get_hidden_file_info, try_except, get_hidden_file_info_body.
  rewrite (bind_Ok _ _ _ _ _ (validate_pdf_ok _ _ _ Hpdf Hsig)).
  unfold bind at 1. unfold open_rb at 1. by rewrite Hpdf, Hm.
Qed.

Lemma extract_file_body_no_directory (w : world) (pdf_path output_dir : str)
    (pdf_content : bytes) (a e : nat) (filename_bytes : bytes) (filename : str)
    (data_length : Z) (rest : bytes) (x : exn) :
  has_package w pdf_path pdf_content a e filename_bytes filename data_length rest →
  data_length ≤ len rest →
  os_makedirs output_dir w = (Raise x, w) →
  extract_file_body pdf_path output_dir w = (Raise x, w).
Proof.
  intros Hpkg Hlong Hmk.
  pose proof (markers_found _ _ _ _ _ _ _ _ _ Hpkg) as Hm.
  destruct Hpkg as [Hpdf Hsig Hs He Hbytes Hname Hnl Hdl]. unfold extract_file_body.
  rewrite (bind_Ok _ _ _ _ _ (validate_pdf_ok _ _ _ Hpdf Hsig)).
  unfold bind at 1. unfold open_rb at 1. rewrite Hpdf.
  rewrite Hm, Hs, He, Hbytes.
  unfold bind at 1. unfold lift at 1.
  rewrite package_name_length_field.
  rewrite struct_unpack_le32 by (pose proof (len_nonneg filename_bytes); lia).
  unfold bind at 1. unfold lift at 1.
  rewrite package_name_field. unfold bytes_decode_utf8. rewrite Hname.
  unfold bind at 1. unfold lift at 1.
  rewrite package_data_length_field, struct_unpack_le32 by done.
  rewrite package_data_field by lia.
  destruct (Z.eqb_spec (len (take (Z.to_nat data_length) rest)) data_length) as [_|Hne].
  2: { unfold len in Hne, Hlong. rewrite length_take in Hne. lia. }
  cbn [negb]. by rewrite (bind_Raise _ _ _ _ _ Hmk).
Qed.

(** [extract_file] returns [None] and leaves the file system as it was, or
    the carrier has a package with all its data and the directory can be
    made, which is where [extract_file_ok] applies. *)
Lemma extract_file_cases (w : world) (pdf_path output_dir : str) :
  extract_file pdf_path output_dir w = (Ok None, w)
  ∨ (∃ pdf_content a e filename_bytes filename data_length rest,
        has_package w pdf_path pdf_content a e filename_bytes filename data_length rest
        ∧ data_length ≤ len rest
        ∧ output_dir ≠ [] ∧ (∀ c, w !! output_dir ≠ Some (File c))).
Proof.
  destruct (carrier_cases w pdf_path)
    as [(x & Hx & Hexc)|[(C & Hpdf & Hsig & [Hm|[Hm Hbad]])
                        |(C & a & e & nb & name & dl & rest & Hpkg)]].
  - left. apply (extract_file_raise _ _ _ _ x); [|done].
    unfold extract_file_body. by rewrite (bind_Raise _ _ _ _ _ Hx).
  - left. by apply (extract_file_raise _ _ _ _ _ (extract_file_body_no_marker _ _ _ _ Hpdf Hsig Hm)).
  - left. destruct (extract_file_body_unreadable w pdf_path output_dir C Hpdf Hsig Hm Hbad)
      as (x & Hx & Hexc).
    by apply (extract_file_raise _ _ _ _ x).
  - destruct (Z_lt_le_dec (len rest) dl) as [Hshort|Hlong].
    { left. by apply (extract_file_raise _ _ _ _ _
                      (extract_file_body_corrupt _ _ _ _ _ _ _ _ _ Hpkg output_dir Hshort)). }
    destruct output_dir as [|c0 d] eqn:Hd.
    { left. apply (extract_file_raise _ _ _ _ FileNotFoundError); [|done].
      by apply (extract_file_body_no_directory _ _ _ _ _ _ _ _ _ _ _ Hpkg Hlong). }
    rewrite <- Hd. destruct (w !! output_dir) as [[c|]|] eqn:Hw.
    { left. apply (extract_file_raise _ _ _ _ FileExistsError); [|done].
      apply (extract_file_body_no_directory _ _ _ _ _ _ _ _ _ _ _ Hpkg Hlong).
      unfold os_makedirs. rewrite Hw. by rewrite Hd. }
    all: right; exists C, a, e, nb, name, dl, rest; split_and!; try done; congruence.
Qed.

(** [get_hidden_file_info] never changes the file system; it returns a name
    and a size exactly for the carriers with a package. *)
Lemma get_hidden_file_info_cases (w : world) (pdf_path : str) :
  get_hidden_file_info pdf_path w = (Ok None, w)
  ∨ (∃ pdf_content a e filename_bytes filename data_length rest,
        has_package w pdf_path pdf_content a e filename_bytes filename data_length rest
        ∧ get_hidden_file_info pdf_path w = (Ok (Some (filename, data_length)), w)).
Proof.
  destruct (carrier_cases w pdf_path)
    as [(x & Hx & Hexc)|[(C & Hpdf & Hsig & [Hm|[Hm Hbad]])
                        |(C & a & e & nb & name & dl & rest & Hpkg)]].
  - left. apply (get_hidden_file_info_raise _ _ _ x); [|done].
    unfold get_hidden_file_info_body. by rewrite (bind_Raise _ _ _ _ _ Hx).
  - left. by apply (get_hidden_file_info_no_marker _ _ C).
  - left. destruct (get_hidden_file_info_body_unreadable w pdf_path C Hpdf Hsig Hm Hbad)
      as (x & Hx & Hexc).
    by apply (get_hidden_file_info_raise _ _ _ x).
  - right. exists C, a, e, nb, name, dl, rest. split; [done|].
    unfold get_hidden_file_info, try_except.
    by rewrite (get_hidden_file_info_body_ok _ _ _ _ _ _ _ _ _ Hpkg).
Qed.

Lemma check_hidden_data_package (w : world) (pdf_path : str) (pdf_content : bytes) (a e : nat)
    (filename_bytes : bytes) (filename : str) (data_length : Z) (rest : bytes) :
  has_package w pdf_path pdf_content a e filename_bytes filename data_length rest →
  check_hidden_data pdf_path w = (Ok true, w).
Proof.
  intros Hpkg. pose proof (markers_found _ _ _ _ _ _ _ _ _ Hpkg) as Hm.
  destruct Hpkg as [Hpdf Hsig _ _ _ _ _ _].
  rewrite (check_hidden_data_valid _ _ _ Hpdf Hsig), !contains_find.
  apply orb_false_elim in Hm as [-> ->]. done.
Qed.

Lemma check_hidden_data_cases (w : world) (pdf_path : str) :
  check_hidden_data pdf_path w = (Ok false, w)
  ∨ (∃ pdf_content, w !! pdf_path = Some (File pdf_content)
        ∧ take 5 pdf_content = pdf_signature
        ∧ (find pdf_content MARKER =? -1) || (find pdf_content MARKER_END =? -1) = false
        ∧ check_hidden_data pdf_path w = (Ok true, w)).
Proof.
  destruct (validate_pdf_fail w pdf_path) as [(C & Hpdf & Hsig)|(x & Hx & Hexc)].
  - rewrite (check_hidden_data_valid _ _ _ Hpdf Hsig), !contains_find.
    destruct (find C MARKER =? -1) eqn:Hs; [by left|].
    destruct (find C MARKER_END =? -1) eqn:He; [by left|].
    right. exists C. by rewrite Hs, He.
  - left. unfold check_hidden_data, try_except, check_hidden_data_body.
    by rewrite (bind_Raise _ _ _ _ _ Hx), Hexc.
Qed.

(** What a successful [extract_file] has found and done. *)
Lemma extract_file_inv (w w' : world) (pdf_path output_dir p : str) :
  extract_file pdf_path output_dir w = (Ok (Some p), w') →
  ∃ pdf_content a e filename_bytes filename data_length rest (wd : world),
    has_package w pdf_path pdf_content a e filename_bytes filename data_length rest
    ∧ data_length ≤ len rest
    ∧ output_dir ≠ []
    ∧ os_makedirs output_dir w = (Ok tt, wd)
    ∧ wd !! output_dir = Some Dir
    ∧ (∀ q : str, q ≠ output_dir → wd !! q = w !! q)
    ∧ wd !! p = None
    ∧ (p = join output_dir filename
       ∨ ∃ k, 1 ≤ k ∧ p = candidate output_dir (splitext filename).1 (splitext filename).2 k)
    ∧ w' = <[p := File (take (Z.to_nat data_length) rest)]> wd.
Proof.
  intros Hrun.
  destruct (extract_file_cases w pdf_path output_dir)
    as [Hnone|(C & a & e & nb & name & dl & rest & Hpkg & Hlong & Hdir & Hnofile)];
    [congruence|].
  destruct (extract_file_ok w pdf_path output_dir _ _ _ _ _ _ _ Hpkg Hlong Hdir Hnofile)
    as (wd & p' & Hmk & Hd & Hother & Hfree & Hwhich & Hext).
  rewrite Hext in Hrun. injection Hrun as -> <-.
  exists C, a, e, nb, name, dl, rest, wd. split_and!; try done.
  destruct Hwhich as [[_ ->]|(_ & k & Hk & -> & _)]; [by left|right; by exists k].
Qed.

Lemma get_hidden_file_info_inv (w w' : world) (pdf_path filename : str) (data_length : Z) :
  get_hidden_file_info pdf_path w = (Ok (Some (filename, data_length)), w') →
  w' = w
  ∧ ∃ pdf_content a e filename_bytes rest,
      has_package w pdf_path pdf_content a e filename_bytes filename data_length rest.
Proof.
  intros Hrun.
  destruct (get_hidden_file_info_cases w pdf_path)
    as [Hnone|(C & a & e & nb & name & dl & rest & Hpkg & Hsome)]; [congruence|].
  rewrite Hsome in Hrun. injection Hrun as -> -> ->. split; [done|].
  by exists C, a, e, nb, rest.
Qed.

Lemma get_hidden_file_info_package (w : world) (pdf_path : str) (pdf_content : bytes) (a e : nat)
    (filename_bytes : bytes) (filename : str) (data_length : Z) (rest : bytes) :
  has_package w pdf_path pdf_content a e filename_bytes filename data_length rest →
  get_hidden_file_info pdf_path w = (Ok (Some (filename, data_length)), w).
Proof.
  intros Hpkg. unfold get_hidden_file_info, try_except.
  by rewrite (get_hidden_file_info_body_ok _ _ _ _ _ _ _ _ _ Hpkg).
Qed.

Lemma splitext_empty (p : str) :
  rfind p [extsep] ≤ rfind p [sep] + 1 → (splitext p).2 = [].
Proof.
  intros Hdot. unfold splitext.
  destruct (Z.ltb_spec (rfind p [sep]) (rfind p [extsep])) as [Hlt|Hge].
  - replace (Z.to_nat _) with 0%nat by lia. cbn [splitext_scan snd].
    rewrite slice_prefix by lia. by rewrite take_0.
  - cbn [snd]. rewrite slice_prefix by lia. by rewrite take_0.
Qed.

Lemma join_absolute (a b : str) : starts_with [sep] b = true → join a b = b.
Proof. unfold join. by intros ->. Qed.

Lemma splitext_base_head (p : str) :
  starts_with [sep] p = true → ∀ t, starts_with [sep] ((splitext p).1 ++ t) = true.
Proof.
  intros Hp t. destruct (splitext_spec p) as [Hsplit Hbase].
  destruct (splitext p).1 as [|c b]; cbn [fst snd] in *.
  - rewrite Hbase in Hp by done. done.
  - rewrite <- Hsplit in Hp. by destruct (splitext p).2.
Qed.

(** ** Embedding into what [hide_file] wrote *)

Section LastOccurrence.
Context {A : Type} `{EqDecision A}.
Implicit Types sub s a r : list A.
Local Open Scope nat_scope.

Lemma rfind_unique s sub i :
  occurs_at sub s i → i ≤ length s →
  (∀ j, i < j → j ≤ length s → ¬ occurs_at sub s j) →
  rfind s sub = Z.of_nat i.
Proof.
  intros Ho Hi Hmax.
  assert (rfind s sub ≠ (-1)%Z) as (i' & -> & Ho' & Hi' & Hmax')%rfind_last.
  { rewrite rfind_none. intros Hno. by apply (Hno i). }
  f_equal. destruct (Nat.lt_trichotomy i' i) as [Hlt|[->|Hlt]]; [|done|].
  - by destruct (Hmax' i).
  - by destruct (Hmax i').
Qed.

Lemma occurs_at_first c sub s j : occurs_at (c :: sub) s j → s !! j = Some c.
Proof.
  intros Ho. pose proof (occurs_at_lookup _ _ _ 0 Ho) as Hl.
  rewrite Nat.add_0_r in Hl. rewrite <- Hl; [done|cbn; lia].
Qed.

(** No occurrence of [c :: sub] starts inside a part without [c]. *)
Lemma no_occurrence_start c sub a r j :
  c ∉ a → j < length a → ¬ occurs_at (c :: sub) (a ++ r) j.
Proof.
  intros Hc Hj Ho%occurs_at_first. rewrite lookup_app_l in Ho by done.
  apply Hc. by apply list_elem_of_lookup_2 in Ho.
Qed.
End LastOccurrence.

Lemma rfind_modified_pdf (pdf_content filename_bytes hidden_data : bytes) :
  rfind pdf_content eof_marker ≠ -1 →
  find (package filename_bytes hidden_data) eof_marker = -1 →
  rfind (modified_pdf pdf_content filename_bytes hidden_data) eof_marker
  = rfind pdf_content eof_marker.
Proof.
  intros Heof Hpkg.
  destruct (kept_part_spec _ Heof) as (i & Hi & Ho & _ & Hk & Hlen).
  rewrite Hi. unfold modified_pdf.
  set (K := kept_part pdf_content) in *. set (pkg := package filename_bytes hidden_data) in *.
  assert (occurs_at eof_marker K i) as HoK.
  { rewrite Hk. apply occurs_at_take; [|done]. change (length eof_marker) with 5%nat. lia. }
  apply rfind_unique.
  - apply occurs_at_app_l; [|done]. rewrite Hlen. change (length eof_marker) with 5%nat. lia.
  - rewrite length_app. lia.
  - intros j Hj _ Hoj. destruct (decide (j < i + 5)%nat) as [Hin|Hout].
    + pose proof (occurs_at_split _ _ _ HoK ltac:(lia)) as HK.
      change (length eof_marker) with 5%nat in HK.
      rewrite (drop_ge K) in HK by lia. rewrite app_nil_r in HK.
      rewrite HK, <- (assoc_L (++)) in Hoj.
      replace j with (length (take i K) + (j - i))%nat in Hoj
        by (rewrite length_take; lia).
      apply occurs_at_app_r in Hoj.
      destruct (j - i)%nat as [|[|[|[|[|m]]]]] eqn:Hm; try lia.
      * by pose proof (occurs_at_lookup _ _ _ 1 Hoj ltac:(cbn; lia)).
      * by pose proof (occurs_at_lookup _ _ _ 0 Hoj ltac:(cbn; lia)).
      * by pose proof (occurs_at_lookup _ _ _ 0 Hoj ltac:(cbn; lia)).
      * by pose proof (occurs_at_lookup _ _ _ 0 Hoj ltac:(cbn; lia)).
    + replace j with (length K + (j - length K))%nat in Hoj by lia.
      apply occurs_at_app_r in Hoj.
      change (newline ++ MARKER ++ pkg ++ MARKER_END ++ newline)
        with ((newline ++ MARKER) ++ pkg ++ [x3c] ++ (tail MARKER_END ++ newline)) in Hoj.
      rewrite (assoc_L (++) pkg) in Hoj.
      set (A := newline ++ MARKER) in *. set (Z' := tail MARKER_END ++ newline) in *.
      destruct (decide (j - length K < length A)%nat) as [HA|HA].
      { revert Hoj. apply (no_occurrence_start x25); [|done].
        apply (bool_decide_unpack _). by vm_compute. }
      replace (j - length K)%nat with (length A + (j - length K - length A))%nat in Hoj by lia.
      apply occurs_at_app_r in Hoj.
      destruct (decide (j - length K - length A < length (pkg ++ [x3c]))%nat) as [HP|HP].
      { revert Hoj. apply no_occurrence_over_separator; [|done|done|done].
        apply (bool_decide_unpack _). by vm_compute. }
      replace (j - length K - length A)%nat
        with (length (pkg ++ [x3c]) + (j - length K - length A - length (pkg ++ [x3c])))%nat
        in Hoj by lia.
      apply occurs_at_app_r in Hoj.
      pose proof (occurs_at_length _ _ _ Hoj ltac:(done)) as Hl.
      rewrite <- (app_nil_r Z') in Hoj. revert Hoj.
      apply (no_occurrence_start x25).
      { apply (bool_decide_unpack _). by vm_compute. }
      change (length eof_marker) with 5%nat in Hl. lia.
Qed.

(** With no [%%EOF] in the package, the part [hide_file] keeps of what it
    wrote is the part it kept of the carrier. *)
Lemma kept_part_modified_pdf (pdf_content filename_bytes hidden_data : bytes) :
  rfind pdf_content eof_marker ≠ -1 →
  find (package filename_bytes hidden_data) eof_marker = -1 →
  kept_part (modified_pdf pdf_content filename_bytes hidden_data) = kept_part pdf_content.
Proof.
  intros Heof Hpkg. unfold kept_part at 1. rewrite (rfind_modified_pdf _ _ _ Heof Hpkg).
  destruct (kept_part_spec _ Heof) as (i & Hi & _ & _ & _ & Hlen).
  rewrite Hi. change (len eof_marker) with 5. rewrite slice_prefix by lia.
  unfold modified_pdf. apply take_app_length'. lia.
Qed.

(** ** Properties of the codec *)

(** X1. The header and data that [hide_file] packs (lines 77-88) are what
    the reads of [extract_file] (lines 152-163) get back: the length of the
    encoded name, the name itself after decoding, the length of the data and
    the data, for every name that can be encoded and all lengths that fit in
    32 bits. *)
Theorem X1_package_read_back (original_filename : str)
    (filename_bytes hidden_data b1 b2 : bytes) :
  str_encode_utf8 original_filename = Ok filename_bytes →
  struct_pack_I (len filename_bytes) = Ok b1 →
  struct_pack_I (len hidden_data) = Ok b2 →
  let hidden_package := b1 ++ filename_bytes ++ b2 ++ hidden_data in
  let data_length_pos := 4 + len filename_bytes in
  let data_start_pos := data_length_pos + 4 in
  struct_unpack_I (slice hidden_package 0 4) = Ok (len filename_bytes)
  ∧ bytes_decode_utf8 (slice hidden_package 4 (4 + len filename_bytes))
    = Ok original_filename
  ∧ struct_unpack_I (slice hidden_package data_length_pos (data_length_pos + 4))
    = Ok (len hidden_data)
  ∧ slice hidden_package data_start_pos (data_start_pos + len hidden_data) = hidden_data.
Proof.
  intros Hname [Hn1 ->]%struct_pack_inv [Hn2 ->]%struct_pack_inv. cbv zeta.
  unfold str_encode_utf8 in Hname.
  destruct (utf8_encode original_filename) as [x|] eqn:E; [|done]. injection Hname as ->.
  rewrite package_name_length_field, package_name_field, package_data_length_field.
  rewrite package_data_field by lia. rewrite !struct_unpack_le32 by done.
  unfold bytes_decode_utf8. rewrite (utf8_decode_encode _ _ E).
  split_and!; try done. unfold len. rewrite Nat2Z.id. by apply take_ge.
Qed.

Lemma X1_package_read_back_witness :
  let hidden_package := le32 5 ++ bytes_of "a.txt" ++ le32 2 ++ bytes_of "hi" in
  struct_unpack_I (slice hidden_package 0 4) = Ok (len (bytes_of "a.txt"))
  ∧ bytes_decode_utf8 (slice hidden_package 4 (4 + len (bytes_of "a.txt")))
    = Ok (str_of "a.txt")
  ∧ struct_unpack_I
      (slice hidden_package (4 + len (bytes_of "a.txt")) (4 + len (bytes_of "a.txt") + 4))
    = Ok (len (bytes_of "hi"))
  ∧ slice hidden_package (4 + len (bytes_of "a.txt") + 4)
      (4 + len (bytes_of "a.txt") + 4 + len (bytes_of "hi"))
    = bytes_of "hi".
Proof.
  apply (X1_package_read_back (str_of "a.txt") (bytes_of "a.txt") (bytes_of "hi")
           (le32 5) (le32 2)); vm_compute; reflexivity.
Defined.

(** X2. [validate_pdf], [check_hidden_data] and [get_hidden_file_info]
    only read: whatever the path and whatever they return or raise, the
    file system after the call is the file system before it. *)
Theorem X2_detect_describe_read_only (pdf_path : str) (w : world) :
  (validate_pdf pdf_path w).2 = w
  ∧ (check_hidden_data pdf_path w).2 = w
  ∧ (get_hidden_file_info pdf_path w).2 = w.
Proof.
  split_and!.
  - apply read_only_validate_pdf.
  - apply read_only_check_hidden_data.
  - apply read_only_get_hidden_file_info.
Qed.

(** X3. [hide_file] has two outcomes.  It returns [True] having written
    the modified PDF at [output_path], and this only when the carrier is a
    file that starts with [%PDF-] and contains [%%EOF], the payload is a
    file with an extension of the list, its base name can be encoded in
    UTF-8, the encoded name and the data are shorter than 2^32 bytes, and
    [output_path] is not empty and not a directory.  In every other case it
    returns [False] and the file system is as before. *)
Theorem X3_hide_file_outcomes (ul : str → str) (w : world)
    (pdf_path file_to_hide output_path : str) :
  hide_file ul pdf_path file_to_hide output_path w = (Ok false, w)
  ∨ ∃ pdf_content hidden_data filename_bytes,
      embeddable ul w pdf_path file_to_hide output_path pdf_content hidden_data filename_bytes
      ∧ hide_file ul pdf_path file_to_hide output_path w
        = (Ok true,
           <[output_path := File (modified_pdf pdf_content filename_bytes hidden_data)]> w).
Proof.
  destruct (hide_file_cases ul w pdf_path file_to_hide output_path) as [H|H];
    [by right|by left].
Qed.

(** X4. [hide_file] changes nothing but [output_path]: when [output_path]
    is a canonical path, every other canonical path, the carrier and the
    payload included, is bound after the call to what it was bound before,
    whether the call succeeds or fails.  Canonical paths that differ name
    different nodes. *)
Theorem X4_hide_file_touches_only_output (ul : str → str) (w : world)
    (pdf_path file_to_hide output_path q : str) :
  canonical output_path = true → canonical q = true → q ≠ output_path →
  (hide_file ul pdf_path file_to_hide output_path w).2 !! q = w !! q.
Proof.
  intros _ _ Hq.
  destruct (hide_file_cases ul w pdf_path file_to_hide output_path)
    as [(C & P & nb & _ & ->)| ->]; [|done].
  cbn [snd]. by rewrite lookup_insert_ne.
Qed.

Lemma X4_hide_file_touches_only_output_witness :
  (hide_file lower_identity (str_of "carrier.pdf") (str_of "secret.txt")
     (str_of "stego.pdf") scenario_world).2 !! str_of "carrier.pdf"
  = scenario_world !! str_of "carrier.pdf".
Proof.
  apply (X4_hide_file_touches_only_output lower_identity scenario_world);
    by vm_compute.
Defined.

(** X5. A payload path whose last dot is not after the first character of
    its base name has no extension for [os.path.splitext]: a name without a
    dot, or one like [.txt] or [docs/.pdf].  [hide_file] rejects it: it
    returns [False] and writes nothing. *)
Theorem X5_hide_file_rejects_without_extension (ul : str → str) (w : world)
    (pdf_path file_to_hide output_path : str) :
  rfind file_to_hide [extsep] ≤ rfind file_to_hide [sep] + 1 →
  hide_file ul pdf_path file_to_hide output_path w = (Ok false, w).
Proof.
  intros Hdot%splitext_empty.
  destruct (hide_file_cases ul w pdf_path file_to_hide output_path)
    as [(C & P & nb & Hemb & _)|H]; [|done].
  destruct Hemb as [_ _ Hfmt _ _ _ _ _ _ _]. by destruct (supported_ext_nonempty ul _ Hfmt).
Qed.

Lemma X5_hide_file_rejects_without_extension_witness :
  hide_file lower_identity (str_of "carrier.pdf") (str_of "docs/.txt") (str_of "out.pdf")
    (<[str_of "docs/.txt" := File (bytes_of "hello")]> scenario_world)
  = (Ok false, <[str_of "docs/.txt" := File (bytes_of "hello")]> scenario_world).
Proof.
  apply (X5_hide_file_rejects_without_extension lower_identity). vm_compute. discriminate.
Defined.

(** X6. The name a successful [hide_file] stores is the base name of the
    payload path, encoded: it is not empty and contains no [/], so that
    joining it to any directory gives a path made of that directory, at
    most one [/], and the name. *)
Theorem X6_hide_file_stored_name (ul : str → str) (w w1 : world)
    (pdf_path file_to_hide output_path output_dir : str) :
  hide_file ul pdf_path file_to_hide output_path w = (Ok true, w1) →
  (∃ pdf_content hidden_data filename_bytes,
      w1 !! output_path = Some (File (modified_pdf pdf_content filename_bytes hidden_data))
      ∧ utf8_encode (basename file_to_hide) = Some filename_bytes)
  ∧ basename file_to_hide ≠ []
  ∧ (sep ∉ basename file_to_hide)
  ∧ (join output_dir (basename file_to_hide) = output_dir ++ basename file_to_hide
     ∨ join output_dir (basename file_to_hide)
       = output_dir ++ [sep] ++ basename file_to_hide).
Proof.
  intros (C & P & nb & Hemb & ->)%hide_file_inv.
  destruct Hemb as [_ _ Hfmt _ Hname _ _ _ _ _]. split_and!.
  - exists C, P, nb. by rewrite lookup_insert_eq.
  - apply basename_nonempty. by apply (supported_ext_nonempty ul).
  - apply basename_no_sep.
  - unfold join. rewrite basename_relative. destruct (_ || _); [by left|by right].
Qed.

Lemma X6_hide_file_stored_name_witness :
  (∃ pdf_content hidden_data filename_bytes,
      scenario_embedded !! str_of "stego.pdf"
      = Some (File (modified_pdf pdf_content filename_bytes hidden_data))
      ∧ utf8_encode (basename (str_of "secret.txt")) = Some filename_bytes)
  ∧ basename (str_of "secret.txt") ≠ []
  ∧ (sep ∉ basename (str_of "secret.txt"))
  ∧ (join (str_of "D") (basename (str_of "secret.txt"))
     = str_of "D" ++ basename (str_of "secret.txt")
     ∨ join (str_of "D") (basename (str_of "secret.txt"))
       = str_of "D" ++ [sep] ++ basename (str_of "secret.txt")).
Proof.
  apply (X6_hide_file_stored_name lower_identity scenario_world scenario_embedded
           (str_of "carrier.pdf")).
  vm_compute. reflexivity.
Defined.

(** X7. Embedding into a file that [hide_file] wrote replaces the package:
    when the first package contains no [%%EOF], the second call writes
    exactly what it would have written for the original carrier. *)
Theorem X7_hide_file_again (ul : str → str) (w w1 w2 : world)
    (pdf_path file_to_hide output_path file_to_hide' output_path' : str)
    (pdf_content hidden_data filename_bytes hidden_data' filename_bytes' : bytes) :
  hide_file ul pdf_path file_to_hide output_path w = (Ok true, w1) →
  w !! pdf_path = Some (File pdf_content) →
  w !! file_to_hide = Some (File hidden_data) →
  utf8_encode (basename file_to_hide) = Some filename_bytes →
  contains (package filename_bytes hidden_data) eof_marker = false →
  hide_file ul output_path file_to_hide' output_path' w1 = (Ok true, w2) →
  w1 !! file_to_hide' = Some (File hidden_data') →
  utf8_encode (basename file_to_hide') = Some filename_bytes' →
  w2 !! output_path'
  = Some (File (modified_pdf pdf_content filename_bytes' hidden_data')).
Proof.
  intros Hrun Hpdf Hfile Hname Hno Hrun' Hfile' Hname'.
  destruct (hide_file_inv_named _ _ _ _ _ _ _ _ _ Hrun Hpdf Hfile Hname) as [Hemb ->].
  destruct Hemb as [_ _ _ _ _ _ _ Heof _ _].
  assert (find (package filename_bytes hidden_data) eof_marker = -1) as Hfind.
  { rewrite contains_find in Hno. by apply negb_false_iff, Z.eqb_eq in Hno. }
  destruct (hide_file_inv_named _ _ _ _ _ _ _ _ _ Hrun'
              ltac:(by rewrite lookup_insert_eq) Hfile' Hname') as [_ ->].
  rewrite lookup_insert_eq. unfold modified_pdf at 1.
  by rewrite kept_part_modified_pdf.
Qed.

Lemma X7_hide_file_again_witness :
  (hide_file lower_identity (str_of "stego.pdf") (str_of "secret.txt") (str_of "again.pdf")
     scenario_embedded).2 !! str_of "again.pdf"
  = Some (File (modified_pdf scenario_carrier (bytes_of "secret.txt") (bytes_of "hello"))).
Proof.
  apply (X7_hide_file_again lower_identity scenario_world scenario_embedded _
           (str_of "carrier.pdf") (str_of "secret.txt") (str_of "stego.pdf")
           (str_of "secret.txt") (str_of "again.pdf")
           scenario_carrier (bytes_of "hello") (bytes_of "secret.txt"));
    vm_compute; reflexivity.
Defined.

(** X8. [extract_file] never overwrites and never removes: whatever a path
    is bound to before the call, file or directory, it is bound to after it,
    on success and on failure. *)
Theorem X8_extract_file_keeps_existing (w : world) (pdf_path output_dir q : str) (n : node) :
  w !! q = Some n → (extract_file pdf_path output_dir w).2 !! q = Some n.
Proof.
  intros Hq.
  destruct (extract_file_cases w pdf_path output_dir)
    as [->|(C & a & e & nb & name & dl & rest & Hpkg & Hlong & Hdir & Hnofile)]; [done|].
  destruct (extract_file_ok w pdf_path output_dir _ _ _ _ _ _ _ Hpkg Hlong Hdir Hnofile)
    as (wd & p & _ & Hd & Hother & Hfree & _ & ->).
  cbn [snd]. assert (wd !! q = Some n) as Hwd.
  { destruct (decide (q = output_dir)) as [->|Hne]; [|by rewrite Hother].
    rewrite Hd. destruct n as [c|]; [|done]. by destruct (Hnofile c). }
  rewrite lookup_insert_ne; [done|]. congruence.
Qed.

Lemma X8_extract_file_keeps_existing_witness :
  (extract_file (str_of "stego.pdf") (str_of "D") scenario_embedded).2 !! str_of "stego.pdf"
  = Some (File (modified_pdf scenario_carrier (bytes_of "secret.txt") (bytes_of "hello"))).
Proof.
  apply (X8_extract_file_keeps_existing scenario_embedded). vm_compute. reflexivity.
Defined.

(** X9. When [extract_file] returns a path, that path is not empty and was
    not bound before the call; it now holds a file whose length is the size
    [get_hidden_file_info] reports for the same carrier, under the name
    [get_hidden_file_info] reports, possibly numbered; and
    [check_hidden_data] is [True] on that carrier. *)
Theorem X9_extract_file_written (w w' : world) (pdf_path output_dir p : str) :
  extract_file pdf_path output_dir w = (Ok (Some p), w') →
  ∃ (filename : str) (data_length : Z) (hidden_data : bytes),
    get_hidden_file_info pdf_path w = (Ok (Some (filename, data_length)), w)
    ∧ check_hidden_data pdf_path w = (Ok true, w)
    ∧ p ≠ []
    ∧ w !! p = None
    ∧ w' !! p = Some (File hidden_data)
    ∧ len hidden_data = data_length
    ∧ (p = join output_dir filename
       ∨ ∃ k, 1 ≤ k
           ∧ p = candidate output_dir (splitext filename).1 (splitext filename).2 k).
Proof.
  intros (C & a & e & nb & name & dl & rest & wd & Hpkg & Hlong & Hdir & _ & Hd & Hother
          & Hfree & Hwhich & ->)%extract_file_inv.
  exists name, dl, (take (Z.to_nat dl) rest). split_and!.
  - by apply (get_hidden_file_info_package _ _ _ _ _ _ _ _ _ Hpkg).
  - by apply (check_hidden_data_package _ _ _ _ _ _ _ _ _ Hpkg).
  - destruct Hwhich as [->|(k & _ & ->)]; by apply join_nonempty.
  - rewrite <- Hother; [done|]. congruence.
  - by rewrite lookup_insert_eq.
  - destruct Hpkg as [_ _ _ _ _ _ _ Hdl]. unfold len in *. rewrite length_take. lia.
  - done.
Qed.

Lemma X9_extract_file_written_witness :
  ∃ (filename : str) (data_length : Z) (hidden_data : bytes),
    get_hidden_file_info (str_of "stego.pdf") scenario_embedded
    = (Ok (Some (filename, data_length)), scenario_embedded)
    ∧ check_hidden_data (str_of "stego.pdf") scenario_embedded = (Ok true, scenario_embedded)
    ∧ str_of "D/secret.txt" ≠ []
    ∧ scenario_embedded !! str_of "D/secret.txt" = None
    ∧ (extract_file (str_of "stego.pdf") (str_of "D") scenario_embedded).2
        !! str_of "D/secret.txt" = Some (File hidden_data)
    ∧ len hidden_data = data_length
    ∧ (str_of "D/secret.txt" = join (str_of "D") filename
       ∨ ∃ k, 1 ≤ k
           ∧ str_of "D/secret.txt"
             = candidate (str_of "D") (splitext filename).1 (splitext filename).2 k).
Proof.
  apply (X9_extract_file_written scenario_embedded). vm_compute. reflexivity.
Defined.

(** X10. A stored name that is an absolute path takes [extract_file] out of
    [output_dir]: when [get_hidden_file_info] reports a name that starts
    with [/] and [extract_file] returns a path, that path is the stored name
    itself, or the stored name numbered before its extension; [output_dir]
    is no part of it. *)
Theorem X10_extract_file_absolute_name (w w' : world) (pdf_path output_dir p filename : str)
    (data_length : Z) :
  get_hidden_file_info pdf_path w = (Ok (Some (filename, data_length)), w) →
  starts_with [sep] filename = true →
  extract_file pdf_path output_dir w = (Ok (Some p), w') →
  p = filename
  ∨ ∃ k, 1 ≤ k
      ∧ p = (splitext filename).1 ++ str_of "_" ++ str_of_int k ++ (splitext filename).2.
Proof.
  intros Hinfo Habs
    (C & a & e & nb & name & dl & rest & wd & Hpkg & _ & _ & _ & _ & _ & _ & Hwhich & _)
      %extract_file_inv.
  rewrite (get_hidden_file_info_package _ _ _ _ _ _ _ _ _ Hpkg) in Hinfo.
  injection Hinfo as -> ->.
  destruct Hwhich as [->|(k & Hk & ->)].
  - left. by apply join_absolute.
  - right. exists k. split; [done|]. unfold candidate. apply join_absolute.
    by apply splitext_base_head.
Qed.

Lemma X10_extract_file_absolute_name_witness :
  extract_file (str_of "crafted.pdf") (str_of "D") absolute_world
  = (Ok (Some (str_of "/tmp/x")),
     <[str_of "/tmp/x" := File (bytes_of "hi")]> (<[str_of "D" := Dir]> absolute_world))
  ∧ (str_of "/tmp/x" = str_of "/tmp/x"
     ∨ ∃ k, 1 ≤ k
         ∧ str_of "/tmp/x"
           = (splitext (str_of "/tmp/x")).1 ++ str_of "_" ++ str_of_int k
             ++ (splitext (str_of "/tmp/x")).2).
Proof.
  split; [vm_compute; reflexivity|].
  apply (X10_extract_file_absolute_name absolute_world
           (extract_file (str_of "crafted.pdf") (str_of "D") absolute_world).2
           (str_of "crafted.pdf") (str_of "D") (str_of "/tmp/x") (str_of "/tmp/x") 2);
    vm_compute; reflexivity.
Defined.

(** X11. When [get_hidden_file_info] returns a name and a size, the file
    system is unchanged, [check_hidden_data] is [True] on the same carrier,
    the size fits in 32 bits and the name is the decoding of fewer than 2^32
    bytes. *)
Theorem X11_get_hidden_file_info_some (w w' : world) (pdf_path filename : str) (data_length : Z) :
  get_hidden_file_info pdf_path w = (Ok (Some (filename, data_length)), w') →
  w' = w
  ∧ check_hidden_data pdf_path w = (Ok true, w)
  ∧ 0 ≤ data_length < 2 ^ 32
  ∧ ∃ filename_bytes : bytes,
      utf8_decode filename_bytes = Some filename ∧ len filename_bytes < 2 ^ 32.
Proof.
  intros (-> & C & a & e & nb & rest & Hpkg)%get_hidden_file_info_inv.
  split_and!; [done|by apply (check_hidden_data_package _ _ _ _ _ _ _ _ _ Hpkg)|..].
  all: destruct Hpkg as [_ _ _ _ _ Hname Hnl Hdl]; try lia.
  by exists nb.
Qed.

Lemma X11_get_hidden_file_info_some_witness :
  short_world = short_world
  ∧ check_hidden_data (str_of "short.pdf") short_world = (Ok true, short_world)
  ∧ 0 ≤ 9 < 2 ^ 32
  ∧ ∃ filename_bytes : bytes,
      utf8_decode filename_bytes = Some (str_of "a.txt") ∧ len filename_bytes < 2 ^ 32.
Proof.
  apply (X11_get_hidden_file_info_some short_world short_world (str_of "short.pdf")).
  vm_compute. reflexivity.
Defined.

(** X12. A carrier on which [check_hidden_data] is [False] gives nothing:
    [get_hidden_file_info] returns [None], and [extract_file] returns [None]
    for every output directory and creates nothing, not even the
    directory. *)
Theorem X12_undetected_gives_nothing (w : world) (pdf_path output_dir : str) :
  check_hidden_data pdf_path w = (Ok false, w) →
  get_hidden_file_info pdf_path w = (Ok None, w)
  ∧ extract_file pdf_path output_dir w = (Ok None, w).
Proof.
  intros Hcheck. split.
  - destruct (get_hidden_file_info_cases w pdf_path)
      as [Hnone|(C & a & e & nb & name & dl & rest & Hpkg & _)]; [done|].
    rewrite (check_hidden_data_package _ _ _ _ _ _ _ _ _ Hpkg) in Hcheck. done.
  - destruct (extract_file_cases w pdf_path output_dir)
      as [Hnone|(C & a & e & nb & name & dl & rest & Hpkg & _)]; [done|].
    rewrite (check_hidden_data_package _ _ _ _ _ _ _ _ _ Hpkg) in Hcheck. done.
Qed.

Lemma X12_undetected_gives_nothing_witness :
  get_hidden_file_info (str_of "carrier.pdf") scenario_world = (Ok None, scenario_world)
  ∧ extract_file (str_of "carrier.pdf") (str_of "D") scenario_world
    = (Ok None, scenario_world).
Proof.
  apply (X12_undetected_gives_nothing scenario_world). vm_compute. reflexivity.
Defined.

(** ** The commands of [cli.py] *)

Lemma get_hidden_file_info_returns (w : world) (pdf_path : str) :
  ∃ info, get_hidden_file_info pdf_path w = (Ok info, w).
Proof.
  destruct (get_hidden_file_info_cases w pdf_path)
    as [Hnone|(C & a & e & nb & name & dl & rest & _ & Hsome)]; by eexists.
Qed.

Lemma extract_file_returns (w : world) (pdf_path output_dir : str) :
  extract_file pdf_path output_dir w = (Ok None, w)
  ∨ ∃ (p : str) (w' : world),
      p ≠ [] ∧ extract_file pdf_path output_dir w = (Ok (Some p), w').
Proof.
  destruct (extract_file_cases w pdf_path output_dir)
    as [Hnone|(C & a & e & nb & name & dl & rest & Hpkg & Hlong & Hdir & Hnofile)];
    [by left|right].
  destruct (extract_file_ok w pdf_path output_dir _ _ _ _ _ _ _ Hpkg Hlong Hdir Hnofile)
    as (wd & p & _ & _ & _ & _ & Hwhich & Hext).
  exists p, (<[p := File (take (Z.to_nat dl) rest)]> wd). split; [|done].
  destruct Hwhich as [[_ ->]|(_ & k & _ & -> & _)]; by apply join_nonempty.
Qed.

(** X14. The exit code of [extract_command] is 0 exactly when
    [extract_file] on the same arguments returns a path, and the command
    does to the file system what [extract_file] does: the check it makes
    first, and the path it is given back, which is never empty, do not
    change the code. *)
Theorem X14_extract_command_exit_code (w : world) (pdf output : str) :
  extract_command pdf output w
  = (Ok (match (extract_file pdf output w).1 with Ok (Some _) => 0 | _ => 1 end),
     (extract_file pdf output w).2).
Proof.
  unfold extract_command.
  destruct (check_hidden_data_cases w pdf) as [Hcheck|(C & _ & _ & _ & Hcheck)];
    rewrite (bind_Ok _ _ _ _ _ Hcheck); cbn [negb].
  - destruct (extract_file_cases w pdf output)
      as [->|(C & a & e & nb & name & dl & rest & Hpkg & _)]; [done|].
    rewrite (check_hidden_data_package _ _ _ _ _ _ _ _ _ Hpkg) in Hcheck. done.
  - destruct (get_hidden_file_info_returns w pdf) as [info Hinfo].
    rewrite (bind_Ok _ _ _ _ _ Hinfo). unfold bind.
    destruct (extract_file_returns w pdf output) as [->|(p & w' & Hp & ->)]; [done|].
    by destruct p.
Qed.

(** X15. On a standard output that encodes every character,
    [check_command], with everything it prints, returns 0 for every path,
    also for a missing file or a file that is not a PDF, and changes
    nothing: the methods it calls return, every print goes through, and its
    [except] branch, which returns 1, is not taken. *)
Theorem X15_check_command_exit_code (encodable : N → bool) (str_exn : exn → str)
    (format_size : Z → str) (w : world) (pdf : str) :
  (∀ c, encodable c = true) →
  check_command_printing encodable str_exn format_size pdf w = (Ok 0, w).
Proof.
  intros Hall. unfold check_command_printing. rewrite !(print_then _ Hall).
  unfold try_except. unfold bind at 1.
  rewrite (check_hidden_data_printing_eq _ _ Hall).
  destruct (check_hidden_data_cases w pdf) as [->|(C & _ & _ & _ & ->)].
  - by rewrite !(print_then _ Hall).
  - unfold bind at 1. unfold bind at 1.
    rewrite (get_hidden_file_info_printing_eq _ _ Hall).
    destruct (get_hidden_file_info_returns w pdf) as [[[filename size]|] ->].
    + rewrite !(print_then _ Hall), (print_ok _ Hall).
      by rewrite (print_then _ Hall).
    + rewrite (print_ok _ Hall). by rewrite (print_then _ Hall).
Qed.

Lemma X15_check_command_exit_code_witness :
  check_command_printing unicode_stdout scenario_str_exn (λ _, str_of "5.00 B")
    (str_of "stego.pdf") scenario_embedded
  = (Ok 0, scenario_embedded).
Proof. apply X15_check_command_exit_code. reflexivity. Defined.

(** ** The loop of [extract_file] *)

(** X16. The [while os.path.exists(output_path)] loop of [extract_file]
    ends in every file system, for every directory and name: it returns a
    path that does not exist, the first one among the path it starts with
    and the numbered ones, numbered from 1, and it changes nothing.  The
    bound on the number of tests that the model gives the loop is never
    reached. *)
Theorem X16_unique_path_first_free (w : world) (output_dir base_name ext output_path : str) :
  ∃ p : str,
    unique_path output_dir base_name ext output_path w = (Ok p, w)
    ∧ w !! p = None
    ∧ ((w !! output_path = None ∧ p = output_path)
       ∨ (is_Some (w !! output_path)
          ∧ ∃ k, 1 ≤ k
              ∧ p = candidate output_dir base_name ext k
              ∧ ∀ j, 1 ≤ j < k → is_Some (w !! candidate output_dir base_name ext j))).
Proof. apply unique_path_spec. Qed.
